(** * Multisig wallet registry and transaction lifecycle engine

    A shallow embedding of [lib/btc-multisig] (wallet.ts, transaction.ts,
    utils.ts, interface.ts): wallet creation, transaction initiation,
    signature collection, cancellation, broadcast and confirmation polling,
    over an explicit key/value store. *)

From Stdlib Require Import ZArith QArith Qround Qabs Qpower String Ascii List Lia Lqa.
From stdpp Require Import gmap strings list fin_maps pretty sorting.

Local Open Scope string_scope.
Local Open Scope Z_scope.

(** ** Results and exceptions

    Every [throw new Error(msg)] of the source is a [Throw msg]; the message
    is kept verbatim, template literals included. *)

Inductive result (A : Type) : Type :=
| Ok (a : A)
| Throw (msg : string).
Arguments Ok {A} a.
Arguments Throw {A} msg.

Definition is_Ok {A} (r : result A) : bool :=
  match r with Ok _ => true | Throw _ => false end.

#[global] Instance result_ret : MRet result := fun _ a => Ok a.
#[global] Instance result_bind : MBind result := fun _ _ f r =>
  match r with Ok a => f a | Throw e => Throw e end.

(** ** Primitive JavaScript values *)

Abbreviation HexString := string (only parsing).
(** A Node [Buffer]: a byte string. *)
Abbreviation Buffer := string (only parsing).

(** [Buffer.from(s)] on a JavaScript string (bytes of the text). *)
Definition Buffer_from (s : string) : Buffer := s.

Definition hex_digit (n : N) : ascii :=
  match n with
  | 0 => "0" | 1 => "1" | 2 => "2" | 3 => "3" | 4 => "4" | 5 => "5"
  | 6 => "6" | 7 => "7" | 8 => "8" | 9 => "9" | 10 => "a" | 11 => "b"
  | 12 => "c" | 13 => "d" | 14 => "e" | _ => "f"
  end%N%char.

Definition hex_of_byte (c : ascii) : string :=
  let n := N_of_ascii c in
  String (hex_digit (n / 16)) (String (hex_digit (n mod 16)) EmptyString).

(** [buf.toString("hex")]. *)
Fixpoint Buffer_toString_hex (b : Buffer) : HexString :=
  match b with
  | EmptyString => EmptyString
  | String c r => hex_of_byte c +:+ Buffer_toString_hex r
  end.

Definition hex_value (c : ascii) : option N :=
  let n := N_of_ascii c in
  if ((48 <=? n) && (n <=? 57))%N then Some (n - 48)%N
  else if ((97 <=? n) && (n <=? 102))%N then Some (n - 87)%N
  else if ((65 <=? n) && (n <=? 70))%N then Some (n - 55)%N
  else None.

(** [Buffer.from(s, "hex")]: decoding stops at the first pair that is not
    two hexadecimal digits. *)
Fixpoint Buffer_from_hex (s : HexString) : Buffer :=
  match s with
  | String a (String b r) =>
      match hex_value a, hex_value b with
      | Some x, Some y => String (ascii_of_N (16 * x + y)) (Buffer_from_hex r)
      | _, _ => EmptyString
      end
  | _ => EmptyString
  end.

(** JavaScript truthiness of a string. *)
Definition truthy (s : string) : bool :=
  match s with EmptyString => false | _ => true end.

(** A JavaScript [number] holding a finite value is a rational here. *)
Definition Number_isInteger (x : Q) : bool :=
  Qnum x mod Zpos (Qden x) =? 0.

Definition Number_toZ (x : Q) : Z := Qnum x / Zpos (Qden x).

Definition Qlt_bool (a b : Q) : bool := negb (Qle_bool b a).

(** [Math.ceil] and [Math.round]. *)
Definition Math_ceil (x : Q) : Z := Qceiling x.
Definition Math_round (x : Q) : Z := Qfloor (x + (1 # 2))%Q.

(** *** Double precision

    A finite [number] is an IEEE 754 binary64 value: one of the rationals
    [m * 2^e] with [|m| < 2^53] and [-1074 <= e]. A number is given here by
    the rational it denotes. [binary64 x] is the number nearest to a real
    [x], ties going to the even [m]: [x] itself when [x] is a number, the
    value a literal or a JSON number written [x] evaluates to, and what [*]
    and [/] return for the exact product or quotient of two numbers. Satoshi
    amounts and counts are integers, kept in [Z], on which the arithmetic of
    the source is exact below [2^53]. [Infinity] (magnitudes of [2^1024] and
    more) and [NaN] are not represented. *)

(** The nearest integer, ties to even. *)
Definition round_half_even (x : Q) : Z :=
  let f := Qfloor x in
  match (x - inject_Z f ?= 1 # 2)%Q with
  | Lt => f
  | Gt => f + 1
  | Eq => if Z.even f then f else f + 1
  end.

(** The [k] with [2^k <= |x| < 2^(k+1)], for [x] other than 0. *)
Definition Qlog2 (x : Q) : Z :=
  let k := Z.log2 (Z.abs (Qnum x)) - Z.log2 (Zpos (Qden x)) in
  if Qlt_bool (Qabs x) (2 ^ k)%Q then k - 1 else k.

(** The exponent of the last place of the double nearest to [x]: 52 binary
    places below the leading one, and never below that of the subnormals. *)
Definition binary64_exponent (x : Q) : Z := Z.max (Qlog2 x - 52) (-1074).

Definition binary64 (x : Q) : Q :=
  let e := binary64_exponent x in
  (inject_Z (round_half_even (x / 2 ^ e)) * 2 ^ e)%Q.

(** [x * y] and [x / y]: the operands are read as numbers and the exact
    result is rounded to one. *)
Definition Number_mul (x y : Q) : Q := binary64 (binary64 x * binary64 y).
Definition Number_div (x y : Q) : Q := binary64 (binary64 x / binary64 y).

(** Rounding is evaluated on concrete numbers only. *)
Arguments binary64 : simpl never.
Arguments Number_mul : simpl never.
Arguments Number_div : simpl never.
Strategy opaque [binary64 Number_mul Number_div].

(** ** interface.ts *)

Inductive TransactionStatus : Type :=
| pending
| allsigned
| broadcasted
| finished
| cancelled.

#[global] Instance TransactionStatus_eq_dec : EqDecision TransactionStatus.
Proof. solve_decision. Defined.

(** The string value of each enum member. *)
Definition status_value (st : TransactionStatus) : string :=
  match st with
  | pending => "pending_signatures"
  | allsigned => "finished_signatures"
  | broadcasted => "broadcasted"
  | finished => "confirmed"
  | cancelled => "cancelled"
  end.

Module Participant.
Record t : Type := mk { publicKey : HexString; userId : string }.
End Participant.

Module Wallet.
Record t : Type := mk {
  walletId : string;
  address : string;
  redeemScript : HexString;
  m : Z;
  n : Z;
  name : string;
  creationTime : string;
  participants : list Participant.t
}.
End Wallet.

Module Transaction.
Record t : Type := mk {
  transactionId : string;
  walletId : string;
  recipientAddress : string;
  amount : Z;
  status : TransactionStatus;
  psbt : HexString;
  inputCount : Z;
  requiredSignatures : Z;
  signatures : gmap string (list HexString);
  signaturesReceived : Z;
  signedTransaction : option HexString;
  initiatedTime : string;
  txHash : option HexString;
  broadcastTime : option string;
  note : option string
}.

(** Field assignments [transaction.f = v] on the loaded record. *)
Definition set_status (v : TransactionStatus) (x : t) : t :=
  mk (transactionId x) (walletId x) (recipientAddress x) (amount x) v
     (psbt x) (inputCount x) (requiredSignatures x) (signatures x)
     (signaturesReceived x) (signedTransaction x) (initiatedTime x)
     (txHash x) (broadcastTime x) (note x).

Definition set_psbt (v : HexString) (x : t) : t :=
  mk (transactionId x) (walletId x) (recipientAddress x) (amount x) (status x)
     v (inputCount x) (requiredSignatures x) (signatures x)
     (signaturesReceived x) (signedTransaction x) (initiatedTime x)
     (txHash x) (broadcastTime x) (note x).

Definition set_signatures (v : gmap string (list HexString)) (x : t) : t :=
  mk (transactionId x) (walletId x) (recipientAddress x) (amount x) (status x)
     (psbt x) (inputCount x) (requiredSignatures x) v
     (signaturesReceived x) (signedTransaction x) (initiatedTime x)
     (txHash x) (broadcastTime x) (note x).

Definition set_signaturesReceived (v : Z) (x : t) : t :=
  mk (transactionId x) (walletId x) (recipientAddress x) (amount x) (status x)
     (psbt x) (inputCount x) (requiredSignatures x) (signatures x)
     v (signedTransaction x) (initiatedTime x)
     (txHash x) (broadcastTime x) (note x).

Definition set_signedTransaction (v : option HexString) (x : t) : t :=
  mk (transactionId x) (walletId x) (recipientAddress x) (amount x) (status x)
     (psbt x) (inputCount x) (requiredSignatures x) (signatures x)
     (signaturesReceived x) v (initiatedTime x)
     (txHash x) (broadcastTime x) (note x).

Definition set_txHash (v : option HexString) (x : t) : t :=
  mk (transactionId x) (walletId x) (recipientAddress x) (amount x) (status x)
     (psbt x) (inputCount x) (requiredSignatures x) (signatures x)
     (signaturesReceived x) (signedTransaction x) (initiatedTime x)
     v (broadcastTime x) (note x).

Definition set_broadcastTime (v : option string) (x : t) : t :=
  mk (transactionId x) (walletId x) (recipientAddress x) (amount x) (status x)
     (psbt x) (inputCount x) (requiredSignatures x) (signatures x)
     (signaturesReceived x) (signedTransaction x) (initiatedTime x)
     (txHash x) v (note x).
End Transaction.

(** ** The script/address library ([SecuxPsbt], [SecuxBTC])

    The template is kept as data: the multisig policy, the inputs and outputs
    added so far and the signatures applied so far. What the library decides
    by cryptography or by its wire format is a field of [Lib]. *)

Module Utxo.
Record t : Type := mk { hash : string; vout : Z; satoshis : Z }.
End Utxo.

Module Output.
Record t : Type := mk { address : string; satoshis : Z }.
End Output.

Module SecuxPsbt.
Record t : Type := mk {
  multisig : option (Z * list HexString);
  inputs : list Utxo.t;
  outputs : list Output.t;
  partialSigs : list (nat * Buffer * Buffer)
}.
End SecuxPsbt.

Inductive ScriptType : Type :=
| P2PKH
| P2SH
| P2WPKH
| P2WSH
| P2TR
| ScriptType_other.

Record Lib : Type := mkLib {
  (** [sha256().update(s).digest("hex")] *)
  sha256_hex : string -> HexString;
  Base58_encode : Buffer -> string;
  (** address and redeem script of an m-of-keys policy; throws on bad keys *)
  multisig_script : Z -> list HexString -> result (string * HexString);
  (** whether the template accepts a signature for an input *)
  signature_check : SecuxPsbt.t -> nat -> Buffer -> Buffer -> result unit;
  (** [finalizeAllInputs().extractTransaction().toHex()] *)
  finalize_extract : SecuxPsbt.t -> result HexString;
  psbt_serialize : SecuxPsbt.t -> Buffer;
  psbt_parse : Buffer -> result SecuxPsbt.t;
  getScriptType : string -> result ScriptType;
  (** [getByteCount(inputs, outputs)] of ./getByteCount *)
  getByteCount : gmap string Z -> gmap string Z -> result Z
}.

(** ** The network and the clock, as seen by one call *)

Module Unspent.
Record t : Type := mk { txid : string; vout : Z; amount : Q }.
End Unspent.

Module ScanResult.
Record t : Type := mk { success : bool; unspents : list Unspent.t }.
End ScanResult.

Module Response.
Record t (A : Type) : Type := mk { ok : bool; statusText : string; json : A }.
Arguments mk {A} ok statusText json.
Arguments ok {A} _.
Arguments statusText {A} _.
Arguments json {A} _.
End Response.

Module TxDetails.
Record t : Type := mk { confirmations : option Z }.
End TxDetails.

Record Net : Type := mkNet {
  (** [new Date().toISOString()] *)
  now : string;
  (** [fetch] of the scantxoutset request; [Throw] when the fetch rejects *)
  fetch_scantxoutset : string -> result (Response.t ScanResult.t);
  (** [fetch] of the sendrawtransaction request; the body's [result] *)
  fetch_sendrawtransaction : HexString -> result (Response.t (option string));
  (** [bitcoinRpcCall("getrawtransaction", [txHash, true])] *)
  rpc_getrawtransaction : HexString -> result (option TxDetails.t)
}.

(** ** kvStore

    Keys are [wallet:<id>], [tx:<id>] and [_id:<prefix>]; the three
    prefixes never collide, so each namespace is a map of its own. *)

Record Store : Type := mkStore {
  wallets : gmap string Wallet.t;
  txs : gmap string Transaction.t;
  ids : gmap string string
}.

Definition empty_store : Store := mkStore ∅ ∅ ∅.

(** An asynchronous engine function: it reads and writes the store and may
    throw; writes made before a throw stay. *)
Definition M (A : Type) : Type := Store -> result A * Store.

#[global] Instance M_ret : MRet M := fun _ a s => (Ok a, s).
#[global] Instance M_bind : MBind M := fun _ _ f c s =>
  match c s with
  | (Ok a, s') => f a s'
  | (Throw e, s') => (Throw e, s')
  end.

Definition throw {A} (msg : string) : M A := fun s => (Throw msg, s).
Definition lift {A} (r : result A) : M A := fun s => (r, s).
Definition try_catch {A} (body : M A) (handler : string -> M A) : M A :=
  fun s => match body s with
           | (Ok a, s') => (Ok a, s')
           | (Throw e, s') => handler e s'
           end.

Definition kvStore_get_wallet (walletId : string) : M (option Wallet.t) :=
  fun s => (Ok (wallets s !! walletId), s).
Definition kvStore_put_wallet (walletId : string) (w : Wallet.t) : M unit :=
  fun s => (Ok tt, mkStore (<[walletId := w]> (wallets s)) (txs s) (ids s)).
Definition kvStore_get_tx (transactionId : string) : M (option Transaction.t) :=
  fun s => (Ok (txs s !! transactionId), s).
Definition kvStore_put_tx (transactionId : string) (t : Transaction.t) : M unit :=
  fun s => (Ok tt, mkStore (wallets s) (<[transactionId := t]> (txs s)) (ids s)).
Definition kvStore_put_id (prefix : string) (walletId : string) : M unit :=
  fun s => (Ok tt, mkStore (wallets s) (txs s) (<[prefix := walletId]> (ids s))).

(** ** Arguments and return values of the engine functions *)

Module CreateParams.
Record participant : Type := mkp { publicKey : HexString; userId : option string }.
Record t : Type := mk {
  m : Q;
  n : Q;
  name : option string;
  participants : list participant
}.
End CreateParams.

Module WalletSummary.
Record t : Type := mk {
  walletId : string;
  address : string;
  redeemScript : HexString;
  m : Z;
  n : Z;
  name : string;
  creationTime : string
}.
End WalletSummary.

Module InitiateParams.
Record t : Type := mk {
  recipientAddress : string;
  amount : Z;
  (** a number, given by the rational it denotes or is written as *)
  feeRate : option Q;
  note : option string
}.
End InitiateParams.

Module SubmitSummary.
Record t : Type := mk {
  transactionId : string;
  status : TransactionStatus;
  signaturesReceived : Z;
  requiredSignatures : Z
}.
End SubmitSummary.

Module BroadcastReceipt.
Record t : Type := mk {
  transactionId : string;
  status : TransactionStatus;
  txHash : HexString;
  broadcastTime : option string;
  message : string
}.
End BroadcastReceipt.

Module StatusSummary.
Record t : Type := mk {
  transactionId : string;
  walletId : string;
  status : TransactionStatus;
  initiatedTime : string;
  txHash : option HexString;
  broadcastTime : option string;
  requiredSignatures : Z;
  signaturesReceived : Z
}.
End StatusSummary.

Module CancelSummary.
Record t : Type := mk { transactionId : string; status : TransactionStatus }.
End CancelSummary.

(** ** utils.ts *)

Section Engine.
Context (L : Lib).

(** SecuxPsbt methods. [addMultiSigInput] and [AddOutput] append; the
    recipient address has been classified by [getScriptType] before any
    output is added. *)
Definition new_SecuxPsbt : SecuxPsbt.t := SecuxPsbt.mk None [] [] [].

Definition initializeMultiSig (p : SecuxPsbt.t) (m : Z) (publicKeys : list HexString)
  : result (SecuxPsbt.t * (string * HexString)) :=
  r ← multisig_script L m publicKeys;
  mret (SecuxPsbt.mk (Some (m, publicKeys)) (SecuxPsbt.inputs p)
          (SecuxPsbt.outputs p) (SecuxPsbt.partialSigs p), r).

Definition addMultiSigInput (p : SecuxPsbt.t) (u : Utxo.t) : SecuxPsbt.t :=
  SecuxPsbt.mk (SecuxPsbt.multisig p) (SecuxPsbt.inputs p ++ [u])
    (SecuxPsbt.outputs p) (SecuxPsbt.partialSigs p).

Definition AddOutput (p : SecuxPsbt.t) (o : Output.t) : SecuxPsbt.t :=
  SecuxPsbt.mk (SecuxPsbt.multisig p) (SecuxPsbt.inputs p)
    (SecuxPsbt.outputs p ++ [o]) (SecuxPsbt.partialSigs p).

Definition psbt_submitSignature (p : SecuxPsbt.t) (i : nat) (publickey signature : Buffer)
  : result SecuxPsbt.t :=
  _ ← signature_check L p i publickey signature;
  mret (SecuxPsbt.mk (SecuxPsbt.multisig p) (SecuxPsbt.inputs p)
          (SecuxPsbt.outputs p) (SecuxPsbt.partialSigs p ++ [(i, publickey, signature)])).

Definition toBuffer (p : SecuxPsbt.t) : Buffer := psbt_serialize L p.
Definition FromBuffer (b : Buffer) : result SecuxPsbt.t := psbt_parse L b.

Definition customHash (data : Buffer) : result string :=
  let hex := Buffer_toString_hex data in
  let hash := sha256_hex L hex in
  let hashBuffer := Buffer_from_hex hash in
  let encoded := Base58_encode L hashBuffer in
  if negb (truthy encoded)
  then Throw ("Failed to encode hash with Base58. Got: string, value: " +:+ encoded)
  else Ok encoded.

Definition generateWalletId (prefix : string) : M string :=
  walletId ← lift (customHash (Buffer_from (prefix +:+ "#secux_btc_multisig")));
  _ ← kvStore_put_id prefix walletId;
  mret walletId.

Section Calls.
Context (N : Net).

Definition getUTXOs (address : string) : result (list Unspent.t) :=
  response ← fetch_scantxoutset N address;
  if negb (Response.ok response)
  then Throw ("❌ Failed to fetch UTXOs: " +:+ Response.statusText response)
  else
    let result := Response.json response in
    if negb (ScanResult.success result)
       || (length (ScanResult.unspents result) =? 0)%nat
    then Throw "❌ No usable UTXOs found."
    else Ok (ScanResult.unspents result).

Definition getUTXOsBlockbook (address : string) : result (list Utxo.t) :=
  unspents ← getUTXOs address;
  let data := filter (λ u, Qlt_bool (2 # 100) (Unspent.amount u) = true) unspents in
  mret (map (λ u, Utxo.mk (Unspent.txid u) (Unspent.vout u)
                     (Math_round (Unspent.amount u * inject_Z 100000000)%Q)) data).

Definition utils_broadcastTransaction (signedTransaction : HexString) : result string :=
  response ← fetch_sendrawtransaction N signedTransaction;
  if negb (Response.ok response)
  then Throw ("❌ Failed to broadcast transaction: " +:+ Response.statusText response)
  else
    match Response.json response with
    | None => Throw "❌ No TXID returned from broadcast."
    | Some txid =>
        if negb (truthy txid) then Throw "❌ No TXID returned from broadcast."
        else Ok txid
    end.

(** The rpc error is logged and [undefined] returned. *)
Definition utils_getTransactionStatus (txHash : HexString) : option TxDetails.t :=
  match rpc_getrawtransaction N txHash with
  | Ok txDetails => txDetails
  | Throw _ => None
  end.

Definition scriptType_name (t : ScriptType) : result string :=
  match t with
  | P2PKH => Ok "P2PKH"
  | P2SH => Ok "P2SH"
  | P2WPKH => Ok "P2WPKH"
  | P2WSH => Ok "P2WSH"
  | P2TR => Ok "P2TR"
  | ScriptType_other => Throw "unsupported address"
  end.

Definition estimateVirtualSize (walletId recipientAddress : string) : M Z :=
  walletData ← kvStore_get_wallet walletId;
  match walletData with
  | None => throw ("Wallet not found: " +:+ walletId)
  | Some walletData =>
      scriptType ← lift (getScriptType L recipientAddress ≫= scriptType_name);
      utxos ← lift (getUTXOsBlockbook (Wallet.address walletData));
      let inputCount := Z.of_nat (length utxos) in
      let outputs : gmap string Z := {[ scriptType := 1 ]} in
      let outputs :=
        match outputs !! "P2WSH" with
        | Some _ => <["P2WSH" := 2]> outputs
        | None => <["P2WSH" := 1]> outputs
        end in
      lift (getByteCount L
              {[ "MULTISIG-P2WSH:" +:+ pretty (Wallet.m walletData) +:+ "-"
                   +:+ pretty (Wallet.n walletData) := inputCount ]}
              outputs)
  end.

(** ** wallet.ts *)

Definition createMultisigWallet (params : CreateParams.t) : M WalletSummary.t :=
  let m := CreateParams.m params in
  let n := CreateParams.n params in
  let name := CreateParams.name params in
  let participants := CreateParams.participants params in
  if negb (Number_isInteger m) || negb (Number_isInteger n)
  then throw "m and n must be integers"
  else if Qlt_bool n m || Qle_bool m 0 || Qle_bool n 0
  then throw "Invalid m-of-n values. m must be <= n, and both must be > 0"
  else if negb (Qeq_bool (inject_Z (Z.of_nat (length participants))) n)
  then throw ("Expected " +:+ pretty (Number_toZ n) +:+ " participants, but got "
              +:+ pretty (length participants))
  else
    let publicKeys := map CreateParams.publicKey participants in
    if negb (Qeq_bool (inject_Z (Z.of_nat (size (list_to_set publicKeys : gset string)))) n)
    then throw "Duplicate public keys found among participants."
    else
      publicKeyHash ← lift (customHash (Buffer_from
        (String.concat "-" (map CreateParams.publicKey participants))));
      walletId ← generateWalletId publicKeyHash;
      '(_, (address, redeemScript)) ←
        lift (initializeMultiSig new_SecuxPsbt (Number_toZ m) publicKeys);
      let walletData :=
        Wallet.mk walletId address redeemScript (Number_toZ m) (Number_toZ n)
          (default "" name) (now N)
          (map (λ p, Participant.mk (CreateParams.publicKey p)
                       (default "" (CreateParams.userId p))) participants) in
      _ ← kvStore_put_wallet walletId walletData;
      mret (WalletSummary.mk (Wallet.walletId walletData) (Wallet.address walletData)
              (Wallet.redeemScript walletData) (Wallet.m walletData)
              (Wallet.n walletData) (Wallet.name walletData)
              (Wallet.creationTime walletData)).

(** The loop [for (const [i, signature] of signatures.entries())], from
    index [i] on. *)
Fixpoint submit_each (p : SecuxPsbt.t) (publicKey : HexString) (i : nat)
  (signatures : list HexString) : result SecuxPsbt.t :=
  match signatures with
  | [] => Ok p
  | signature :: rest =>
      p' ← psbt_submitSignature p i (Buffer_from_hex publicKey)
             (Buffer_from_hex signature);
      submit_each p' publicKey (S i) rest
  end.

(** A plain object used as a dictionary is the map of its own properties.
    [Object.keys(o)] lists their names. *)
Definition Object_keys {A} (o : gmap string A) : list string :=
  (map_to_list o).*1.

(** [o[k] = v]. The name "__proto__" is not an own property: an assignment
    to it goes to the accessor inherited from [Object.prototype], which
    replaces the prototype of [o] by the array [v] and adds no property, so
    that [Object.keys(o)] and what [kvStore.put] serialises are as before. *)
Definition Object_set {A} (k : string) (v : A) (o : gmap string A) : gmap string A :=
  if decide (k = "__proto__") then o else <[k := v]> o.

Definition submitSignature (transactionId : string) (publicKey : HexString)
  (signatures : list HexString) : M SubmitSummary.t :=
  if negb (truthy publicKey)
  then throw "publicKey MUST be a non-empty string."
  else
    transaction ← kvStore_get_tx transactionId;
    match transaction with
    | None => throw ("Transaction not found: " +:+ transactionId)
    | Some transaction =>
        if negb (bool_decide (Transaction.status transaction = pending))
        then throw ("Transaction is not in pending_signatures state. Current: "
                    +:+ status_value (Transaction.status transaction))
        else
          walletData ← kvStore_get_wallet (Transaction.walletId transaction);
          match walletData with
          | None => throw ("Wallet not found: " +:+ Transaction.walletId transaction)
          | Some _ =>
              psbt ← lift (FromBuffer (Buffer_from_hex (Transaction.psbt transaction)));
              let existingSig :=
                List.find (String.eqb publicKey)
                  (Object_keys (Transaction.signatures transaction)) in
              if from_option truthy false existingSig
              then throw ("User with public key " +:+ publicKey
                          +:+ " has already signed this transaction.")
              else
                psbt ← lift (submit_each psbt publicKey 0 signatures);
                let transaction :=
                  Transaction.set_signatures
                    (Object_set publicKey signatures (Transaction.signatures transaction))
                    transaction in
                let transaction :=
                  Transaction.set_signaturesReceived
                    (Z.of_nat (length (Object_keys (Transaction.signatures transaction))))
                    transaction in
                let transaction :=
                  Transaction.set_psbt (Buffer_toString_hex (toBuffer psbt)) transaction in
                transaction ←
                  (if Transaction.requiredSignatures transaction
                      <=? Transaction.signaturesReceived transaction
                   then
                     let transaction := Transaction.set_status allsigned transaction in
                     signed ← lift (finalize_extract L psbt);
                     mret (Transaction.set_signedTransaction (Some signed) transaction)
                   else mret transaction);
                _ ← kvStore_put_tx transactionId transaction;
                mret (SubmitSummary.mk
                        (Transaction.transactionId transaction)
                        (Transaction.status transaction)
                        (Transaction.signaturesReceived transaction)
                        (Transaction.requiredSignatures transaction
                         - Transaction.signaturesReceived transaction))
          end
    end.

(** ** transaction.ts *)

(** The loop over the funding inputs: template, [totalInputAmount],
    [inputCount]. *)
Definition add_inputs (p : SecuxPsbt.t) (utxos : list Utxo.t) : SecuxPsbt.t * Z * Z :=
  fold_left
    (λ '(psbt, totalInputAmount, inputCount) utxo,
       (addMultiSigInput psbt utxo, totalInputAmount + Utxo.satoshis utxo,
        inputCount + 1))
    utxos (p, 0, 0).

Definition initiateTransaction (walletId : string) (params : InitiateParams.t)
  : M Transaction.t :=
  let recipientAddress := InitiateParams.recipientAddress params in
  let amount := InitiateParams.amount params in
  let feeRate := default 1%Q (InitiateParams.feeRate params) in
  let note := InitiateParams.note params in
  if negb (truthy recipientAddress)
  then throw "recipientAddress MUST be a non-empty string."
  else if amount <=? 0
  then throw "amount MUST be a positive number."
  else if Qle_bool feeRate 0
  then throw "feeRate, if provided, MUST be a positive number."
  else
    walletData ← kvStore_get_wallet walletId;
    match walletData with
    | None => throw ("Wallet not found: " +:+ walletId)
    | Some walletData =>
        let requiredSignatures := Wallet.m walletData in
        utxos ← lift (getUTXOsBlockbook (Wallet.address walletData));
        if (length utxos =? 0)%nat
        then throw "No confirmed UTXOs available. Cannot create a transaction."
        else
          '(psbt, _) ← lift (initializeMultiSig new_SecuxPsbt (Wallet.m walletData)
                               (map Participant.publicKey (Wallet.participants walletData)));
          let '(psbt, totalInputAmount, inputCount) := add_inputs psbt utxos in
          vSize ← estimateVirtualSize walletId recipientAddress;
          let estimatedFee := Math_ceil (Number_mul (inject_Z vSize) feeRate) in
          if totalInputAmount <? amount + estimatedFee
          then throw ("Insufficient funds.  Available: " +:+ pretty totalInputAmount
                      +:+ ", Required (amount + fee): " +:+ pretty (amount + estimatedFee))
          else
            let psbt := AddOutput psbt (Output.mk recipientAddress amount) in
            let changeAmount := totalInputAmount - amount - estimatedFee in
            let psbt :=
              if 0 <? changeAmount
              then AddOutput psbt (Output.mk (Wallet.address walletData) changeAmount)
              else psbt in
            let psbtBuffer := toBuffer psbt in
            transactionId ← lift (customHash psbtBuffer);
            let transaction :=
              Transaction.mk transactionId walletId recipientAddress amount pending
                (Buffer_toString_hex psbtBuffer) inputCount requiredSignatures
                ∅ 0 None (now N) None None note in
            _ ← kvStore_put_tx transactionId transaction;
            mret transaction
    end.

Definition broadcastTransaction (transactionId : string) : M BroadcastReceipt.t :=
  transaction ← kvStore_get_tx transactionId;
  match transaction with
  | None => throw ("Transaction not found: " +:+ transactionId)
  | Some transaction =>
      if negb (bool_decide (Transaction.status transaction = allsigned))
      then throw ("Transaction is not complete. Current status: "
                  +:+ status_value (Transaction.status transaction))
      else
        txHash ← lift (utils_broadcastTransaction
                         (default "" (Transaction.signedTransaction transaction)));
        let transaction := Transaction.set_txHash (Some txHash) transaction in
        let transaction := Transaction.set_status broadcasted transaction in
        let transaction := Transaction.set_broadcastTime (Some (now N)) transaction in
        _ ← kvStore_put_tx transactionId transaction;
        mret (BroadcastReceipt.mk (Transaction.transactionId transaction)
                (Transaction.status transaction) txHash
                (Transaction.broadcastTime transaction)
                "Transaction broadcast successfully")
  end.

Definition status_summary (transaction : Transaction.t) : StatusSummary.t :=
  StatusSummary.mk (Transaction.transactionId transaction)
    (Transaction.walletId transaction) (Transaction.status transaction)
    (Transaction.initiatedTime transaction) (Transaction.txHash transaction)
    (Transaction.broadcastTime transaction)
    (Transaction.requiredSignatures transaction)
    (Transaction.signaturesReceived transaction).

(** [txDetails && txDetails.confirmations > 0] *)
Definition confirmed_details (txDetails : option TxDetails.t) : bool :=
  match txDetails with
  | Some d => from_option (λ c, 0 <? c) false (TxDetails.confirmations d)
  | None => false
  end.

(** Nothing in the [try] block throws here: [utils.getTransactionStatus]
    swallows the rpc error itself and the store is total, so the handler,
    which keeps the loaded record, never runs. *)
Definition getTransactionStatus (transactionId : string) : M StatusSummary.t :=
  transaction ← kvStore_get_tx transactionId;
  match transaction with
  | None => throw ("Transaction not found: " +:+ transactionId)
  | Some transaction =>
      transaction ←
        (if bool_decide (Transaction.status transaction = broadcasted)
            && from_option truthy false (Transaction.txHash transaction)
         then
           try_catch
             (let txDetails :=
                utils_getTransactionStatus (default "" (Transaction.txHash transaction)) in
              if confirmed_details txDetails
              then
                let transaction := Transaction.set_status finished transaction in
                _ ← kvStore_put_tx transactionId transaction;
                mret transaction
              else mret transaction)
             (λ _, mret transaction)
         else mret transaction);
      mret (status_summary transaction)
  end.

Definition cancelTransaction (transactionId : string) : M CancelSummary.t :=
  transaction ← kvStore_get_tx transactionId;
  match transaction with
  | None => throw ("Transaction not found: " +:+ transactionId)
  | Some transaction =>
      if negb (bool_decide (Transaction.status transaction = pending))
      then throw ("Transaction can only be cancelled if status is pending_signatures. Current: "
                  +:+ status_value (Transaction.status transaction))
      else
        let transaction := Transaction.set_status cancelled transaction in
        _ ← kvStore_put_tx transactionId transaction;
        mret (CancelSummary.mk (Transaction.transactionId transaction)
                (Transaction.status transaction))
  end.

End Calls.

(** ** Histories of calls

    A request to the engine, with the network and clock it meets. *)
Inductive Call : Type :=
| Create (params : CreateParams.t)
| Initiate (walletId : string) (params : InitiateParams.t)
| SubmitSignature (transactionId : string) (publicKey : HexString)
    (signatures : list HexString)
| Cancel (transactionId : string)
| Broadcast (transactionId : string)
| GetStatus (transactionId : string).

(** The store a call leaves behind, whether it returned or threw. *)
Definition exec (N : Net) (c : Call) (s : Store) : Store :=
  match c with
  | Create params => (createMultisigWallet N params s).2
  | Initiate walletId params => (initiateTransaction N walletId params s).2
  | SubmitSignature id pk sigs => (submitSignature id pk sigs s).2
  | Cancel id => (cancelTransaction id s).2
  | Broadcast id => (broadcastTransaction N id s).2
  | GetStatus id => (getTransactionStatus N id s).2
  end.

Inductive reachable : Store -> Prop :=
| reachable_empty : reachable empty_store
| reachable_step s N c : reachable s -> reachable (exec N c s).

End Engine.

(** ** Vocabulary of the statements *)

(** [kvStore.put(`tx:${id}`, t)] as a store update. *)
Definition put_tx (id : string) (t : Transaction.t) (s : Store) : Store :=
  mkStore (wallets s) (<[id := t]> (txs s)) (ids s).

(** The loaded record once [submitSignature] has recorded the signer and
    re-serialised the template [p]. *)
Definition recorded (L : Lib) (t : Transaction.t) (publicKey : HexString)
  (signatures : list HexString) (p : SecuxPsbt.t) : Transaction.t :=
  Transaction.set_psbt (Buffer_toString_hex (toBuffer L p))
    (Transaction.set_signaturesReceived
       (Z.of_nat (size (Object_set publicKey signatures (Transaction.signatures t))))
       (Transaction.set_signatures
          (Object_set publicKey signatures (Transaction.signatures t)) t)).

(** The threshold branch of [submitSignature]. *)
Definition finalized (raw : HexString) (t : Transaction.t) : Transaction.t :=
  Transaction.set_signedTransaction (Some raw) (Transaction.set_status allsigned t).

Definition submit_summary (t : Transaction.t) : SubmitSummary.t :=
  SubmitSummary.mk (Transaction.transactionId t) (Transaction.status t)
    (Transaction.signaturesReceived t)
    (Transaction.requiredSignatures t - Transaction.signaturesReceived t).

(** The three assignments of [broadcastTransaction]. *)
Definition broadcast_record (N : Net) (txHash : HexString) (t : Transaction.t)
  : Transaction.t :=
  Transaction.set_broadcastTime (Some (now N))
    (Transaction.set_status broadcasted (Transaction.set_txHash (Some txHash) t)).

Definition total_satoshis (utxos : list Utxo.t) : Z :=
  foldr (λ u acc, Utxo.satoshis u + acc) 0 utxos.

(** What holds of every record the engine has stored. *)
Definition tx_ok (t : Transaction.t) : Prop :=
  0 < Transaction.requiredSignatures t
  ∧ Transaction.signaturesReceived t = Z.of_nat (size (Transaction.signatures t))
  ∧ (∀ k, is_Some (Transaction.signatures t !! k) -> truthy k = true)
  ∧ match Transaction.status t with
    | pending =>
        Transaction.signaturesReceived t < Transaction.requiredSignatures t
        ∧ Transaction.signedTransaction t = None
        ∧ Transaction.txHash t = None
        ∧ Transaction.broadcastTime t = None
    | allsigned =>
        is_Some (Transaction.signedTransaction t)
        ∧ Transaction.txHash t = None
        ∧ Transaction.broadcastTime t = None
    | broadcasted | finished =>
        is_Some (Transaction.signedTransaction t)
        ∧ (∃ h, Transaction.txHash t = Some h ∧ truthy h = true)
        ∧ is_Some (Transaction.broadcastTime t)
    | cancelled =>
        Transaction.signedTransaction t = None
        ∧ Transaction.txHash t = None
        ∧ Transaction.broadcastTime t = None
    end.

Definition store_ok (s : Store) : Prop :=
  (∀ id w, wallets s !! id = Some w -> 0 < Wallet.m w)
  ∧ (∀ id t, txs s !! id = Some t ->
       tx_ok t ∧ is_Some (wallets s !! Transaction.walletId t)).

(** The arguments [createMultisigWallet] accepts. *)
Definition valid_create (p : CreateParams.t) : Prop :=
  Number_isInteger (CreateParams.m p) = true
  ∧ Number_isInteger (CreateParams.n p) = true
  ∧ (0 < CreateParams.m p)%Q
  ∧ (CreateParams.m p <= CreateParams.n p)%Q
  ∧ (inject_Z (Z.of_nat (length (CreateParams.participants p))) == CreateParams.n p)%Q
  ∧ NoDup (map CreateParams.publicKey (CreateParams.participants p)).

(** The arguments it rejects, check by check. *)
Definition invalid_create (p : CreateParams.t) : Prop :=
  Number_isInteger (CreateParams.m p) = false
  ∨ Number_isInteger (CreateParams.n p) = false
  ∨ (CreateParams.m p <= 0)%Q
  ∨ (CreateParams.n p <= 0)%Q
  ∨ (CreateParams.n p < CreateParams.m p)%Q
  ∨ ¬ (inject_Z (Z.of_nat (length (CreateParams.participants p))) == CreateParams.n p)%Q
  ∨ ¬ NoDup (map CreateParams.publicKey (CreateParams.participants p)).

(** The wallet record [createMultisigWallet] stores, and the summary it
    returns. *)
Definition created (N : Net) (p : CreateParams.t) (walletId address : string)
  (redeemScript : HexString) : Wallet.t :=
  Wallet.mk walletId address redeemScript
    (Number_toZ (CreateParams.m p)) (Number_toZ (CreateParams.n p))
    (default "" (CreateParams.name p)) (now N)
    (map (λ x, Participant.mk (CreateParams.publicKey x)
                 (default "" (CreateParams.userId x)))
       (CreateParams.participants p)).

Definition wallet_summary (w : Wallet.t) : WalletSummary.t :=
  WalletSummary.mk (Wallet.walletId w) (Wallet.address w) (Wallet.redeemScript w)
    (Wallet.m w) (Wallet.n w) (Wallet.name w) (Wallet.creationTime w).

(** The key fingerprint: the public keys joined with "-" in the order
    given, then hashed. *)
Definition key_fingerprint (L : Lib) (publicKeys : list HexString) : result string :=
  customHash L (Buffer_from (String.concat "-" publicKeys)).

(** The derivation of the [walletId] in the words of the specification,
    written from the primitives of the library: a text is hashed, then
    Base58-encoded; the key fingerprint is the public keys joined with "-"
    in the order supplied, then hashed; the [walletId] is the hash-then-
    Base58 encoding of the fingerprint joined with the fixed suffix. The
    hash is taken of the hexadecimal text of the bytes, and its hexadecimal
    digest is what is encoded. *)
Definition hash_then_Base58 (L : Lib) (text : string) : string :=
  Base58_encode L
    (Buffer_from_hex (sha256_hex L (Buffer_toString_hex (Buffer_from text)))).

Definition spec_key_fingerprint (L : Lib) (publicKeys : list HexString) : string :=
  hash_then_Base58 L (String.concat "-" publicKeys).

Definition spec_walletId (L : Lib) (publicKeys : list HexString) : string :=
  hash_then_Base58 L (spec_key_fingerprint L publicKeys +:+ "#secux_btc_multisig").

(** The four messages of the argument checks of [createMultisigWallet]. *)
Definition create_validation_errors (p : CreateParams.t) : list string :=
  [ "m and n must be integers";
    "Invalid m-of-n values. m must be <= n, and both must be > 0";
    "Expected " +:+ pretty (Number_toZ (CreateParams.n p)) +:+ " participants, but got "
      +:+ pretty (length (CreateParams.participants p));
    "Duplicate public keys found among participants." ].

(** The template [initiateTransaction] builds for wallet [w]: the multisig
    policy, every funding input, and the outputs [outs]. *)
Definition template (w : Wallet.t) (utxos : list Utxo.t) (outs : list Output.t)
  : SecuxPsbt.t :=
  SecuxPsbt.mk
    (Some (Wallet.m w, map Participant.publicKey (Wallet.participants w)))
    utxos outs [].

(** The record [initiateTransaction] stores for that template under [id]. *)
Definition initiated (L : Lib) (N : Net) (walletId : string)
  (params : InitiateParams.t) (w : Wallet.t) (utxos : list Utxo.t)
  (outs : list Output.t) (id : string) : Transaction.t :=
  Transaction.mk id walletId (InitiateParams.recipientAddress params)
    (InitiateParams.amount params) pending
    (Buffer_toString_hex (toBuffer L (template w utxos outs)))
    (Z.of_nat (length utxos)) (Wallet.m w) ∅ 0 None (now N) None None
    (InitiateParams.note params).

(** The operations that act on an existing transaction record. *)
Definition lifecycle_call (c : Call) : bool :=
  match c with
  | Create _ | Initiate _ _ => false
  | _ => true
  end.





(** ** A small instance for worked examples

    A stand-in for the library (hashing is the identity, Base58 prefixes a
    letter, public keys must be hexadecimal, signatures must be non-empty)
    and a network holding one output of 1 BTC. *)
Module Sample.

Definition lib : Lib :=
  mkLib (λ s, s) (λ b, "B" +:+ b)
    (λ m pks,
       if forallb (λ k, truthy (Buffer_from_hex k)) pks
       then Ok ("addr-" +:+ String.concat "-" pks, "script")
       else Throw "Invalid public key")
    (λ p i pk sg, if truthy sg then Ok tt else Throw "Invalid signature")
    (λ p, Ok "rawtx")
    (λ p, "psbt" +:+ pretty (length (SecuxPsbt.outputs p)))
    (λ b, Ok (SecuxPsbt.mk None [] [] []))
    (λ a, Ok P2WPKH)
    (λ i o, Ok 200).

Definition net (confirmations : Z) : Net :=
  mkNet "2025-01-01T00:00:00.000Z"
    (λ a, Ok (Response.mk true "OK" (ScanResult.mk true [Unspent.mk "f0" 0 (1 # 1)])))
    (λ raw, Ok (Response.mk true "OK" (Some "cafe")))
    (λ h, Ok (Some (TxDetails.mk (Some confirmations)))).

(** A network whose node cannot be reached. *)
Definition net_down : Net :=
  mkNet "2025-01-01T00:00:00.000Z"
    (λ a, Throw "fetch failed") (λ raw, Throw "fetch failed")
    (λ h, Throw "fetch failed").

Definition keys (ks : list HexString) : list CreateParams.participant :=
  map (λ k, CreateParams.mkp k None) ks.

Definition two_of_three : CreateParams.t :=
  CreateParams.mk (2 # 1) (3 # 1) (Some "treasury") (keys ["aa"; "bb"; "cc"]).

Definition one_of_eleven : CreateParams.t :=
  CreateParams.mk (1 # 1) (11 # 1) None
    (keys ["a0"; "a1"; "a2"; "a3"; "a4"; "a5"; "a6"; "a7"; "a8"; "a9"; "aa"]).

(** Three distinct keys the script engine rejects. *)
Definition bad_keys : CreateParams.t :=
  CreateParams.mk (2 # 1) (3 # 1) None (keys ["xx"; "yy"; "zz"]).

Definition wid : string := "BBaa-bb-cc#secux_btc_multisig".

Definition pay (amount : Z) : InitiateParams.t :=
  InitiateParams.mk "recipient" amount (Some (10 # 1)) None.

Definition txid : string := "Bpsbt2".

Definition s_created : Store := exec lib (net 0) (Create two_of_three) empty_store.
Definition s_pending : Store := exec lib (net 0) (Initiate wid (pay 100000)) s_created.
Definition s_one : Store := exec lib (net 0) (SubmitSignature txid "bb" ["30"]) s_pending.
Definition s_signed : Store := exec lib (net 0) (SubmitSignature txid "aa" ["31"]) s_one.
Definition s_broadcast : Store := exec lib (net 0) (Broadcast txid) s_signed.
Definition s_confirmed : Store := exec lib (net 1) (GetStatus txid) s_broadcast.

End Sample.

(** * The read paths and the fee oracle

    The remaining functions of wallet.ts, transaction.ts and utils.ts that
    the state machine above does not need. *)

(** ** utils.ts: [dbGetKeysWithPrefix] *)

(** A row of the key/value table: its value is a wallet, a transaction or
    the [{ walletId }] object of [generateWalletId]. *)
Inductive Row : Type :=
| WalletRow (w : Wallet.t)
| TxRow (t : Transaction.t)
| IdRow (walletId : string).

(** The table with its keys written out. *)
Definition rows (s : Store) : list (string * Row) :=
  ((λ kv, ("wallet:" +:+ kv.1, WalletRow kv.2)) <$> map_to_list (wallets s))
  ++ ((λ kv, ("tx:" +:+ kv.1, TxRow kv.2)) <$> map_to_list (txs s))
  ++ ((λ kv, ("_id:" +:+ kv.1, IdRow kv.2)) <$> map_to_list (ids s)).

(** [db.keyValue.findMany({ where: { key: { startsWith: prefix } } })] *)
Definition dbGetKeysWithPrefix (prefix : string) : M (list (string * Row)) :=
  λ s, (Ok (filter (λ r, String.prefix prefix r.1 = true) (rows s)), s).

(** [record.value as Transaction] *)
Definition as_Transaction (r : Row) : option Transaction.t :=
  match r with TxRow t => Some t | _ => None end.

(** ** wallet.ts: [getWalletDetails] *)

Definition getWalletDetails (walletId : string) : M (option Wallet.t) :=
  walletData ← kvStore_get_wallet walletId;
  mret walletData.

(** ** transaction.ts: the listings *)

Module PendingItem.
Record t : Type := mk {
  transactionId : string;
  recipientAddress : string;
  amount : Z;
  status : TransactionStatus;
  requiredSignatures : Z;
  signaturesReceived : Z;
  initiatedTime : string
}.
End PendingItem.

Module PendingList.
Record t : Type := mk {
  walletId : string;
  address : string;
  transactions : list PendingItem.t
}.
End PendingList.

Module HistoryItem.
Record t : Type := mk {
  transactionId : string;
  recipientAddress : string;
  amount : Z;
  status : TransactionStatus;
  requiredSignatures : Z;
  signaturesReceived : Z;
  initiatedTime : string;
  broadcastTime : string;
  txHash : string;
  note : string
}.
End HistoryItem.

Module Pagination.
Record t : Type := mk { page : Z; pageSize : Z; totalCount : Z }.
End Pagination.

Module HistoryPage.
Record t : Type := mk {
  walletId : string;
  address : string;
  transactions : list HistoryItem.t;
  pagination : Pagination.t
}.
End HistoryPage.

Definition pending_item (tx : Transaction.t) : PendingItem.t :=
  PendingItem.mk (Transaction.transactionId tx) (Transaction.recipientAddress tx)
    (Transaction.amount tx) (Transaction.status tx)
    (Transaction.requiredSignatures tx) (Transaction.signaturesReceived tx)
    (Transaction.initiatedTime tx).

Definition history_item (tx : Transaction.t) : HistoryItem.t :=
  HistoryItem.mk (Transaction.transactionId tx) (Transaction.recipientAddress tx)
    (Transaction.amount tx) (Transaction.status tx)
    (Transaction.requiredSignatures tx) (Transaction.signaturesReceived tx)
    (Transaction.initiatedTime tx)
    (default "" (Transaction.broadcastTime tx))
    (default "" (Transaction.txHash tx))
    (default "" (Transaction.note tx)).

Definition getPendingTransactions (walletId : string) : M PendingList.t :=
  walletData ← kvStore_get_wallet walletId;
  match walletData with
  | None => throw ("Wallet not found: " +:+ walletId)
  | Some walletData =>
      txRecords ← dbGetKeysWithPrefix "tx:";
      let transactions :=
        filter (λ tx, Transaction.walletId tx = walletId
                      ∧ Transaction.status tx = pending)
          (omap (λ record, as_Transaction record.2) txRecords) in
      mret (PendingList.mk walletId (Wallet.address walletData)
              (map pending_item transactions))
  end.

(** An index argument of [Array.prototype.slice] on an array of [len]
    elements. *)
Definition slice_index (len i : Z) : Z :=
  if i <? 0 then Z.max (len + i) 0 else Z.min i len.

(** [l.slice(start, end)] *)
Definition Array_slice {A} (start end_ : Z) (l : list A) : list A :=
  let len := Z.of_nat (length l) in
  let k := slice_index len start in
  let final := slice_index len end_ in
  take (Z.to_nat (final - k)) (drop (Z.to_nat k) l).

(** The comparator [(a, b) => time(b) - time(a)] puts [a] before [b] when
    it is not older; [getTime] is [s => new Date(s).getTime()]. *)
Definition newer_first (getTime : string -> Z) (a b : Transaction.t) : Prop :=
  getTime (Transaction.initiatedTime b) <= getTime (Transaction.initiatedTime a).

#[global] Instance newer_first_dec getTime a b : Decision (newer_first getTime a b) :=
  decide (getTime (Transaction.initiatedTime b) <= getTime (Transaction.initiatedTime a)).

Definition getTransactionHistory (getTime : string -> Z) (walletId : string)
  (page : option Z) : M HistoryPage.t :=
  let page := default 1 page in
  walletData ← kvStore_get_wallet walletId;
  match walletData with
  | None => throw ("Wallet not found: " +:+ walletId)
  | Some walletData =>
      txRecords ← dbGetKeysWithPrefix "tx:";
      let transactions :=
        Array_slice ((page - 1) * 10) (page * 10)
          (merge_sort (newer_first getTime)
             (filter (λ tx, Transaction.walletId tx = walletId
                            ∧ Transaction.status tx ≠ pending)
                (omap (λ record, as_Transaction record.2) txRecords))) in
      mret (HistoryPage.mk walletId (Wallet.address walletData)
              (map history_item transactions)
              (Pagination.mk page 10 (Z.of_nat (length transactions))))
  end.

(** ** utils.ts: [getFeeRateRecommendations] *)

Module FeeRates.
Record t : Type := mk {
  fastest : Z;
  normal : Z;
  economical : Z;
  unit : string;
  lastUpdated : string
}.
End FeeRates.

(** [estimatesmartfee] is [bitcoinRpcCall("estimatesmartfee", [blocks])],
    answering the [feerate] in BTC per kB. *)
Definition getFeeRateRecommendations (estimatesmartfee : Z -> result Q) (N : Net)
  : result FeeRates.t :=
  feerate ← estimatesmartfee 6;
  let feeRateSatVByte :=
    Math_ceil (Number_div (Number_mul feerate (inject_Z 100000000)) (inject_Z 1000)) in
  mret (FeeRates.mk (feeRateSatVByte * 2) feeRateSatVByte
          (Z.max 1 (Qfloor (Number_mul (inject_Z feeRateSatVByte) (8 # 10))))
          "sat/vbyte" (now N)).

(** ** More vocabulary *)

(** What holds of a wallet record stored under [id]. *)
Definition wallet_wf (id : string) (w : Wallet.t) : Prop :=
  Wallet.walletId w = id
  ∧ truthy id = true
  ∧ 0 < Wallet.m w
  ∧ Wallet.m w <= Wallet.n w
  ∧ Wallet.n w = Z.of_nat (length (Wallet.participants w))
  ∧ NoDup (map Participant.publicKey (Wallet.participants w)).

(** What holds, besides [tx_ok], of a transaction record stored under [id]. *)
Definition tx_wf (L : Lib) (id : string) (t : Transaction.t) : Prop :=
  Transaction.transactionId t = id
  ∧ truthy id = true
  ∧ truthy (Transaction.recipientAddress t) = true
  ∧ 0 < Transaction.amount t
  ∧ 0 < Transaction.inputCount t
  ∧ Transaction.signaturesReceived t <= Transaction.requiredSignatures t
  ∧ (Transaction.status t ≠ pending -> Transaction.status t ≠ cancelled ->
     Transaction.signaturesReceived t = Transaction.requiredSignatures t)
  ∧ ∃ p, Transaction.psbt t = Buffer_toString_hex (toBuffer L p).

Definition store_wf (L : Lib) (s : Store) : Prop :=
  (∀ id w, wallets s !! id = Some w -> wallet_wf id w)
  ∧ (∀ id t, txs s !! id = Some t -> tx_wf L id t).

(** The fields no lifecycle operation assigns. *)
Definition same_intent (t t' : Transaction.t) : Prop :=
  Transaction.transactionId t' = Transaction.transactionId t
  ∧ Transaction.walletId t' = Transaction.walletId t
  ∧ Transaction.recipientAddress t' = Transaction.recipientAddress t
  ∧ Transaction.amount t' = Transaction.amount t
  ∧ Transaction.inputCount t' = Transaction.inputCount t
  ∧ Transaction.requiredSignatures t' = Transaction.requiredSignatures t
  ∧ Transaction.initiatedTime t' = Transaction.initiatedTime t
  ∧ Transaction.note t' = Transaction.note t.

(** The fee [initiateTransaction] charges for a virtual size:
    [Math.ceil(vSize * feeRate)], the rate defaulting to 1. *)
Definition estimated_fee (vSize : Z) (params : InitiateParams.t) : Z :=
  Math_ceil (Number_mul (inject_Z vSize) (default 1%Q (InitiateParams.feeRate params))).

(** The outputs of a template add up to [total]. *)
Definition outputs_total (outs : list Output.t) : Z :=
  foldr (λ o acc, Output.satoshis o + acc) 0 outs.

(** No "-" in a key: what the join of the fingerprint needs to be read back. *)
Fixpoint dash_free (s : string) : bool :=
  match s with
  | EmptyString => true
  | String c r => negb (Ascii.eqb c "-") && dash_free r
  end.

(** More worked examples. *)
Module Sample2.

Definition one_of_three : CreateParams.t :=
  CreateParams.mk (1 # 1) (3 # 1) (Some "petty cash") (Sample.keys ["aa"; "bb"; "cc"]).

(** A payment at 1.1 sat/vbyte that the one output of 1 BTC covers exactly:
    the fee for 200 vbytes is 221, as 200 * 1.1 exceeds 220 in double
    precision. *)
Definition pay_exact : InitiateParams.t :=
  InitiateParams.mk "recipient" 99999779 (Some (11 # 10)) None.

(** The clock reading of the sample timestamps. *)
Definition getTime (s : string) : Z := Z.of_nat (String.length s).

(** A network whose only output is worth 0.02 BTC. *)
Definition net_dust : Net :=
  mkNet "2025-01-02T00:00:00.000Z"
    (λ a, Ok (Response.mk true "OK" (ScanResult.mk true [Unspent.mk "f1" 0 (2 # 100)])))
    (λ raw, Ok (Response.mk true "OK" (Some "cafe")))
    (λ h, Ok (Some (TxDetails.mk (Some 0)))).

(** The same network as [Sample.net 0], a day later. *)
Definition net_later : Net :=
  mkNet "2025-01-02T00:00:00.000Z"
    (λ a, Ok (Response.mk true "OK" (ScanResult.mk true [Unspent.mk "f0" 0 (1 # 1)])))
    (λ raw, Ok (Response.mk true "OK" (Some "cafe")))
    (λ h, Ok (Some (TxDetails.mk (Some 0)))).

Definition s_recreated : Store :=
  exec Sample.lib net_later (Create one_of_three) Sample.s_created.

Definition s_reinitiated : Store :=
  exec Sample.lib net_later (Initiate Sample.wid (Sample.pay 100000)) Sample.s_one.

Definition s_cancelled : Store :=
  exec Sample.lib (Sample.net 0) (Cancel Sample.txid) Sample.s_one.

End Sample2.

(** * Properties *)

(** Unfold the bind, return and store primitives of [M]. *)
Ltac run_M :=
  unfold mbind, mret, M_bind, M_ret, result_bind, result_ret, throw, lift, try_catch,
    kvStore_get_tx, kvStore_get_wallet, kvStore_put_tx, kvStore_put_wallet,
    kvStore_put_id in *; simpl in *.

(** Hexadecimal text decodes back to the bytes it encodes. *)
Lemma hex_of_byte_decodes (c : ascii) (r : string) :
  Buffer_from_hex (hex_of_byte c +:+ r) = String c (Buffer_from_hex r).
Proof. destruct c as [[] [] [] [] [] [] [] []]; reflexivity. Qed.

Lemma Buffer_from_hex_toString_hex (b : Buffer) :
  Buffer_from_hex (Buffer_toString_hex b) = b.
Proof.
  induction b as [|c b IH]; [reflexivity|].
  cbn [Buffer_toString_hex]. by rewrite hex_of_byte_decodes, IH.
Qed.

(** Double precision at work: the number 1.1, and the products and
    quotients on which it differs from exact arithmetic. *)
Lemma binary64_examples :
  (binary64 (11 # 10) == 2476979795053773 # 2251799813685248)%Q
  ∧ Math_ceil (Number_mul 200 (11 # 10)) = 221
  ∧ Math_ceil (Number_mul 250 (1 # 10)) = 25
  ∧ Math_ceil (Number_mul 300 (101 # 100)) = 303
  ∧ Math_ceil (Number_div (Number_mul (1 # 100000) 100000000) 1000) = 2
  ∧ Math_ceil (Number_div (Number_mul (3 # 100000) 100000000) 1000) = 3.
Proof. split_and!; vm_compute; reflexivity. Qed.

Section Proofs.
Context (L : Lib).

Lemma Object_keys_length {A} (o : gmap string A) :
  length (Object_keys o) = size o.
Proof. unfold Object_keys. by rewrite length_fmap, length_map_to_list. Qed.

Lemma Object_keys_elem {A} (o : gmap string A) k :
  k ∈ Object_keys o ↔ is_Some (o !! k).
Proof.
  unfold Object_keys. rewrite list_elem_of_fmap. split.
  - intros [[k' v] [-> Hin]]. apply elem_of_map_to_list in Hin. eauto.
  - intros [v Hv]. exists (k, v). split; [done|]. by apply elem_of_map_to_list.
Qed.

Lemma find_key_truthy {A} (o : gmap string A) (publicKey : string) :
  from_option truthy false (List.find (String.eqb publicKey) (Object_keys o))
  = truthy publicKey && bool_decide (is_Some (o !! publicKey)).
Proof.
  destruct (List.find _ _) as [k|] eqn:Hfind; simpl.
  - apply find_some in Hfind as [Hin Heq].
    apply String.eqb_eq in Heq as <-.
    apply list_elem_of_In, Object_keys_elem in Hin.
    rewrite bool_decide_eq_true_2 by done. by rewrite andb_true_r.
  - case_bool_decide as Hk; [|by rewrite andb_false_r].
    apply Object_keys_elem, list_elem_of_In in Hk.
    eapply find_none in Hfind; [|exact Hk].
    by rewrite String.eqb_refl in Hfind.
Qed.

Lemma Object_set_subseteq {A} (o : gmap string A) k v :
  o !! k = None -> o ⊆ Object_set k v o.
Proof.
  intros Hk. unfold Object_set. destruct (decide (k = "__proto__")); [done|].
  by apply insert_subseteq.
Qed.

Lemma Object_set_size {A} (o : gmap string A) k v :
  o !! k = None ->
  size (Object_set k v o) = if decide (k = "__proto__") then size o else S (size o).
Proof.
  intros Hk. unfold Object_set. destruct (decide (k = "__proto__")); [done|].
  by apply map_size_insert_None.
Qed.

Lemma Object_set_keys {A} (o : gmap string A) k v (P : string -> Prop) :
  P k -> (∀ i, is_Some (o !! i) -> P i) ->
  ∀ i, is_Some (Object_set k v o !! i) -> P i.
Proof.
  intros Hk Ho i. unfold Object_set. destruct (decide (k = "__proto__")); [apply Ho|].
  destruct (decide (k = i)) as [<-|Hne]; [done|].
  rewrite lookup_insert_ne by done. apply Ho.
Qed.

Lemma submitSignature_Throw id pk sigs s e s' :
  submitSignature L id pk sigs s = (Throw e, s') -> s' = s.
Proof.
  unfold submitSignature. run_M. intros H.
  repeat (case_match; simplify_eq; try done).
Qed.

Lemma submitSignature_Ok id pk sigs s r s' :
  submitSignature L id pk sigs s = (Ok r, s') ->
  ∃ t p p',
    txs s !! id = Some t ∧ Transaction.status t = pending ∧ truthy pk = true
    ∧ Transaction.signatures t !! pk = None
    ∧ is_Some (wallets s !! Transaction.walletId t)
    ∧ FromBuffer L (Buffer_from_hex (Transaction.psbt t)) = Ok p
    ∧ submit_each L p pk 0 sigs = Ok p'
    ∧ ((Transaction.requiredSignatures t
          <= Transaction.signaturesReceived (recorded L t pk sigs p')
        ∧ ∃ raw, finalize_extract L p' = Ok raw
                 ∧ s' = put_tx id (finalized raw (recorded L t pk sigs p')) s
                 ∧ r = submit_summary (finalized raw (recorded L t pk sigs p')))
       ∨ (Transaction.signaturesReceived (recorded L t pk sigs p')
            < Transaction.requiredSignatures t
          ∧ s' = put_tx id (recorded L t pk sigs p') s
          ∧ r = submit_summary (recorded L t pk sigs p'))).
Proof.
  unfold submitSignature. run_M.
  destruct (truthy pk) eqn:Hpk; simpl; [|done].
  destruct (txs s !! id) as [t|] eqn:Ht; [|done].
  case_bool_decide as Hst; simpl; [|done].
  destruct (wallets s !! Transaction.walletId t) as [w|] eqn:Hw; [|done].
  destruct (FromBuffer L _) as [p|] eqn:Hp; [|done].
  rewrite find_key_truthy, Hpk. simpl.
  case_bool_decide as Hdup; simpl; [done|].
  destruct (submit_each L p pk 0 sigs) as [p'|] eqn:Hp'; [|done].
  rewrite Object_keys_length.
  intros H. exists t, p, p'.
  assert (Transaction.signatures t !! pk = None) as Hnone.
  { destruct (Transaction.signatures t !! pk) eqn:E; [|done]. destruct Hdup; eauto. }
  repeat split; eauto.
  destruct (Z.leb_spec (Transaction.requiredSignatures t)
              (Z.of_nat (size (Object_set pk sigs (Transaction.signatures t)))))
    as [Hle|Hlt].
  - left. split; [done|].
    destruct (finalize_extract L p') as [raw|] eqn:Hraw; [|done].
    exists raw. by simplify_eq.
  - right. split; [done|]. by simplify_eq.
Qed.

Lemma cancelTransaction_Throw id s e s' :
  cancelTransaction id s = (Throw e, s') -> s' = s.
Proof.
  unfold cancelTransaction. run_M. intros H.
  repeat (case_match; simplify_eq; try done).
Qed.

Lemma cancelTransaction_Ok id s r s' :
  cancelTransaction id s = (Ok r, s') ->
  ∃ t, txs s !! id = Some t ∧ Transaction.status t = pending
       ∧ s' = put_tx id (Transaction.set_status cancelled t) s
       ∧ r = CancelSummary.mk (Transaction.transactionId t) cancelled.
Proof.
  unfold cancelTransaction. run_M. intros H.
  destruct (txs s !! id) as [t|] eqn:Ht; [|done].
  case_bool_decide; simpl in *; [|done]. simplify_eq. by exists t.
Qed.

Lemma utils_broadcastTransaction_truthy N raw h :
  utils_broadcastTransaction N raw = Ok h -> truthy h = true.
Proof.
  unfold utils_broadcastTransaction. run_M. intros H.
  repeat (case_match; simplify_eq; try done).
  by destruct (truthy h).
Qed.

Lemma broadcastTransaction_Throw N id s e s' :
  broadcastTransaction N id s = (Throw e, s') -> s' = s.
Proof.
  unfold broadcastTransaction. run_M. intros H.
  repeat (case_match; simplify_eq; try done).
Qed.

Lemma broadcastTransaction_Ok N id s r s' :
  broadcastTransaction N id s = (Ok r, s') ->
  ∃ t h, txs s !! id = Some t ∧ Transaction.status t = allsigned
         ∧ utils_broadcastTransaction N
             (default "" (Transaction.signedTransaction t)) = Ok h
         ∧ s' = put_tx id (broadcast_record N h t) s
         ∧ r = BroadcastReceipt.mk (Transaction.transactionId t) broadcasted h
                 (Some (now N)) "Transaction broadcast successfully".
Proof.
  unfold broadcastTransaction. run_M. intros H.
  destruct (txs s !! id) as [t|] eqn:Ht; [|done].
  case_bool_decide; simpl in *; [|done].
  destruct (utils_broadcastTransaction N _) as [h|] eqn:Hh; [|done].
  simplify_eq. by exists t, h.
Qed.

(** The two ways [getTransactionStatus] ends on a stored record. *)
Lemma getTransactionStatus_stored N id s t :
  txs s !! id = Some t ->
  (Transaction.status t = broadcasted
   ∧ (∃ h, Transaction.txHash t = Some h ∧ truthy h = true
           ∧ confirmed_details (utils_getTransactionStatus N h) = true)
   ∧ getTransactionStatus N id s
     = (Ok (status_summary (Transaction.set_status finished t)),
        put_tx id (Transaction.set_status finished t) s))
  ∨ ((Transaction.status t = broadcasted ->
      ∀ h, Transaction.txHash t = Some h -> truthy h = true ->
           confirmed_details (utils_getTransactionStatus N h) = false)
     ∧ getTransactionStatus N id s = (Ok (status_summary t), s)).
Proof.
  intros Ht. unfold getTransactionStatus. run_M. rewrite Ht.
  case_bool_decide as Hst; simpl.
  - destruct (Transaction.txHash t) as [h|] eqn:Hh; simpl.
    + destruct (truthy h) eqn:Htr; simpl.
      * destruct (confirmed_details _) eqn:Hc; simpl.
        -- left. split; [done|]. split; [|done]. by exists h.
        -- right. split; [|done]. intros _ h' [= <-] _. done.
      * right. split; [|done]. intros _ h' [= <-]. congruence.
    + right. split; [|done]. intros _ h' [=].
  - right. split; [|done]. done.
Qed.

Lemma getTransactionStatus_missing N id s :
  txs s !! id = None ->
  getTransactionStatus N id s = (Throw ("Transaction not found: " +:+ id), s).
Proof. intros Ht. unfold getTransactionStatus. run_M. by rewrite Ht. Qed.


Lemma add_inputs_spec p utxos :
  add_inputs p utxos
  = (SecuxPsbt.mk (SecuxPsbt.multisig p) (SecuxPsbt.inputs p ++ utxos)
       (SecuxPsbt.outputs p) (SecuxPsbt.partialSigs p),
     total_satoshis utxos, Z.of_nat (length utxos)).
Proof.
  unfold add_inputs.
  assert (∀ l q a c,
    fold_left
      (λ '(psbt, totalInputAmount, inputCount) utxo,
         (addMultiSigInput psbt utxo, totalInputAmount + Utxo.satoshis utxo,
          inputCount + 1)) l (q, a, c)
    = (SecuxPsbt.mk (SecuxPsbt.multisig q) (SecuxPsbt.inputs q ++ l)
         (SecuxPsbt.outputs q) (SecuxPsbt.partialSigs q),
       a + total_satoshis l, c + Z.of_nat (length l))) as Hgen.
  { induction l as [|u l IH]; intros q a c; simpl.
    - rewrite app_nil_r, !Z.add_0_r. by destruct q.
    - rewrite IH. simpl. rewrite <- app_assoc. simpl.
      f_equal; [f_equal|]; lia. }
  by rewrite Hgen.
Qed.

Lemma estimateVirtualSize_reads N walletId recipientAddress s :
  (estimateVirtualSize L N walletId recipientAddress s).2 = s.
Proof.
  unfold estimateVirtualSize. run_M.
  repeat (case_match; simplify_eq; try done).
Qed.

Lemma generateWalletId_writes prefix s r s' :
  generateWalletId L prefix s = (r, s') ->
  wallets s' = wallets s ∧ txs s' = txs s.
Proof.
  unfold generateWalletId. run_M. intros H.
  repeat (case_match; simplify_eq; try done).
Qed.

Lemma Number_toZ_pos (x : Q) :
  Number_isInteger x = true -> Qle_bool x 0 = false -> 0 < Number_toZ x.
Proof.
  unfold Number_isInteger, Number_toZ, Qle_bool. destruct x as [a d]. simpl.
  intros Hint Hpos. apply Z.eqb_eq in Hint. apply Z.leb_gt in Hpos.
  rewrite Z.mul_1_r in Hpos. simpl in Hpos.
  apply Z.div_str_pos. split; [lia|].
  apply Z.mod_divide in Hint; [|lia]. destruct Hint as [k Hk].
  assert (0 < k) by (destruct (Z.lt_ge_cases 0 k); [done|nia]). nia.
Qed.

Lemma createMultisigWallet_writes N params s r s' :
  createMultisigWallet L N params s = (r, s') ->
  txs s' = txs s
  ∧ (wallets s' = wallets s
     ∨ ∃ id w, wallets s' = <[id := w]> (wallets s) ∧ 0 < Wallet.m w).
Proof.
  unfold createMultisigWallet. run_M. intros H.
  destruct (negb (Number_isInteger (CreateParams.m params))
            || negb (Number_isInteger (CreateParams.n params))) eqn:Hint;
    [simplify_eq; auto|].
  destruct (Qlt_bool _ _ || Qle_bool _ _ || Qle_bool _ _) eqn:Hrange;
    [simplify_eq; auto|].
  apply orb_false_elim in Hint as [Hm%negb_false_iff _].
  apply orb_false_elim in Hrange as [[_ Hm0]%orb_false_elim _].
  pose proof (Number_toZ_pos _ Hm Hm0).
  repeat (case_match; simplify_eq; try done);
    try match goal with
        | H : generateWalletId _ _ _ = _ |- _ =>
            apply generateWalletId_writes in H as [? ?]
        end; simpl in *; split; try congruence; auto.
  right. eexists _, _. split; [by f_equal|]. done.
Qed.


Lemma initiateTransaction_writes N wid params s r s' :
  initiateTransaction L N wid params s = (r, s') ->
  s' = s
  ∨ ∃ tx w, r = Ok tx ∧ wallets s !! wid = Some w
      ∧ s' = put_tx (Transaction.transactionId tx) tx s
      ∧ Transaction.walletId tx = wid
      ∧ Transaction.status tx = pending
      ∧ Transaction.requiredSignatures tx = Wallet.m w
      ∧ Transaction.signatures tx = ∅
      ∧ Transaction.signaturesReceived tx = 0
      ∧ Transaction.signedTransaction tx = None
      ∧ Transaction.txHash tx = None
      ∧ Transaction.broadcastTime tx = None.
Proof.
  unfold initiateTransaction, initializeMultiSig. run_M. intros H.
  destruct (truthy _); simpl in H; [|simplify_eq; auto].
  destruct (_ <=? 0); [simplify_eq; auto|].
  destruct (Qle_bool _ 0); [simplify_eq; auto|].
  destruct (wallets s !! wid) as [w|] eqn:Hw; [|simplify_eq; auto].
  destruct (getUTXOsBlockbook N _) as [utxos|]; [|simplify_eq; auto].
  destruct (length utxos =? 0)%nat; [simplify_eq; auto|].
  destruct (multisig_script L _ _) as [[a rs]|]; simpl in H; [|simplify_eq; auto].
  rewrite add_inputs_spec in H.
  pose proof (estimateVirtualSize_reads N wid
                (InitiateParams.recipientAddress params) s) as Hreads.
  destruct (estimateVirtualSize L N wid _ s) as [[vSize|] s0]; simpl in Hreads;
    subst s0; [|simplify_eq; auto].
  destruct (_ <? _); [simplify_eq; auto|].
  destruct (customHash L _) as [id|]; [|simplify_eq; auto].
  simplify_eq. right. eexists _, w. repeat split; done.
Qed.


(** *** The stored-record invariant *)

Lemma store_ok_put_tx s id t :
  store_ok s -> tx_ok t -> is_Some (wallets s !! Transaction.walletId t) ->
  store_ok (put_tx id t s).
Proof.
  intros [Hw Ht] Hok Hwal. split; simpl; [done|].
  intros id' t' Hl. destruct (decide (id = id')) as [->|Hne].
  - rewrite lookup_insert_eq in Hl. by simplify_eq.
  - rewrite lookup_insert_ne in Hl by done. eauto.
Qed.

Lemma store_ok_empty : store_ok empty_store.
Proof. split; intros ? ? H; simpl in H; by rewrite lookup_empty in H. Qed.

Lemma exec_ok N c s : store_ok s -> store_ok (exec L N c s).
Proof.
  intros Hs. pose proof Hs as [Hw Ht]. destruct c as [params|wid params|id pk sigs|id|id|id]; simpl.
  - destruct (createMultisigWallet L N params s) as [r s'] eqn:E.
    apply createMultisigWallet_writes in E as [Htx [Hwal|(wid & w & Hwal & Hm)]];
      simpl; split; rewrite ?Htx, ?Hwal; try done.
    + intros id' w' Hl. destruct (decide (wid = id')) as [->|Hne].
      * rewrite lookup_insert_eq in Hl. by simplify_eq.
      * rewrite lookup_insert_ne in Hl by done. eauto.
    + intros id' t Hl. destruct (Ht _ _ Hl) as [Hok [w' Hw']]. split; [done|].
      destruct (decide (wid = Transaction.walletId t)) as [->|Hne].
      * rewrite lookup_insert_eq. eauto.
      * rewrite lookup_insert_ne by done. eauto.
  - destruct (initiateTransaction L N wid params s) as [r s'] eqn:E.
    apply initiateTransaction_writes in E
      as [->|(tx & w & _ & Hwal & -> & Hwid & Hst & Hreq & Hsig & Hrec & Hsd & Hh & Hbt)];
      simpl; [done|].
    apply store_ok_put_tx; [done| |rewrite Hwid; eauto].
    unfold tx_ok. rewrite Hst, Hreq, Hsig, Hrec, Hsd, Hh, Hbt.
    pose proof (Hw _ _ Hwal). rewrite map_size_empty.
    repeat split; try done. intros k [x Hx]. by rewrite lookup_empty in Hx.
  - destruct (submitSignature L id pk sigs s) as [[r|e] s'] eqn:E; simpl.
    + apply submitSignature_Ok in E
        as (t & p & p' & Hl & Hst & Hpk & Hnone & Hwal & _ & _ & Hcase).
      destruct (Ht _ _ Hl) as [(Hreq & Hcount & Hkeys & Hshape) _].
      rewrite Hst in Hshape. destruct Hshape as (_ & Hsd & Hh & Hbt).
      assert (∀ k, is_Some (Object_set pk sigs (Transaction.signatures t) !! k) ->
                   truthy k = true) as Hkeys'.
      { by apply Object_set_keys. }
      destruct Hcase as [(Hle & raw & _ & -> & _)|(Hlt & -> & _)];
        (apply store_ok_put_tx; [done| |done]); unfold tx_ok; simpl;
        rewrite ?Hst; eauto 10.
    + by apply submitSignature_Throw in E as ->.
  - destruct (cancelTransaction id s) as [[r|e] s'] eqn:E; simpl.
    + apply cancelTransaction_Ok in E as (t & Hl & Hst & -> & _).
      destruct (Ht _ _ Hl) as [(Hreq & Hcount & Hkeys & Hshape) Hwal].
      rewrite Hst in Hshape. destruct Hshape as (_ & Hsd & Hh & Hbt).
      apply store_ok_put_tx; [done| |done]. by unfold tx_ok; simpl.
    + by apply cancelTransaction_Throw in E as ->.
  - destruct (broadcastTransaction N id s) as [[r|e] s'] eqn:E; simpl.
    + apply broadcastTransaction_Ok in E as (t & h & Hl & Hst & Hb & -> & _).
      destruct (Ht _ _ Hl) as [(Hreq & Hcount & Hkeys & Hshape) Hwal].
      rewrite Hst in Hshape. destruct Hshape as (Hsd & Hh & Hbt).
      apply utils_broadcastTransaction_truthy in Hb.
      apply store_ok_put_tx; [done| |done]. unfold tx_ok; simpl. eauto 10.
    + by apply broadcastTransaction_Throw in E as ->.
  - destruct (txs s !! id) as [t|] eqn:Hl.
    + destruct (getTransactionStatus_stored N id s t Hl)
        as [(Hst & _ & ->)|[_ ->]]; simpl; [|done].
      destruct (Ht _ _ Hl) as [(Hreq & Hcount & Hkeys & Hshape) Hwal].
      rewrite Hst in Hshape.
      apply store_ok_put_tx; [done| |done]. by unfold tx_ok; simpl.
    + by rewrite getTransactionStatus_missing.
Qed.

Lemma reachable_ok s : reachable L s -> store_ok s.
Proof.
  induction 1 as [|s N c _ IH]; [apply store_ok_empty|by apply exec_ok].
Qed.

End Proofs.

(** ** Signature accounting *)

(** C1. In every record the engine has stored in pending status,
    [signaturesReceived] is the number of entries of [signatures] and is at
    most [requiredSignatures]; and when a [submitSignature] call returns
    having brought the recorded signer count to [requiredSignatures], the
    record it has persisted is the finalised one: [signedTransaction] holds
    the raw transaction extracted from the template with this signer's
    signatures applied, and [status] is all_signed. *)
Theorem C1_signature_accounting (L : Lib) (s : Store) :
  reachable L s ->
  (∀ id t, txs s !! id = Some t -> Transaction.status t = pending ->
     Transaction.signaturesReceived t = Z.of_nat (size (Transaction.signatures t))
     ∧ Transaction.signaturesReceived t <= Transaction.requiredSignatures t)
  ∧ (∀ id pk sigs r s' t',
       submitSignature L id pk sigs s = (Ok r, s') ->
       txs s' !! id = Some t' ->
       Transaction.signaturesReceived t' = Transaction.requiredSignatures t' ->
       ∃ t p p' raw,
         txs s !! id = Some t
         ∧ FromBuffer L (Buffer_from_hex (Transaction.psbt t)) = Ok p
         ∧ submit_each L p pk 0 sigs = Ok p'
         ∧ finalize_extract L p' = Ok raw
         ∧ t' = finalized raw (recorded L t pk sigs p')
         ∧ Transaction.status t' = allsigned
         ∧ Transaction.signedTransaction t' = Some raw
         ∧ SubmitSummary.status r = allsigned).
Proof.
  intros Hreach. apply reachable_ok in Hreach as [_ Htx]. split.
  - intros id t Hl Hst. destruct (Htx _ _ Hl) as [(_ & Hcount & _ & Hshape) _].
    rewrite Hst in Hshape. split; [done|lia].
  - intros id pk sigs r s' t' Hcall Hl' Hreached.
    apply submitSignature_Ok in Hcall
      as (t & p & p' & Hl & _ & _ & _ & _ & Hp & Hp' & Hcase).
    destruct Hcase as [(_ & raw & Hraw & -> & ->)|(Hlt & -> & _)];
      simpl in Hl'; rewrite lookup_insert_eq in Hl'; simplify_eq.
    + by exists t, p, p', raw.
    + simpl in *. lia.
Qed.

Lemma sample_reachable :
  reachable Sample.lib Sample.s_created
  ∧ reachable Sample.lib Sample.s_pending
  ∧ reachable Sample.lib Sample.s_one
  ∧ reachable Sample.lib Sample.s_signed
  ∧ reachable Sample.lib Sample.s_broadcast
  ∧ reachable Sample.lib Sample.s_confirmed.
Proof.
  unfold Sample.s_confirmed, Sample.s_broadcast, Sample.s_signed, Sample.s_one,
    Sample.s_pending, Sample.s_created.
  repeat split; repeat apply reachable_step; apply reachable_empty.
Defined.

Lemma C1_signature_accounting_witness :
  reachable Sample.lib Sample.s_one
  ∧ (∃ t, txs Sample.s_one !! Sample.txid = Some t
          ∧ Transaction.signaturesReceived t = 1
          ∧ Transaction.signaturesReceived t <= Transaction.requiredSignatures t)
  ∧ (∃ t', txs Sample.s_signed !! Sample.txid = Some t'
           ∧ Transaction.status t' = allsigned
           ∧ Transaction.signedTransaction t' = Some "rawtx").
Proof.
  pose proof sample_reachable as (_ & _ & Hone & _).
  destruct (C1_signature_accounting Sample.lib Sample.s_one Hone) as [Hpending Hsubmit].
  split; [exact Hone|]. split.
  - eexists. split; [vm_compute; reflexivity|].
    edestruct (Hpending Sample.txid) as [Hcount Hle]; [vm_compute; reflexivity|reflexivity|].
    split; [reflexivity|exact Hle].
  - eexists. split; [vm_compute; reflexivity|].
    edestruct (Hsubmit Sample.txid "aa" ["31"]) as (t & p & p' & raw & H);
      [vm_compute; reflexivity|vm_compute; reflexivity|reflexivity|].
    destruct H as (_ & _ & _ & Hraw & _ & Hst & Hsd & _).
    vm_compute in Hraw. injection Hraw as <-. split; [exact Hst|exact Hsd].
Defined.

(** ** The status state machine *)




(** ** Fund sufficiency *)

(** C3. For an [initiateTransaction] call on an existing wallet whose
    available inputs total [X] satoshis, with [fee] the estimated virtual
    size times [feeRate], multiplied in double precision as the source does,
    rounded up to an integer: if [amount + fee > X] the call throws
    the insufficient-funds error and the store is unchanged; if
    [amount + fee = X] it stores and returns a pending record whose template
    has the recipient output only; if [amount + fee < X] the template has the
    recipient output followed by a change output to the wallet's own address
    of [X - amount - fee]. *)
Theorem C3_fund_sufficiency (L : Lib) (N : Net) (s : Store) (walletId : string)
  (params : InitiateParams.t) (w : Wallet.t) (utxos : list Utxo.t)
  (script : string * HexString) (vSize : Z) :
  let recipient := InitiateParams.recipientAddress params in
  let amount := InitiateParams.amount params in
  let feeRate := default 1%Q (InitiateParams.feeRate params) in
  let fee := Math_ceil (Number_mul (inject_Z vSize) feeRate) in
  let X := total_satoshis utxos in
  truthy recipient = true -> 0 < amount -> (0 < feeRate)%Q ->
  wallets s !! walletId = Some w ->
  getUTXOsBlockbook N (Wallet.address w) = Ok utxos -> utxos ≠ [] ->
  multisig_script L (Wallet.m w)
    (map Participant.publicKey (Wallet.participants w)) = Ok script ->
  (estimateVirtualSize L N walletId recipient s).1 = Ok vSize ->
  (∀ b, is_Ok (customHash L b) = true) ->
  (X < amount + fee ->
   initiateTransaction L N walletId params s
   = (Throw ("Insufficient funds.  Available: " +:+ pretty X
             +:+ ", Required (amount + fee): " +:+ pretty (amount + fee)), s))
  ∧ (amount + fee = X ->
     ∃ id, let tx := initiated L N walletId params w utxos
                       [Output.mk recipient amount] id in
       customHash L (toBuffer L (template w utxos [Output.mk recipient amount])) = Ok id
       ∧ initiateTransaction L N walletId params s = (Ok tx, put_tx id tx s))
  ∧ (amount + fee < X ->
     ∃ id, let outs := [Output.mk recipient amount;
                        Output.mk (Wallet.address w) (X - amount - fee)] in
           let tx := initiated L N walletId params w utxos outs id in
       customHash L (toBuffer L (template w utxos outs)) = Ok id
       ∧ initiateTransaction L N walletId params s = (Ok tx, put_tx id tx s)).
Proof.
  intros recipient amount feeRate fee X Hrcpt Hamt Hrate Hw Hutxos Hne Hscript Hv Hhash.
  assert (initiateTransaction L N walletId params s
          = if X <? amount + fee
            then (Throw ("Insufficient funds.  Available: " +:+ pretty X
                         +:+ ", Required (amount + fee): " +:+ pretty (amount + fee)), s)
            else
              let outs :=
                if 0 <? X - amount - fee
                then [Output.mk recipient amount;
                      Output.mk (Wallet.address w) (X - amount - fee)]
                else [Output.mk recipient amount] in
              match customHash L (toBuffer L (template w utxos outs)) with
              | Ok id =>
                  (Ok (initiated L N walletId params w utxos outs id),
                   put_tx id (initiated L N walletId params w utxos outs id) s)
              | Throw e => (Throw e, s)
              end) as Hrun.
  { unfold initiateTransaction, initializeMultiSig.
    fold recipient amount feeRate. rewrite Hrcpt. simpl.
    destruct (Z.leb_spec amount 0) as [?|_]; [lia|].
    assert (Qle_bool feeRate 0 = false) as ->.
    { destruct (Qle_bool feeRate 0) eqn:E; [|done].
      apply Qle_bool_iff in E. by apply Qlt_not_le in Hrate. }
    unfold mbind, M_bind, kvStore_get_wallet, lift, throw. rewrite Hw, Hutxos.
    assert ((length utxos =? 0)%nat = false) as -> by by destruct utxos.
    rewrite Hscript. unfold result_bind, mret, result_ret. cbv beta iota.
    rewrite add_inputs_spec. simpl SecuxPsbt.inputs.
    pose proof (estimateVirtualSize_reads L N walletId recipient s) as Hreads.
    destruct (estimateVirtualSize L N walletId recipient s) as [r0 s0].
    simpl in Hv, Hreads. subst r0 s0. fold fee X.
    destruct (X <? amount + fee); [done|].
    unfold AddOutput, template, kvStore_put_tx, put_tx, initiated, M_ret. simpl.
    fold recipient amount. destruct (0 <? X - amount - fee); simpl;
      by destruct (customHash L _). }
  split; [|split].
  - intros Hlt. rewrite Hrun. by apply Z.ltb_lt in Hlt as ->.
  - intros Heq. rewrite Hrun.
    destruct (Z.ltb_spec X (amount + fee)) as [?|_]; [lia|].
    destruct (Z.ltb_spec 0 (X - amount - fee)) as [?|_]; [lia|]. simpl.
    specialize (Hhash (toBuffer L (template w utxos [Output.mk recipient amount]))).
    destruct (customHash L _) as [id|]; [|done]. by exists id.
  - intros Hlt. rewrite Hrun.
    destruct (Z.ltb_spec X (amount + fee)) as [?|_]; [lia|].
    destruct (Z.ltb_spec 0 (X - amount - fee)) as [_|?]; [|lia]. simpl.
    specialize (Hhash (toBuffer L (template w utxos
      [Output.mk recipient amount; Output.mk (Wallet.address w) (X - amount - fee)]))).
    destruct (customHash L _) as [id|]; [|done]. by exists id.
Qed.

Lemma C3_fund_sufficiency_witness :
  ∃ w utxos id,
    wallets Sample.s_created !! Sample.wid = Some w
    ∧ total_satoshis utxos = 100000000
    ∧ Math_ceil (Number_mul 200 (11 # 10)) = 221
    ∧ initiateTransaction Sample.lib (Sample.net 0) Sample.wid Sample2.pay_exact
        Sample.s_created
      = (let tx := initiated Sample.lib (Sample.net 0) Sample.wid Sample2.pay_exact
                     w utxos [Output.mk "recipient" 99999779] id in
         (Ok tx, put_tx id tx Sample.s_created)).
Proof.
  edestruct (C3_fund_sufficiency Sample.lib (Sample.net 0) Sample.s_created
               Sample.wid Sample2.pay_exact) as (_ & Hexact & _);
    [reflexivity|reflexivity|reflexivity|vm_compute; reflexivity
    |vm_compute; reflexivity|discriminate|vm_compute; reflexivity
    |vm_compute; reflexivity|intros b; reflexivity|].
  destruct Hexact as (id & Hid & Hrun); [vm_compute; reflexivity|].
  eexists _, _, id. split; [vm_compute; reflexivity|].
  split; [|split; [vm_compute; reflexivity|exact Hrun]]. reflexivity.
Defined.

(** ** Duplicate signers *)

(** C4. When [submitSignature] is called with a public key that the
    signatures map of a stored pending transaction already contains, it
    throws the already-signed error and writes nothing: the store, and so
    the record and its [signaturesReceived], is the one before the call. *)
Theorem C4_duplicate_signer (L : Lib) (s : Store) (id : string)
  (t : Transaction.t) (pk : HexString) (sigs : list HexString) (p : SecuxPsbt.t) :
  reachable L s ->
  txs s !! id = Some t -> Transaction.status t = pending ->
  is_Some (Transaction.signatures t !! pk) ->
  FromBuffer L (Buffer_from_hex (Transaction.psbt t)) = Ok p ->
  submitSignature L id pk sigs s
  = (Throw ("User with public key " +:+ pk
            +:+ " has already signed this transaction."), s).
Proof.
  intros Hreach Hl Hst Hdup Hp.
  apply reachable_ok in Hreach as [_ Htx].
  destruct (Htx _ _ Hl) as [(_ & _ & Hkeys & _) [w Hw]].
  pose proof (Hkeys _ Hdup) as Hpk.
  unfold submitSignature. rewrite Hpk. simpl.
  unfold mbind, M_bind, kvStore_get_tx, kvStore_get_wallet, lift, throw.
  rewrite Hl, Hst. simpl. rewrite Hw, Hp, find_key_truthy, Hpk.
  by rewrite bool_decide_eq_true_2.
Qed.

Lemma C4_duplicate_signer_witness :
  ∃ t, txs Sample.s_one !! Sample.txid = Some t
       ∧ Transaction.signaturesReceived t = 1
       ∧ submitSignature Sample.lib Sample.txid "bb" ["32"] Sample.s_one
         = (Throw "User with public key bb has already signed this transaction.",
            Sample.s_one).
Proof.
  pose proof sample_reachable as (_ & _ & Hone & _).
  eexists. split; [vm_compute; reflexivity|]. split; [reflexivity|].
  eapply (C4_duplicate_signer Sample.lib Sample.s_one Sample.txid _ "bb" ["32"]);
    [exact Hone|vm_compute; reflexivity|reflexivity|vm_compute; eauto|reflexivity].
Defined.

(** ** Presence of the lifecycle fields *)

(** C5. In every record the engine has stored, [signedTransaction] is
    present exactly when the status is all_signed, broadcasted or confirmed,
    and [txHash] and [broadcastTime] are present exactly when the status is
    broadcasted or confirmed. *)
Theorem C5_fields_by_status (L : Lib) (s : Store) (id : string) (t : Transaction.t) :
  reachable L s -> txs s !! id = Some t ->
  (is_Some (Transaction.signedTransaction t)
   ↔ Transaction.status t = allsigned ∨ Transaction.status t = broadcasted
     ∨ Transaction.status t = finished)
  ∧ (is_Some (Transaction.txHash t)
     ↔ Transaction.status t = broadcasted ∨ Transaction.status t = finished)
  ∧ (is_Some (Transaction.broadcastTime t)
     ↔ Transaction.status t = broadcasted ∨ Transaction.status t = finished).
Proof.
  intros Hreach Hl. apply reachable_ok in Hreach as [_ Htx].
  destruct (Htx _ _ Hl) as [(_ & _ & _ & Hshape) _].
  assert (∀ A, ¬ is_Some (@None A)) as Hnone by (intros A [x [=]]).
  destruct (Transaction.status t) eqn:Hst;
    [destruct Hshape as (_ & Hsd & Hh & Hbt)
    |destruct Hshape as (Hsd & Hh & Hbt)
    |destruct Hshape as (Hsd & (h & Hh & _) & Hbt)
    |destruct Hshape as (Hsd & (h & Hh & _) & Hbt)
    |destruct Hshape as (Hsd & Hh & Hbt)];
    rewrite ?Hsd, ?Hh, ?Hbt;
    repeat split; intros; try (by eexists); try (by exfalso; eapply Hnone);
    intuition (try discriminate; eauto).
Qed.

Lemma C5_fields_by_status_witness :
  ∃ t, txs Sample.s_broadcast !! Sample.txid = Some t
       ∧ Transaction.status t = broadcasted
       ∧ is_Some (Transaction.signedTransaction t)
       ∧ is_Some (Transaction.txHash t)
       ∧ is_Some (Transaction.broadcastTime t).
Proof.
  pose proof sample_reachable as (_ & _ & _ & _ & Hb & _).
  eexists. split; [vm_compute; reflexivity|]. split; [reflexivity|].
  edestruct (C5_fields_by_status Sample.lib Sample.s_broadcast Sample.txid)
    as (Hsigned & Hhash & Htime); [exact Hb|vm_compute; reflexivity|].
  split; [apply Hsigned; right; left; reflexivity|].
  split; [apply Hhash; left; reflexivity|apply Htime; left; reflexivity].
Defined.

(** ** Validation of wallet parameters *)

Lemma set_size_le_length (l : list string) :
  (size (list_to_set l : gset string) <= length l)%nat.
Proof.
  induction l as [|x l IH].
  - apply Nat.eq_le_incl, size_empty.
  - rewrite list_to_set_cons. simpl length.
    destruct (decide (x ∈ (list_to_set l : gset string))) as [Hin|Hnin].
    + rewrite (subseteq_union_1_L {[x]}) by (by apply singleton_subseteq_l). lia.
    + rewrite size_union by (by apply disjoint_singleton_l).
      rewrite size_singleton. lia.
Qed.

Lemma set_size_NoDup (l : list string) :
  size (list_to_set l : gset string) = length l ↔ NoDup l.
Proof.
  split; [|apply size_list_to_set].
  induction l as [|x l IH]; intros Hsize; [constructor|].
  rewrite list_to_set_cons in Hsize. simpl length in Hsize.
  pose proof (set_size_le_length l) as Hle.
  destruct (decide (x ∈ (list_to_set l : gset string))) as [Hin|Hnin].
  - rewrite (subseteq_union_1_L {[x]}) in Hsize by (by apply singleton_subseteq_l).
    lia.
  - rewrite size_union, size_singleton in Hsize by (by apply disjoint_singleton_l).
    constructor; [by rewrite elem_of_list_to_set in Hnin|]. apply IH. lia.
Qed.

Lemma Qlt_bool_true (a b : Q) : Qlt_bool a b = true ↔ (a < b)%Q.
Proof.
  unfold Qlt_bool. rewrite negb_true_iff. split.
  - intros H. apply Qnot_le_lt. intros Hle. apply Qle_bool_iff in Hle. congruence.
  - intros H. destruct (Qle_bool b a) eqn:E; [|done].
    apply Qle_bool_iff in E. by apply Qlt_not_le in H.
Qed.

Lemma Qle_bool_false (a b : Q) : Qle_bool a b = false ↔ (b < a)%Q.
Proof. rewrite <- Qlt_bool_true. unfold Qlt_bool. by rewrite negb_true_iff. Qed.

Lemma valid_create_dec (p : CreateParams.t) : valid_create p ∨ invalid_create p.
Proof.
  unfold valid_create, invalid_create.
  destruct (Number_isInteger (CreateParams.m p)); [|by auto].
  destruct (Number_isInteger (CreateParams.n p)); [|by auto].
  destruct (Qlt_le_dec 0 (CreateParams.m p)); [|by auto 10].
  destruct (Qlt_le_dec (CreateParams.n p) (CreateParams.m p)); [by auto 10|].
  destruct (Qeq_dec (inject_Z (Z.of_nat (length (CreateParams.participants p))))
              (CreateParams.n p)); [|by auto 10].
  destruct (decide (NoDup (map CreateParams.publicKey (CreateParams.participants p))));
    [left|right]; auto 10.
Qed.

Lemma valid_not_invalid (p : CreateParams.t) :
  valid_create p -> ¬ invalid_create p.
Proof.
  intros (Hm & Hn & Hpos & Hle & Hlen & Hnd) [H|[H|[H|[H|[H|[H|H]]]]]];
    try congruence; try done.
  - by apply Qlt_not_le in Hpos.
  - apply Qlt_not_le in Hpos. apply Hpos. exact (Qle_trans _ _ _ Hle H).
  - by apply Qlt_not_le in H.
Qed.

(** The four argument checks, as the function evaluates them. *)
Lemma valid_create_checks (p : CreateParams.t) :
  valid_create p ->
  negb (Number_isInteger (CreateParams.m p))
  || negb (Number_isInteger (CreateParams.n p)) = false
  ∧ Qlt_bool (CreateParams.n p) (CreateParams.m p)
    || Qle_bool (CreateParams.m p) 0 || Qle_bool (CreateParams.n p) 0 = false
  ∧ Qeq_bool (inject_Z (Z.of_nat (length (CreateParams.participants p))))
      (CreateParams.n p) = true
  ∧ Qeq_bool
      (inject_Z (Z.of_nat (size (list_to_set
         (map CreateParams.publicKey (CreateParams.participants p)) : gset string))))
      (CreateParams.n p) = true.
Proof.
  intros (Hm & Hn & Hpos & Hle & Hlen & Hnd). rewrite Hm, Hn. split; [done|].
  split; [|split].
  - apply orb_false_intro; [apply orb_false_intro|].
    + destruct (Qlt_bool _ _) eqn:E; [|done].
      apply Qlt_bool_true in E. by apply Qlt_not_le in E.
    + by apply Qle_bool_false.
    + apply Qle_bool_false. by eapply Qlt_le_trans.
  - by apply Qeq_bool_iff.
  - apply Qeq_bool_iff. apply set_size_NoDup in Hnd. rewrite Hnd.
    by rewrite length_map.
Qed.

Lemma createMultisigWallet_rejects (L : Lib) (N : Net) (s : Store)
  (p : CreateParams.t) :
  invalid_create p ->
  ∃ e, e ∈ create_validation_errors p
       ∧ createMultisigWallet L N p s = (Throw e, s).
Proof.
  intros Hinv. unfold createMultisigWallet, create_validation_errors, throw.
  destruct (negb _ || negb _) eqn:Hint.
  { eexists. split; [|done]. rewrite !elem_of_cons. auto. }
  destruct (Qlt_bool _ _ || Qle_bool _ _ || Qle_bool _ _) eqn:Hrange.
  { eexists. split; [|done]. rewrite !elem_of_cons. auto. }
  destruct (Qeq_bool (inject_Z (Z.of_nat (length _))) _) eqn:Hlen; simpl.
  2:{ eexists. split; [|done]. rewrite !elem_of_cons. auto. }
  destruct (Qeq_bool (inject_Z (Z.of_nat (size _))) _) eqn:Hdup; simpl.
  2:{ eexists. split; [|done]. rewrite !elem_of_cons. auto. }
  exfalso. revert Hinv. apply valid_not_invalid.
  apply orb_false_elim in Hint as [Hm%negb_false_iff Hn%negb_false_iff].
  apply orb_false_elim in Hrange as [[Hmn Hm0]%orb_false_elim Hn0].
  apply Qeq_bool_iff in Hlen, Hdup.
  repeat split; try done.
  - by apply Qle_bool_false.
  - apply Qnot_lt_le. intros Hlt. apply Qlt_bool_true in Hlt. congruence.
  - apply set_size_NoDup. rewrite length_map.
    rewrite <- Hlen in Hdup. unfold Qeq in Hdup. simpl in Hdup. lia.
Qed.

(** C6, as stated, fails on the code: [createMultisigWallet] has no upper
    bound on [n]; eleven distinct participants are accepted (the cap of ten
    is the request schema's). *)
Lemma C6_eleven_participants_accepted :
  (10 < CreateParams.n Sample.one_of_eleven)%Q
  ∧ ∃ r, (createMultisigWallet Sample.lib (Sample.net 0) Sample.one_of_eleven
            empty_store).1 = Ok r
         ∧ WalletSummary.n r = 11.
Proof. split; [reflexivity|]. eexists. split; vm_compute; reflexivity. Qed.

(** C6 (amended). [createMultisigWallet] throws one of its four validation
    errors, leaving the store unchanged, whenever [m] or [n] is not a
    positive integer, [m > n], the participants list does not have exactly
    [n] entries, or two participants share a public key. In every other case
    (whatever the size of [n]) validation passes: once the hash and the
    script engine have answered, the wallet is stored and its summary
    returned. *)
Theorem C6_create_validation (L : Lib) (N : Net) (s : Store) (p : CreateParams.t) :
  (invalid_create p ->
   ∃ e, e ∈ create_validation_errors p
        ∧ createMultisigWallet L N p s = (Throw e, s))
  ∧ (valid_create p ->
     ∀ fp id address redeemScript,
       let publicKeys := map CreateParams.publicKey (CreateParams.participants p) in
       key_fingerprint L publicKeys = Ok fp ->
       customHash L (Buffer_from (fp +:+ "#secux_btc_multisig")) = Ok id ->
       multisig_script L (Number_toZ (CreateParams.m p)) publicKeys
       = Ok (address, redeemScript) ->
       createMultisigWallet L N p s
       = (Ok (wallet_summary (created N p id address redeemScript)),
          mkStore (<[id := created N p id address redeemScript]> (wallets s))
            (txs s) (<[fp := id]> (ids s))))
  ∧ (valid_create p ∨ invalid_create p).
Proof.
  split; [apply createMultisigWallet_rejects|split; [|apply valid_create_dec]].
  intros Hvalid fp id address redeemScript publicKeys Hfp Hid Hscript.
  destruct (valid_create_checks p Hvalid) as (Hint & Hrange & Hlen & Hdup).
  unfold createMultisigWallet. rewrite Hint, Hrange, Hlen. simpl. rewrite Hdup. simpl.
  unfold key_fingerprint in Hfp. fold publicKeys.
  unfold generateWalletId, initializeMultiSig, mbind, M_bind, lift, kvStore_put_id,
    kvStore_put_wallet, mret, M_ret, result_bind, result_ret.
  by rewrite Hfp, Hid, Hscript.
Qed.

Lemma C6_create_validation_witness :
  (∃ e, createMultisigWallet Sample.lib (Sample.net 0)
          (CreateParams.mk (3 # 2) (3 # 1) None (Sample.keys ["aa"; "bb"; "cc"]))
          empty_store = (Throw e, empty_store))
  ∧ (createMultisigWallet Sample.lib (Sample.net 0) Sample.two_of_three empty_store).1
    = Ok (WalletSummary.mk Sample.wid "addr-aa-bb-cc" "script" 2 3 "treasury"
            "2025-01-01T00:00:00.000Z").
Proof.
  split.
  - destruct (C6_create_validation Sample.lib (Sample.net 0) empty_store
                (CreateParams.mk (3 # 2) (3 # 1) None (Sample.keys ["aa"; "bb"; "cc"])))
      as (Hreject & _ & _).
    destruct Hreject as (e & _ & Hrun); [left; reflexivity|]. by exists e.
  - destruct (C6_create_validation Sample.lib (Sample.net 0) empty_store
                Sample.two_of_three) as (_ & Haccept & _).
    assert (valid_create Sample.two_of_three) as Hvalid.
    { repeat split; try reflexivity; try (intros [=]).
      apply (bool_decide_unpack _). vm_compute. exact I. }
    erewrite (Haccept Hvalid); reflexivity.
Defined.

(** ** Deterministic wallet identity *)

(** C7. For fixed [m], [n] and ordered list of participant public keys,
    any two [createMultisigWallet] calls (whatever the store, the clock, the
    wallet name or the user ids) end the same way: both throw the same error
    or both return the same [walletId] and [address]. The [walletId] is
    [spec_walletId]: the SHA-256 hash, Base58-encoded, of the key fingerprint
    (the public keys joined with "-" in the order given, hashed and encoded
    the same way) followed by the fixed suffix "#secux_btc_multisig"; neither
    encoding is empty. *)
Theorem C7_deterministic_identity (L : Lib) (N1 N2 : Net) (s1 s2 : Store)
  (p1 p2 : CreateParams.t) :
  CreateParams.m p1 = CreateParams.m p2 ->
  CreateParams.n p1 = CreateParams.n p2 ->
  map CreateParams.publicKey (CreateParams.participants p1)
  = map CreateParams.publicKey (CreateParams.participants p2) ->
  match (createMultisigWallet L N1 p1 s1).1, (createMultisigWallet L N2 p2 s2).1 with
  | Ok r1, Ok r2 =>
      let publicKeys := map CreateParams.publicKey (CreateParams.participants p1) in
      WalletSummary.walletId r1 = WalletSummary.walletId r2
      ∧ WalletSummary.address r1 = WalletSummary.address r2
      ∧ WalletSummary.walletId r1 = spec_walletId L publicKeys
      ∧ spec_key_fingerprint L publicKeys ≠ ""
      ∧ spec_walletId L publicKeys ≠ ""
  | Throw e1, Throw e2 => e1 = e2
  | _, _ => False
  end.
Proof.
  intros Hm Hn Hkeys. unfold createMultisigWallet, key_fingerprint.
  rewrite <- Hm, <- Hn.
  rewrite <- (length_map CreateParams.publicKey (CreateParams.participants p1)).
  rewrite <- (length_map CreateParams.publicKey (CreateParams.participants p2)).
  rewrite <- Hkeys.
  unfold generateWalletId, initializeMultiSig. run_M.
  destruct (negb _ || negb _); [done|].
  destruct (Qlt_bool _ _ || Qle_bool _ _ || Qle_bool _ _); [done|].
  destruct (Qeq_bool (inject_Z (Z.of_nat (length _))) _); simpl; [|done].
  destruct (Qeq_bool (inject_Z (Z.of_nat (size _))) _); simpl; [|done].
  destruct (customHash L (Buffer_from (String.concat "-" _))) as [fp|] eqn:Hfp;
    simpl; [|done].
  destruct (customHash L (Buffer_from (fp +:+ _))) as [id|] eqn:Hid; simpl; [|done].
  destruct (multisig_script L _ _) as [[address script]|]; simpl; [|done].
  assert (∀ text r, customHash L (Buffer_from text) = Ok r ->
            r = hash_then_Base58 L text ∧ r ≠ "") as Hhash.
  { intros text r. unfold customHash, hash_then_Base58.
    destruct (truthy (Base58_encode L _)) eqn:Htr; simpl; [|done].
    intros [= <-]. split; [done|]. intros E. by rewrite E in Htr. }
  apply Hhash in Hfp as [-> Hfp]. apply Hhash in Hid as [-> Hid].
  by repeat split.
Qed.

Lemma C7_deterministic_identity_witness :
  ∃ r1 r2,
    (createMultisigWallet Sample.lib (Sample.net 0) Sample.two_of_three empty_store).1
    = Ok r1
    ∧ (createMultisigWallet Sample.lib Sample.net_down
         (CreateParams.mk (2 # 1) (3 # 1) (Some "renamed")
            [CreateParams.mkp "aa" (Some "alice"); CreateParams.mkp "bb" None;
             CreateParams.mkp "cc" None])
         Sample.s_created).1 = Ok r2
    ∧ WalletSummary.walletId r1 = WalletSummary.walletId r2
    ∧ WalletSummary.address r1 = WalletSummary.address r2
    ∧ WalletSummary.name r1 ≠ WalletSummary.name r2.
Proof.
  pose proof (C7_deterministic_identity Sample.lib (Sample.net 0) Sample.net_down
                empty_store Sample.s_created Sample.two_of_three
                (CreateParams.mk (2 # 1) (3 # 1) (Some "renamed")
                   [CreateParams.mkp "aa" (Some "alice"); CreateParams.mkp "bb" None;
                    CreateParams.mkp "cc" None])
                eq_refl eq_refl eq_refl) as Hsame.
  assert ((createMultisigWallet Sample.lib (Sample.net 0) Sample.two_of_three
             empty_store).1
          = Ok (WalletSummary.mk Sample.wid "addr-aa-bb-cc" "script" 2 3 "treasury"
                  "2025-01-01T00:00:00.000Z")) as E1 by (vm_compute; reflexivity).
  assert ((createMultisigWallet Sample.lib Sample.net_down
             (CreateParams.mk (2 # 1) (3 # 1) (Some "renamed")
                [CreateParams.mkp "aa" (Some "alice"); CreateParams.mkp "bb" None;
                 CreateParams.mkp "cc" None])
             Sample.s_created).1
          = Ok (WalletSummary.mk Sample.wid "addr-aa-bb-cc" "script" 2 3 "renamed"
                  "2025-01-01T00:00:00.000Z")) as E2 by (vm_compute; reflexivity).
  rewrite E1, E2 in Hsame. destruct Hsame as (Hid & Haddr & _).
  eexists _, _. split; [exact E1|]. split; [exact E2|].
  split; [exact Hid|]. split; [exact Haddr|discriminate].
Defined.

(** ** Failures and persistence writes *)

Lemma initiateTransaction_Throw (L : Lib) N wid params s e s' :
  initiateTransaction L N wid params s = (Throw e, s') -> s' = s.
Proof.
  intros H. by apply initiateTransaction_writes in H as [->|(tx & w & [=] & _)].
Qed.

(** C8, as stated, fails on the code. [getTransactionStatus] does not
    surface a failing network query: it returns the stored summary. And
    [createMultisigWallet] has a write before its last external call:
    [generateWalletId] stores the [_id:] record before the script engine
    derives the address, so a failing derivation leaves that record behind. *)
Lemma C8_early_write_and_swallowed_failure :
  (∃ s', createMultisigWallet Sample.lib (Sample.net 0) Sample.bad_keys empty_store
         = (Throw "Invalid public key", s')
         ∧ ids s' !! "Bxx-yy-zz" = Some "BBxx-yy-zz#secux_btc_multisig"
         ∧ s' ≠ empty_store)
  ∧ (∃ r, rpc_getrawtransaction Sample.net_down "cafe" = Throw "fetch failed"
          ∧ getTransactionStatus Sample.net_down Sample.txid Sample.s_broadcast
            = (Ok r, Sample.s_broadcast)
          ∧ StatusSummary.txHash r = Some "cafe").
Proof.
  split.
  - eexists. split; [vm_compute; reflexivity|]. split; [vm_compute; reflexivity|].
    intros Heq. apply (f_equal (λ s, ids s !! "Bxx-yy-zz")) in Heq.
    vm_compute in Heq. discriminate Heq.
  - eexists. split; [reflexivity|]. split; vm_compute; reflexivity.
Qed.

(** C8 (amended). [initiateTransaction], [submitSignature],
    [cancelTransaction] and [broadcastTransaction] write to the store once,
    as their last step: whenever one of them throws, the store is unchanged,
    and a failing funding lookup or broadcast is thrown to the caller.
    [getTransactionStatus] queries the network before its only write, and a
    failing query is not thrown: the call returns the stored summary and
    writes nothing. [createMultisigWallet] checks its arguments before any
    write, so a validation failure leaves the store unchanged, and a call
    that throws never writes a wallet or transaction record. *)
Theorem C8_failures_and_writes (L : Lib) (N : Net) (s : Store) :
  (∀ wid params e s', initiateTransaction L N wid params s = (Throw e, s') -> s' = s)
  ∧ (∀ id pk sigs e s', submitSignature L id pk sigs s = (Throw e, s') -> s' = s)
  ∧ (∀ id e s', cancelTransaction id s = (Throw e, s') -> s' = s)
  ∧ (∀ id e s', broadcastTransaction N id s = (Throw e, s') -> s' = s)
  ∧ (∀ wid params w e,
       truthy (InitiateParams.recipientAddress params) = true ->
       0 < InitiateParams.amount params ->
       (0 < default 1%Q (InitiateParams.feeRate params))%Q ->
       wallets s !! wid = Some w ->
       getUTXOsBlockbook N (Wallet.address w) = Throw e ->
       initiateTransaction L N wid params s = (Throw e, s))
  ∧ (∀ id t e,
       txs s !! id = Some t -> Transaction.status t = allsigned ->
       utils_broadcastTransaction N (default "" (Transaction.signedTransaction t))
       = Throw e ->
       broadcastTransaction N id s = (Throw e, s))
  ∧ (∀ id t h e,
       txs s !! id = Some t -> Transaction.txHash t = Some h ->
       rpc_getrawtransaction N h = Throw e ->
       getTransactionStatus N id s = (Ok (status_summary t), s))
  ∧ (∀ p e s',
       createMultisigWallet L N p s = (Throw e, s') ->
       wallets s' = wallets s ∧ txs s' = txs s
       ∧ (invalid_create p -> s' = s)).
Proof.
  repeat split.
  - intros ? ? ? ?. apply initiateTransaction_Throw.
  - intros ? ? ? ? ?. apply submitSignature_Throw.
  - intros ? ? ?. apply cancelTransaction_Throw.
  - intros ? ? ?. apply broadcastTransaction_Throw.
  - intros wid params w e Hrcpt Hamt Hrate Hw Hfetch.
    unfold initiateTransaction. rewrite Hrcpt. simpl.
    destruct (Z.leb_spec (InitiateParams.amount params) 0) as [?|_]; [lia|].
    apply Qle_bool_false in Hrate. rewrite Hrate.
    run_M. by rewrite Hw, Hfetch.
  - intros id t e Hl Hst Hfail. unfold broadcastTransaction. run_M.
    by rewrite Hl, Hst, Hfail.
  - intros id t h e Hl Hh Hfail.
    destruct (getTransactionStatus_stored N id s t Hl)
      as [(_ & (h' & Hh' & _ & Hconf) & _)|[_ E]]; [|done].
    rewrite Hh in Hh'. injection Hh' as <-.
    unfold utils_getTransactionStatus in Hconf. by rewrite Hfail in Hconf.
  - revert H. unfold createMultisigWallet, generateWalletId, initializeMultiSig. run_M.
    intros H. repeat (case_match; simplify_eq; try done).
  - eapply createMultisigWallet_writes, H.
  - intros Hinv. destruct (createMultisigWallet_rejects L N s p Hinv) as (e' & _ & Hrun).
    congruence.
Qed.

Lemma C8_failures_and_writes_witness :
  broadcastTransaction Sample.net_down Sample.txid Sample.s_signed
  = (Throw "fetch failed", Sample.s_signed)
  ∧ getTransactionStatus Sample.net_down Sample.txid Sample.s_broadcast
    = (Ok (StatusSummary.mk Sample.txid Sample.wid broadcasted
             "2025-01-01T00:00:00.000Z" (Some "cafe")
             (Some "2025-01-01T00:00:00.000Z") 2 2), Sample.s_broadcast).
Proof.
  split.
  - destruct (C8_failures_and_writes Sample.lib Sample.net_down Sample.s_signed)
      as (_ & _ & _ & _ & _ & Hbroadcast & _).
    eapply Hbroadcast; [vm_compute; reflexivity|reflexivity|reflexivity].
  - destruct (C8_failures_and_writes Sample.lib Sample.net_down Sample.s_broadcast)
      as (_ & _ & _ & _ & _ & _ & Hstatus & _).
    erewrite Hstatus; [|vm_compute; reflexivity|reflexivity|reflexivity].
    reflexivity.
Defined.

(** ** Confirmation polling *)




(** ** Signature lists are not checked against the input count *)




(** * Further properties of the code *)

(** ** Identifiers *)

Lemma customHash_truthy (L : Lib) (data : Buffer) (r : string) :
  customHash L data = Ok r -> truthy r = true.
Proof.
  unfold customHash. destruct (truthy (Base58_encode L _)) eqn:E; simpl; [|done].
  by intros [= <-].
Qed.

Lemma Number_toZ_floor (x : Q) : Number_toZ x = Qfloor x.
Proof. by destruct x. Qed.

(** What a valid set of arguments says about the integers stored. *)
Lemma valid_create_bounds (p : CreateParams.t) :
  valid_create p ->
  0 < Number_toZ (CreateParams.m p)
  ∧ Number_toZ (CreateParams.m p) <= Number_toZ (CreateParams.n p)
  ∧ Number_toZ (CreateParams.n p)
    = Z.of_nat (length (CreateParams.participants p)).
Proof.
  intros (Hm & Hn & Hpos & Hle & Hlen & Hnd). split; [|split].
  - apply Number_toZ_pos; [done|]. by apply Qle_bool_false.
  - rewrite !Number_toZ_floor. by apply Qfloor_resp_le.
  - rewrite Number_toZ_floor, <- Hlen. apply Qfloor_Z.
Qed.

(** Every way [createMultisigWallet] can end. *)
Lemma createMultisigWallet_cases (L : Lib) (N : Net) (p : CreateParams.t) (s : Store)
  r s' :
  createMultisigWallet L N p s = (r, s') ->
  (wallets s' = wallets s ∧ txs s' = txs s ∧ ∃ e, r = Throw e)
  ∨ (valid_create p
     ∧ ∃ fp id address redeemScript,
         key_fingerprint L (map CreateParams.publicKey (CreateParams.participants p))
         = Ok fp
         ∧ customHash L (Buffer_from (fp +:+ "#secux_btc_multisig")) = Ok id
         ∧ multisig_script L (Number_toZ (CreateParams.m p))
             (map CreateParams.publicKey (CreateParams.participants p))
           = Ok (address, redeemScript)
         ∧ r = Ok (wallet_summary (created N p id address redeemScript))
         ∧ s' = mkStore (<[id := created N p id address redeemScript]> (wallets s))
                  (txs s) (<[fp := id]> (ids s))).
Proof.
  intros Hrun. destruct (valid_create_dec p) as [Hvalid|Hinv].
  - destruct (valid_create_checks p Hvalid) as (Hint & Hrange & Hlen & Hdup).
    revert Hrun. unfold createMultisigWallet. rewrite Hint, Hrange, Hlen. simpl.
    rewrite Hdup. simpl. unfold generateWalletId, initializeMultiSig. run_M.
    destruct (customHash L (Buffer_from (String.concat "-" _))) as [fp|e] eqn:Hfp;
      [|intros [= <- <-]; left; eauto].
    destruct (customHash L (Buffer_from (fp +:+ _))) as [id|e] eqn:Hid; simpl;
      [|intros [= <- <-]; left; eauto].
    destruct (multisig_script L _ _) as [[address script]|e] eqn:Hscript; simpl;
      [|intros [= <- <-]; left; eauto].
    intros [= <- <-]. right. split; [done|]. by exists fp, id, address, script.
  - destruct (createMultisigWallet_rejects L N s p Hinv) as (e & _ & He).
    rewrite He in Hrun. injection Hrun as <- <-. left. eauto.
Qed.

(** Every way [initiateTransaction] can succeed. *)
Lemma initiateTransaction_Ok (L : Lib) (N : Net) wid params s tx s' :
  initiateTransaction L N wid params s = (Ok tx, s') ->
  let recipient := InitiateParams.recipientAddress params in
  let amount := InitiateParams.amount params in
  let feeRate := default 1%Q (InitiateParams.feeRate params) in
  ∃ w utxos script vSize id,
    let fee := estimated_fee vSize params in
    let X := total_satoshis utxos in
    let outs := if 0 <? X - amount - fee
                then [Output.mk recipient amount;
                      Output.mk (Wallet.address w) (X - amount - fee)]
                else [Output.mk recipient amount] in
    wallets s !! wid = Some w
    ∧ truthy recipient = true ∧ 0 < amount ∧ (0 < feeRate)%Q
    ∧ getUTXOsBlockbook N (Wallet.address w) = Ok utxos ∧ utxos ≠ []
    ∧ multisig_script L (Wallet.m w)
        (map Participant.publicKey (Wallet.participants w)) = Ok script
    ∧ (estimateVirtualSize L N wid recipient s).1 = Ok vSize
    ∧ amount + fee <= X
    ∧ customHash L (toBuffer L (template w utxos outs)) = Ok id
    ∧ tx = initiated L N wid params w utxos outs id
    ∧ s' = put_tx id tx s.
Proof.
  intros Hrun recipient amount feeRate. revert Hrun. unfold estimated_fee.
  unfold initiateTransaction, initializeMultiSig. fold recipient amount feeRate.
  destruct (truthy recipient) eqn:Hrcpt; simpl; [|done].
  destruct (Z.leb_spec amount 0) as [?|Hamt]; [done|].
  destruct (Qle_bool feeRate 0) eqn:Hrate; [done|]. apply Qle_bool_false in Hrate.
  run_M. destruct (wallets s !! wid) as [w|] eqn:Hw; [|done].
  destruct (getUTXOsBlockbook N _) as [utxos|] eqn:Hutxos; [|done].
  destruct (length utxos =? 0)%nat eqn:Hlen; [done|].
  destruct (multisig_script L _ _) as [script|] eqn:Hscript; simpl; [|done].
  rewrite add_inputs_spec. simpl SecuxPsbt.inputs.
  pose proof (estimateVirtualSize_reads L N wid recipient s) as Hreads.
  destruct (estimateVirtualSize L N wid recipient s) as [[vSize|] s0] eqn:Hv;
    simpl in Hreads; subst s0; [|done].
  destruct (Z.ltb_spec (total_satoshis utxos)
              (amount + Math_ceil (Number_mul (inject_Z vSize) feeRate))) as [?|Hfunds]; [done|].
  intros Hrun. exists w, utxos, script, vSize.
  assert (utxos ≠ []) as Hne by (by destruct utxos).
  unfold AddOutput, template, initiated in *. simpl in *.
  destruct (0 <? total_satoshis utxos - amount - Math_ceil (Number_mul (inject_Z vSize) feeRate));
    simpl in Hrun;
    (destruct (customHash L _) as [id|] eqn:Hid; [|done]);
    injection Hrun as <- <-; exists id; repeat split; done.
Qed.

(** What a lifecycle call leaves under a key that held [t]. *)
Lemma lifecycle_cases (L : Lib) (N : Net) (c : Call) (s : Store) id t t' :
  lifecycle_call c = true ->
  txs s !! id = Some t -> txs (exec L N c s) !! id = Some t' ->
  t' = t
  ∨ (Transaction.status t = pending
     ∧ ∃ pk sigs p,
         c = SubmitSignature id pk sigs
         ∧ truthy pk = true
         ∧ Transaction.signatures t !! pk = None
         ∧ ((Transaction.signaturesReceived (recorded L t pk sigs p)
               < Transaction.requiredSignatures t
             ∧ t' = recorded L t pk sigs p)
            ∨ (Transaction.requiredSignatures t
                 <= Transaction.signaturesReceived (recorded L t pk sigs p)
               ∧ ∃ raw, t' = finalized raw (recorded L t pk sigs p))))
  ∨ (Transaction.status t = pending ∧ c = Cancel id
     ∧ t' = Transaction.set_status cancelled t)
  ∨ (Transaction.status t = allsigned ∧ c = Broadcast id
     ∧ ∃ h, truthy h = true ∧ t' = broadcast_record N h t)
  ∨ (Transaction.status t = broadcasted ∧ c = GetStatus id
     ∧ t' = Transaction.set_status finished t).
Proof.
  intros Hc Hl Hl'.
  destruct c as [?|? ?|id' pk sigs|id'|id'|id']; try done; simpl in *.
  - destruct (submitSignature L id' pk sigs s) as [[r|e] s'] eqn:E; simpl in *.
    + apply submitSignature_Ok in E
        as (t0 & p & p' & Hl0 & Hst & Hpk & Hnew & _ & _ & _ & Hcase).
      destruct (decide (id' = id)) as [->|Hne].
      * simplify_eq. right. left. split; [done|]. exists pk, sigs, p'.
        repeat split; try done.
        destruct Hcase as [(Hle & raw & _ & -> & _)|(Hlt & -> & _)];
          simpl in Hl'; rewrite lookup_insert_eq in Hl'; injection Hl' as <-.
        { right. split; [done|]. by exists raw. }
        { left. by split. }
      * left.
        destruct Hcase as [(_ & raw & _ & -> & _)|(_ & -> & _)];
          simpl in Hl'; rewrite lookup_insert_ne in Hl' by done; congruence.
    + apply submitSignature_Throw in E as ->. left. congruence.
  - destruct (cancelTransaction id' s) as [[r|e] s'] eqn:E; simpl in *.
    + apply cancelTransaction_Ok in E as (t0 & Hl0 & Hst & -> & _). simpl in Hl'.
      destruct (decide (id' = id)) as [->|Hne].
      * rewrite lookup_insert_eq in Hl'. simplify_eq. right. right. left. auto.
      * rewrite lookup_insert_ne in Hl' by done. left. congruence.
    + apply cancelTransaction_Throw in E as ->. left. congruence.
  - destruct (broadcastTransaction N id' s) as [[r|e] s'] eqn:E; simpl in *.
    + apply broadcastTransaction_Ok in E as (t0 & h & Hl0 & Hst & Hh & -> & _).
      apply utils_broadcastTransaction_truthy in Hh.
      simpl in Hl'. destruct (decide (id' = id)) as [->|Hne].
      * rewrite lookup_insert_eq in Hl'. simplify_eq. do 3 right. left. eauto.
      * rewrite lookup_insert_ne in Hl' by done. left. congruence.
    + apply broadcastTransaction_Throw in E as ->. left. congruence.
  - destruct (txs s !! id') as [t0|] eqn:Hl0.
    + destruct (getTransactionStatus_stored N id' s t0 Hl0)
        as [(Hst & _ & E)|[_ E]]; rewrite E in Hl'; simpl in Hl'.
      * destruct (decide (id' = id)) as [->|Hne].
        -- rewrite lookup_insert_eq in Hl'. simplify_eq. do 4 right. auto.
        -- rewrite lookup_insert_ne in Hl' by done. left. congruence.
      * left. congruence.
    + rewrite getTransactionStatus_missing in Hl' by done. left.
      simpl in Hl'. congruence.
Qed.

(** A lifecycle call writes at most one record, under a key already in
    use. *)
Lemma lifecycle_store (L : Lib) (N : Net) (c : Call) (s : Store) :
  lifecycle_call c = true ->
  exec L N c s = s
  ∨ ∃ id t t', txs s !! id = Some t ∧ exec L N c s = put_tx id t' s.
Proof.
  intros Hc. destruct c as [?|? ?|id pk sigs|id|id|id]; try done; simpl.
  - destruct (submitSignature L id pk sigs s) as [[r|e] s'] eqn:E; simpl.
    + apply submitSignature_Ok in E
        as (t & p & p' & Hl & _ & _ & _ & _ & _ & _ & Hcase). right.
      destruct Hcase as [(_ & raw & _ & -> & _)|(_ & -> & _)]; eauto.
    + apply submitSignature_Throw in E as ->. by left.
  - destruct (cancelTransaction id s) as [[r|e] s'] eqn:E; simpl.
    + apply cancelTransaction_Ok in E as (t & Hl & _ & -> & _). right. eauto.
    + apply cancelTransaction_Throw in E as ->. by left.
  - destruct (broadcastTransaction N id s) as [[r|e] s'] eqn:E; simpl.
    + apply broadcastTransaction_Ok in E as (t & h & Hl & _ & _ & -> & _). right. eauto.
    + apply broadcastTransaction_Throw in E as ->. by left.
  - destruct (txs s !! id) as [t|] eqn:Hl.
    + destruct (getTransactionStatus_stored N id s t Hl)
        as [(_ & _ & ->)|[_ ->]]; simpl; [right; eauto|by left].
    + rewrite getTransactionStatus_missing by done. by left.
Qed.

Lemma lifecycle_before (L : Lib) (N : Net) (c : Call) (s : Store) id t' :
  lifecycle_call c = true ->
  txs (exec L N c s) !! id = Some t' -> is_Some (txs s !! id).
Proof.
  intros Hc Hl'. destruct (lifecycle_store L N c s Hc) as [E|(id0 & t & t0 & Hl & E)];
    rewrite E in Hl'; [eauto|].
  simpl in Hl'. destruct (decide (id0 = id)) as [->|Hne]; [eauto|].
  rewrite lookup_insert_ne in Hl' by done. eauto.
Qed.

Lemma lifecycle_wallets (L : Lib) (N : Net) (c : Call) (s : Store) :
  lifecycle_call c = true -> wallets (exec L N c s) = wallets s.
Proof.
  intros Hc. by destruct (lifecycle_store L N c s Hc) as [->|(? & ? & ? & _ & ->)].
Qed.

Lemma store_wf_empty (L : Lib) : store_wf L empty_store.
Proof. split; intros ? ? H; simpl in H; by rewrite lookup_empty in H. Qed.

Lemma exec_wf (L : Lib) (N : Net) (c : Call) (s : Store) :
  store_ok s -> store_wf L s -> store_wf L (exec L N c s).
Proof.
  intros [Hokw Hokt] [Hw Ht].
  destruct (lifecycle_call c) eqn:Hc.
  - split; [by rewrite lifecycle_wallets|].
    intros id t' Hl'.
    destruct (lifecycle_before L N c s id t' Hc Hl') as [t Hl].
    destruct (Ht _ _ Hl) as (Hid & Htr & Hrc & Hamt & Hin & Hle & Hfull & p0 & Hp0).
    destruct (Hokt _ _ Hl) as [(Hreq & Hcount & _ & Hshape) _].
    destruct (lifecycle_cases L N c s id t t' Hc Hl Hl')
      as [->|[(Hst & pk & sigs & p & _ & _ & Hnew & Hcase)
             |[(Hst & _ & ->)|[(Hst & _ & h & _ & ->)|(Hst & _ & ->)]]]].
    + by apply Ht.
    + rewrite Hst in Hshape. destruct Hshape as (Hlt & _).
      assert (Transaction.signaturesReceived (recorded L t pk sigs p)
              <= Transaction.signaturesReceived t + 1) as Hinc.
      { simpl. rewrite Object_set_size by done.
        destruct (decide (pk = "__proto__")); lia. }
      simpl in Hinc.
      destruct Hcase as [(Hbelow & ->)|(Hreach & raw & ->)]; simpl in *.
      * unfold tx_wf. simpl. split_and!; try done; try lia;
          try (intros Hn; by rewrite Hst in Hn);
          by exists p.
      * unfold tx_wf. simpl. split_and!; try done; try lia;
          by exists p.
    + repeat split; simpl; try done; eauto.
    + repeat split; simpl; try done; eauto.
      intros _ _. apply Hfull; rewrite Hst; done.
    + repeat split; simpl; try done; eauto.
      intros _ _. apply Hfull; rewrite Hst; done.
  - destruct c as [params|wid params| | | |]; try done; simpl.
    + destruct (createMultisigWallet L N params s) as [r s'] eqn:E.
      apply createMultisigWallet_cases in E
        as [(Hwal & Htx & _)|(Hvalid & fp & id & a & rs & _ & Hid & _ & _ & ->)];
        cbn [snd].
      * split; rewrite ?Hwal, ?Htx; done.
      * split; cbn [wallets txs]; [|done].
        intros id' w Hl. destruct (decide (id = id')) as [->|Hne].
        -- rewrite lookup_insert_eq in Hl. injection Hl as <-.
           destruct (valid_create_bounds params Hvalid) as (Hpos & Hle & Hn).
           destruct Hvalid as (_ & _ & _ & _ & _ & Hnd).
           unfold wallet_wf. simpl. split_and!; try done.
           ++ by eapply customHash_truthy.
           ++ by rewrite length_map.
           ++ by rewrite map_map.
        -- rewrite lookup_insert_ne in Hl by done. eauto.
    + destruct (initiateTransaction L N wid params s) as [[tx|e] s'] eqn:E; simpl.
      * apply initiateTransaction_Ok in E
          as (w & utxos & script & vSize & id & Hwal & Hrc & Hamt & _ & _ & Hne
              & _ & _ & _ & Hid & -> & ->).
        split; [done|]. cbn [txs put_tx]. intros id' t Hl.
        destruct (decide (id = id')) as [->|Hneq].
        -- rewrite lookup_insert_eq in Hl. injection Hl as <-.
           pose proof (Hokw _ _ Hwal).
           unfold tx_wf. simpl. split_and!; try done; try lia.
           ++ by eapply customHash_truthy.
           ++ destruct utxos; [done|simpl; lia].
           ++ by eexists.
        -- rewrite lookup_insert_ne in Hl by done. eauto.
      * by apply initiateTransaction_Throw in E as ->.
Qed.

Lemma reachable_wf (L : Lib) (s : Store) : reachable L s -> store_wf L s.
Proof.
  induction 1 as [|s N c Hreach IH]; [apply store_wf_empty|].
  apply exec_wf; [by eapply reachable_ok|done].
Qed.

(** ** Invariants of the stored records *)

(** X1. Every wallet record the engine has stored sits under its own
    [walletId], which is not empty; its threshold satisfies [0 < m <= n], [n]
    is the number of its participants, and their public keys are pairwise
    distinct. *)
Theorem X1_wallet_records (L : Lib) (s : Store) (id : string) (w : Wallet.t) :
  reachable L s -> wallets s !! id = Some w ->
  Wallet.walletId w = id
  ∧ id ≠ ""
  ∧ 0 < Wallet.m w <= Wallet.n w
  ∧ Wallet.n w = Z.of_nat (length (Wallet.participants w))
  ∧ NoDup (map Participant.publicKey (Wallet.participants w)).
Proof.
  intros Hreach Hl. apply reachable_wf in Hreach as [Hw _].
  destruct (Hw _ _ Hl) as (Hid & Htr & Hm & Hmn & Hn & Hnd).
  split_and!; try done. by intros ->.
Qed.

Lemma X1_wallet_records_witness :
  ∃ w, wallets Sample.s_created !! Sample.wid = Some w
       ∧ Wallet.walletId w = Sample.wid
       ∧ 0 < Wallet.m w <= Wallet.n w
       ∧ Wallet.n w = 3.
Proof.
  pose proof sample_reachable as (Hc & _).
  eexists. split; [vm_compute; reflexivity|].
  edestruct (X1_wallet_records Sample.lib Sample.s_created Sample.wid)
    as (Hid & _ & Hm & Hn & _); [exact Hc|vm_compute; reflexivity|].
  split; [exact Hid|]. split; [exact Hm|exact Hn].
Defined.

(** X2. Every transaction record the engine has stored sits under its own
    [transactionId], which is not empty; it names a stored wallet; its
    recipient is not empty and its [amount] and [inputCount] are positive. *)
Theorem X2_transaction_records (L : Lib) (s : Store) (id : string)
  (t : Transaction.t) :
  reachable L s -> txs s !! id = Some t ->
  Transaction.transactionId t = id
  ∧ id ≠ ""
  ∧ is_Some (wallets s !! Transaction.walletId t)
  ∧ Transaction.recipientAddress t ≠ ""
  ∧ 0 < Transaction.amount t
  ∧ 0 < Transaction.inputCount t.
Proof.
  intros Hreach Hl. pose proof (reachable_ok L s Hreach) as [_ Hok].
  apply reachable_wf in Hreach as [_ Ht].
  destruct (Ht _ _ Hl) as (Hid & Htr & Hrc & Hamt & Hin & _).
  destruct (Hok _ _ Hl) as [_ Hwal].
  split_and!; try done; [by intros ->|intros E; by rewrite E in Hrc].
Qed.

Lemma X2_transaction_records_witness :
  ∃ t, txs Sample.s_signed !! Sample.txid = Some t
       ∧ Transaction.transactionId t = Sample.txid
       ∧ is_Some (wallets Sample.s_signed !! Transaction.walletId t)
       ∧ 0 < Transaction.inputCount t.
Proof.
  pose proof sample_reachable as (_ & _ & _ & Hs & _).
  eexists. split; [vm_compute; reflexivity|].
  edestruct (X2_transaction_records Sample.lib Sample.s_signed Sample.txid)
    as (Hid & _ & Hw & _ & _ & Hin); [exact Hs|vm_compute; reflexivity|].
  split; [exact Hid|]. split; [exact Hw|exact Hin].
Defined.

(** X3. The engine never collects more signers than the threshold: in every
    stored record [signaturesReceived] is the number of entries of
    [signatures] and at most [requiredSignatures], and once the status is
    all_signed, broadcasted or confirmed it is exactly [requiredSignatures]. *)
Theorem X3_threshold_exact (L : Lib) (s : Store) (id : string) (t : Transaction.t) :
  reachable L s -> txs s !! id = Some t ->
  Transaction.signaturesReceived t = Z.of_nat (size (Transaction.signatures t))
  ∧ Transaction.signaturesReceived t <= Transaction.requiredSignatures t
  ∧ (Transaction.status t = allsigned ∨ Transaction.status t = broadcasted
     ∨ Transaction.status t = finished ->
     Transaction.signaturesReceived t = Transaction.requiredSignatures t).
Proof.
  intros Hreach Hl. pose proof (reachable_ok L s Hreach) as [_ Hok].
  apply reachable_wf in Hreach as [_ Ht].
  destruct (Ht _ _ Hl) as (_ & _ & _ & _ & _ & Hle & Hfull & _).
  destruct (Hok _ _ Hl) as [(_ & Hcount & _) _].
  split_and!; try done.
  intros [E|[E|E]]; apply Hfull; rewrite E; discriminate.
Qed.

Lemma X3_threshold_exact_witness :
  ∃ t, txs Sample.s_broadcast !! Sample.txid = Some t
       ∧ size (Transaction.signatures t) = 2%nat
       ∧ Transaction.requiredSignatures t = 2.
Proof.
  pose proof sample_reachable as (_ & _ & _ & _ & Hb & _).
  eexists. split; [vm_compute; reflexivity|].
  edestruct (X3_threshold_exact Sample.lib Sample.s_broadcast Sample.txid)
    as (Hcount & _ & Hfull); [exact Hb|vm_compute; reflexivity|].
  specialize (Hfull (or_intror (or_introl eq_refl))).
  split; [|by rewrite <- Hfull]. vm_compute. reflexivity.
Defined.

(** X4. The hexadecimal text persisted in [psbt] always decodes to a buffer
    that [toBuffer] produced: what [submitSignature] hands to [FromBuffer]
    is, byte for byte, the serialisation written by [initiateTransaction] or
    by the previous [submitSignature]. *)
Theorem X4_persisted_template (L : Lib) (s : Store) (id : string)
  (t : Transaction.t) :
  reachable L s -> txs s !! id = Some t ->
  ∃ p, Buffer_from_hex (Transaction.psbt t) = toBuffer L p
       ∧ Transaction.psbt t = Buffer_toString_hex (toBuffer L p).
Proof.
  intros Hreach Hl. apply reachable_wf in Hreach as [_ Ht].
  destruct (Ht _ _ Hl) as (_ & _ & _ & _ & _ & _ & _ & p & Hp).
  exists p. split; [|done]. rewrite Hp. apply Buffer_from_hex_toString_hex.
Qed.

Lemma X4_persisted_template_witness :
  ∃ t p, txs Sample.s_one !! Sample.txid = Some t
         ∧ Buffer_from_hex (Transaction.psbt t) = toBuffer Sample.lib p.
Proof.
  pose proof sample_reachable as (_ & _ & Hone & _).
  edestruct (X4_persisted_template Sample.lib Sample.s_one Sample.txid)
    as (p & Hp & _); [exact Hone|vm_compute; reflexivity|].
  eexists _, p. split; [vm_compute; reflexivity|exact Hp].
Defined.


(** ** What the lifecycle operations change, and what they never do *)

(** X5. [submitSignature], [cancelTransaction], [broadcastTransaction] and
    [getTransactionStatus] never change the intent of a stored transaction:
    its [transactionId], [walletId], [recipientAddress], [amount],
    [inputCount], [requiredSignatures], [initiatedTime] and [note] stay as
    written at initiation. A confirmed or cancelled record is not changed at
    all. *)
Theorem X5_intent_is_immutable (L : Lib) (N : Net) (c : Call) (s : Store)
  (id : string) (t t' : Transaction.t) :
  lifecycle_call c = true ->
  txs s !! id = Some t -> txs (exec L N c s) !! id = Some t' ->
  same_intent t t'
  ∧ (Transaction.status t = finished ∨ Transaction.status t = cancelled -> t' = t).
Proof.
  intros Hc Hl Hl'.
  destruct (lifecycle_cases L N c s id t t' Hc Hl Hl')
    as [->|[(Hst & pk & sigs & p & _ & _ & _ & Hcase)
           |[(Hst & _ & ->)|[(Hst & _ & h & _ & ->)|(Hst & _ & ->)]]]].
  - by split.
  - split; [|intros [E|E]; congruence].
    by destruct Hcase as [(_ & ->)|(_ & raw & ->)].
  - split; [done|intros [E|E]; congruence].
  - split; [done|intros [E|E]; congruence].
  - split; [done|intros [E|E]; congruence].
Qed.

Lemma X5_intent_is_immutable_witness :
  ∃ t t', txs Sample.s_signed !! Sample.txid = Some t
          ∧ txs Sample.s_broadcast !! Sample.txid = Some t'
          ∧ Transaction.amount t' = Transaction.amount t
          ∧ Transaction.requiredSignatures t' = Transaction.requiredSignatures t
          ∧ Transaction.status t' ≠ Transaction.status t.
Proof.
  eexists _, _. split; [vm_compute; reflexivity|]. split; [vm_compute; reflexivity|].
  edestruct (X5_intent_is_immutable Sample.lib (Sample.net 0) (Broadcast Sample.txid)
               Sample.s_signed Sample.txid)
    as [(_ & _ & _ & Hamt & _ & Hreq & _) _];
    [reflexivity|vm_compute; reflexivity|vm_compute; reflexivity|].
  split; [exact Hamt|]. split; [exact Hreq|discriminate].
Defined.

(** X6. Recorded signatures are never lost or altered by a lifecycle
    operation: every entry of [signatures] is still there afterwards, and at
    most one entry is added. Only [submitSignature] on a pending record adds
    one; on a record that is not pending, [signatures],
    [signaturesReceived], the template and [signedTransaction] are left as
    they are. *)
Theorem X6_signatures_only_grow (L : Lib) (N : Net) (c : Call) (s : Store)
  (id : string) (t t' : Transaction.t) :
  lifecycle_call c = true ->
  txs s !! id = Some t -> txs (exec L N c s) !! id = Some t' ->
  Transaction.signatures t ⊆ Transaction.signatures t'
  ∧ (size (Transaction.signatures t') <= S (size (Transaction.signatures t)))%nat
  ∧ (Transaction.status t ≠ pending ->
     Transaction.signatures t' = Transaction.signatures t
     ∧ Transaction.signaturesReceived t' = Transaction.signaturesReceived t
     ∧ Transaction.psbt t' = Transaction.psbt t
     ∧ Transaction.signedTransaction t' = Transaction.signedTransaction t).
Proof.
  intros Hc Hl Hl'.
  destruct (lifecycle_cases L N c s id t t' Hc Hl Hl')
    as [->|[(Hst & pk & sigs & p & _ & _ & Hnew & Hcase)
           |[(Hst & _ & ->)|[(Hst & _ & h & _ & ->)|(Hst & _ & ->)]]]];
    try (split_and!; [done|lia|done]).
  - split_and!; [| |done].
    + destruct Hcase as [(_ & ->)|(_ & raw & ->)]; simpl;
        by apply Object_set_subseteq.
    + destruct Hcase as [(_ & ->)|(_ & raw & ->)]; simpl;
        rewrite Object_set_size by done; destruct (decide (pk = "__proto__")); lia.
  - split_and!; [done|simpl; lia|done].
  - split_and!; [done|simpl; lia|done].
  - split_and!; [done|simpl; lia|done].
Qed.

Lemma X6_signatures_only_grow_witness :
  ∃ t t', txs Sample.s_one !! Sample.txid = Some t
          ∧ txs Sample.s_signed !! Sample.txid = Some t'
          ∧ Transaction.signatures t !! "bb" = Some ["30"]
          ∧ Transaction.signatures t' !! "bb" = Some ["30"]
          ∧ Transaction.signatures t' !! "aa" = Some ["31"].
Proof.
  eexists _, _. split; [vm_compute; reflexivity|]. split; [vm_compute; reflexivity|].
  edestruct (X6_signatures_only_grow Sample.lib (Sample.net 0)
               (SubmitSignature Sample.txid "aa" ["31"]) Sample.s_one Sample.txid)
    as (Hsub & _ & _);
    [reflexivity|vm_compute; reflexivity|vm_compute; reflexivity|].
  split; [vm_compute; reflexivity|].
  split; [|vm_compute; reflexivity].
  eapply lookup_weaken; [|exact Hsub]. vm_compute. reflexivity.
Defined.

(** X7. Nothing is ever deleted: whatever the call, whether it returns or
    throws, every wallet, transaction and [_id:] key present before it is
    present after it. *)
Theorem X7_nothing_is_deleted (L : Lib) (N : Net) (c : Call) (s : Store) :
  (∀ id, is_Some (wallets s !! id) -> is_Some (wallets (exec L N c s) !! id))
  ∧ (∀ id, is_Some (txs s !! id) -> is_Some (txs (exec L N c s) !! id))
  ∧ (∀ k, is_Some (ids s !! k) -> is_Some (ids (exec L N c s) !! k)).
Proof.
  assert (∀ A (m : gmap string A) k v i,
            is_Some (m !! i) -> is_Some (<[k := v]> m !! i)) as Hins.
  { intros A m k v i Hi. destruct (decide (k = i)) as [->|Hne].
    - rewrite lookup_insert_eq. eauto.
    - by rewrite lookup_insert_ne. }
  destruct (lifecycle_call c) eqn:Hc.
  - destruct (lifecycle_store L N c s Hc) as [->|(id0 & t & t0 & _ & ->)];
      [done|]. simpl. split_and!; auto.
  - destruct c as [params|wid params| | | |]; try done; simpl.
    + destruct (createMultisigWallet L N params s) as [r s'] eqn:E.
      destruct (createMultisigWallet_cases L N params s r s' E)
        as [(Hwal & Htx & _)|(_ & fp & id & a & rs & _ & _ & _ & _ & ->)]; simpl.
      * rewrite Hwal, Htx. split_and!; auto.
        revert E. unfold createMultisigWallet, generateWalletId, initializeMultiSig.
        run_M. intros E k Hk.
        repeat (case_match; simplify_eq; try done); simpl; auto.
      * split_and!; auto.
    + destruct (initiateTransaction L N wid params s) as [[tx|e] s'] eqn:E; simpl.
      * apply initiateTransaction_Ok in E
          as (w & utxos & script & vSize & id & _ & _ & _ & _ & _ & _ & _ & _ & _
              & _ & _ & ->). simpl. split_and!; auto.
      * by apply initiateTransaction_Throw in E as ->.
Qed.

Lemma X7_nothing_is_deleted_witness :
  is_Some (txs Sample2.s_cancelled !! Sample.txid)
  ∧ is_Some (wallets Sample2.s_cancelled !! Sample.wid).
Proof.
  destruct (X7_nothing_is_deleted Sample.lib (Sample.net 0) (Cancel Sample.txid)
              Sample.s_one) as (Hw & Ht & _).
  split; [apply Ht|apply Hw]; vm_compute; eauto.
Defined.

(** X8. The summary [submitSignature] returns carries, under the name
    [requiredSignatures], the number of signatures still missing: it is
    never negative, and it is 0 exactly when the returned status is
    all_signed; otherwise the status is still pending. The returned
    [signaturesReceived] is the stored count, one more than before the call
    for every public key but "__proto__", under which no signer is recorded
    and the count stays as it was. *)
Theorem X8_submit_summary (L : Lib) (s : Store) (id : string) (pk : HexString)
  (sigs : list HexString) (r : SubmitSummary.t) (s' : Store) :
  reachable L s -> submitSignature L id pk sigs s = (Ok r, s') ->
  ∃ t t', txs s !! id = Some t ∧ txs s' !! id = Some t'
    ∧ SubmitSummary.status r = Transaction.status t'
    ∧ SubmitSummary.signaturesReceived r = Transaction.signaturesReceived t'
    ∧ SubmitSummary.requiredSignatures r
      = Transaction.requiredSignatures t' - Transaction.signaturesReceived t'
    ∧ SubmitSummary.signaturesReceived r
      = (if decide (pk = "__proto__") then Transaction.signaturesReceived t
         else Transaction.signaturesReceived t + 1)
    ∧ 0 <= Transaction.signaturesReceived t
    ∧ 0 <= SubmitSummary.requiredSignatures r
    ∧ (SubmitSummary.requiredSignatures r = 0 ↔ SubmitSummary.status r = allsigned)
    ∧ (SubmitSummary.status r = allsigned ∨ SubmitSummary.status r = pending).
Proof.
  intros Hreach Hrun. apply reachable_ok in Hreach as [_ Hok].
  apply submitSignature_Ok in Hrun
    as (t & p & p' & Hl & Hst & _ & Hnew & _ & _ & _ & Hcase).
  destruct (Hok _ _ Hl) as [(_ & Hcount & _ & Hshape) _].
  rewrite Hst in Hshape. destruct Hshape as (Hlt & _).
  assert (Transaction.signaturesReceived (recorded L t pk sigs p')
          = if decide (pk = "__proto__") then Transaction.signaturesReceived t
            else Transaction.signaturesReceived t + 1) as Hinc.
  { simpl. rewrite Object_set_size by done.
    destruct (decide (pk = "__proto__")); lia. }
  assert (Transaction.signaturesReceived (recorded L t pk sigs p')
          <= Transaction.signaturesReceived t + 1) as Hup
    by (rewrite Hinc; destruct (decide (pk = "__proto__")); lia).
  destruct Hcase as [(Hle & raw & _ & -> & ->)|(Hbelow & -> & ->)].
  - exists t, (finalized raw (recorded L t pk sigs p')).
    cbn [put_tx txs]. rewrite lookup_insert_eq.
    split_and!; try done; [lia|simpl in *; lia|..].
    + split; [done|]. intros _. simpl in *. lia.
    + by left.
  - exists t, (recorded L t pk sigs p').
    cbn [put_tx txs]. rewrite lookup_insert_eq.
    split_and!; try done; [lia|simpl in *; lia|..].
    + split; [simpl in *; lia|]. simpl. rewrite Hst. done.
    + right. simpl. by rewrite Hst.
Qed.

Lemma X8_submit_summary_witness :
  ∃ r s', submitSignature Sample.lib Sample.txid "bb" ["30"] Sample.s_pending
          = (Ok r, s')
          ∧ SubmitSummary.signaturesReceived r = 1
          ∧ SubmitSummary.requiredSignatures r = 1
          ∧ SubmitSummary.status r = pending.
Proof.
  pose proof sample_reachable as (_ & Hp & _).
  eexists _, _. split; [vm_compute; reflexivity|].
  edestruct (X8_submit_summary Sample.lib Sample.s_pending Sample.txid "bb" ["30"])
    as (t & t' & _ & _ & _ & _ & _ & _ & _ & _ & Hzero & Hst);
    [exact Hp|vm_compute; reflexivity|].
  split; [reflexivity|]. split; [reflexivity|].
  destruct Hst as [Hall|Hpen]; [|exact Hpen].
  apply Hzero in Hall. discriminate Hall.
Defined.

(** ** Wallet identity and re-creation *)

(** X9. The [walletId] is derived from the ordered public keys alone: two
    successful [createMultisigWallet] calls on the same keys return the same
    [walletId] even when their thresholds [m], names or user ids differ, and
    the later call replaces the stored record, so that the wallet found under
    that id afterwards carries the later call's threshold, address, name and
    creation time. *)
Theorem X9_same_keys_same_wallet (L : Lib) (N1 N2 : Net) (s1 s2 s1' s2' : Store)
  (p1 p2 : CreateParams.t) (r1 r2 : WalletSummary.t) :
  map CreateParams.publicKey (CreateParams.participants p1)
  = map CreateParams.publicKey (CreateParams.participants p2) ->
  createMultisigWallet L N1 p1 s1 = (Ok r1, s1') ->
  createMultisigWallet L N2 p2 s2 = (Ok r2, s2') ->
  WalletSummary.walletId r1 = WalletSummary.walletId r2
  ∧ ∃ w, wallets s2' !! WalletSummary.walletId r1 = Some w
         ∧ wallet_summary w = r2
         ∧ Wallet.m w = Number_toZ (CreateParams.m p2)
         ∧ Wallet.name w = default "" (CreateParams.name p2)
         ∧ Wallet.creationTime w = now N2.
Proof.
  intros Hkeys H1 H2.
  apply createMultisigWallet_cases in H1
    as [(_ & _ & e & [=])|(_ & fp1 & id1 & a1 & rs1 & Hfp1 & Hid1 & _ & [= ->] & ->)].
  apply createMultisigWallet_cases in H2
    as [(_ & _ & e & [=])|(_ & fp2 & id2 & a2 & rs2 & Hfp2 & Hid2 & _ & [= ->] & ->)].
  rewrite Hkeys, Hfp2 in Hfp1. injection Hfp1 as <-.
  rewrite Hid2 in Hid1. injection Hid1 as <-.
  split; [done|]. simpl. rewrite lookup_insert_eq. eexists. split; [done|]. done.
Qed.

Lemma X9_same_keys_same_wallet_witness :
  ∃ w w', wallets Sample.s_created !! Sample.wid = Some w
          ∧ wallets Sample2.s_recreated !! Sample.wid = Some w'
          ∧ Wallet.m w = 2 ∧ Wallet.m w' = 1
          ∧ Wallet.name w' = "petty cash".
Proof.
  assert (∃ r1 s1', createMultisigWallet Sample.lib (Sample.net 0) Sample.two_of_three
                      empty_store = (Ok r1, s1')
                    ∧ WalletSummary.walletId r1 = Sample.wid) as (r1 & s1' & H1 & Hid)
    by (eexists _, _; split; vm_compute; reflexivity).
  destruct (createMultisigWallet Sample.lib Sample2.net_later Sample2.one_of_three
              Sample.s_created) as [r2 s2'] eqn:H2.
  assert (∃ r, r2 = Ok r) as [r ->]
    by (apply (f_equal fst) in H2; vm_compute in H2; rewrite <- H2; eauto).
  destruct (X9_same_keys_same_wallet Sample.lib (Sample.net 0) Sample2.net_later
              empty_store Sample.s_created s1' s2' Sample.two_of_three
              Sample2.one_of_three r1 r eq_refl H1 H2)
    as (_ & w' & Hl' & _ & Hm & Hname & _).
  rewrite Hid in Hl'.
  assert (Sample2.s_recreated = s2') as ->.
  { change Sample2.s_recreated
      with (createMultisigWallet Sample.lib Sample2.net_later Sample2.one_of_three
              Sample.s_created).2. by rewrite H2. }
  eexists _, w'. split; [vm_compute; reflexivity|]. split; [exact Hl'|].
  split; [reflexivity|]. split; [exact Hm|exact Hname].
Defined.

(** X10. A wallet that [createMultisigWallet] has returned is found by
    [getWalletDetails] under the returned id: the record agrees with the
    summary and lists the participants' public keys in the order supplied,
    with "" for a missing name or user id. For an id that is not stored,
    [getWalletDetails] returns null instead of throwing. Neither case writes. *)
Theorem X10_create_then_details (L : Lib) (N : Net) (p : CreateParams.t)
  (s s' : Store) (r : WalletSummary.t) :
  createMultisigWallet L N p s = (Ok r, s') ->
  (∃ w, getWalletDetails (WalletSummary.walletId r) s' = (Ok (Some w), s')
        ∧ wallet_summary w = r
        ∧ map Participant.publicKey (Wallet.participants w)
          = map CreateParams.publicKey (CreateParams.participants p)
        ∧ map Participant.userId (Wallet.participants w)
          = map (λ x, default "" (CreateParams.userId x)) (CreateParams.participants p)
        ∧ Wallet.name w = default "" (CreateParams.name p))
  ∧ (∀ id, wallets s' !! id = None -> getWalletDetails id s' = (Ok None, s')).
Proof.
  intros Hrun. split.
  - apply createMultisigWallet_cases in Hrun
      as [(_ & _ & e & [=])|(_ & fp & id & a & rs & _ & _ & _ & [= ->] & ->)].
    eexists. unfold getWalletDetails. run_M. rewrite lookup_insert_eq.
    split; [done|]. simpl. by rewrite !map_map.
  - intros id Hnone. unfold getWalletDetails. run_M. by rewrite Hnone.
Qed.

Lemma X10_create_then_details_witness :
  ∃ w, getWalletDetails Sample.wid Sample.s_created = (Ok (Some w), Sample.s_created)
       ∧ map Participant.publicKey (Wallet.participants w) = ["aa"; "bb"; "cc"]
       ∧ getWalletDetails "nowhere" Sample.s_created = (Ok None, Sample.s_created).
Proof.
  destruct (createMultisigWallet Sample.lib (Sample.net 0) Sample.two_of_three
              empty_store) as [r0 s'] eqn:Hrun.
  assert (∃ r, r0 = Ok r ∧ WalletSummary.walletId r = Sample.wid) as (r & -> & Hid).
  { apply (f_equal fst) in Hrun. vm_compute in Hrun. rewrite <- Hrun. eauto. }
  assert (Sample.s_created = s') as ->.
  { change Sample.s_created
      with (createMultisigWallet Sample.lib (Sample.net 0) Sample.two_of_three
              empty_store).2. by rewrite Hrun. }
  destruct (X10_create_then_details Sample.lib (Sample.net 0) Sample.two_of_three
              empty_store s' r Hrun) as [(w & Hget & _ & Hkeys & _) Hnone].
  rewrite Hid in Hget. exists w. split; [exact Hget|]. split; [exact Hkeys|].
  apply Hnone. apply (f_equal snd) in Hrun. simpl in Hrun. rewrite <- Hrun.
  vm_compute. reflexivity.
Defined.

(** ** Initiation *)

Lemma getUTXOsBlockbook_same (N1 N2 : Net) (address : string) :
  fetch_scantxoutset N2 address = fetch_scantxoutset N1 address ->
  getUTXOsBlockbook N2 address = getUTXOsBlockbook N1 address.
Proof. intros E. unfold getUTXOsBlockbook, getUTXOs. by rewrite E. Qed.

Lemma estimateVirtualSize_same (L : Lib) (N1 N2 : Net) (s1 s2 : Store) wid rcpt w :
  wallets s1 !! wid = Some w -> wallets s2 !! wid = Some w ->
  fetch_scantxoutset N2 (Wallet.address w) = fetch_scantxoutset N1 (Wallet.address w) ->
  (estimateVirtualSize L N2 wid rcpt s2).1 = (estimateVirtualSize L N1 wid rcpt s1).1.
Proof.
  intros H1 H2 E. unfold estimateVirtualSize. run_M. rewrite H1, H2.
  rewrite (getUTXOsBlockbook_same N1 N2 _ E).
  repeat (case_match; simplify_eq; try done).
Qed.

(** X11. [initiateTransaction] keys the record by the hash of the template:
    initiating again with the same arguments, the same wallet record and the
    same funding outputs derives the same [transactionId] and overwrites
    whatever is stored under it with a fresh pending record, with no
    signatures, whatever the status and the signatures of the record that
    was there. *)
Theorem X11_reinitiation_resets (L : Lib) (N1 N2 : Net) (s1 s1' s2 : Store)
  (wid : string) (params : InitiateParams.t) (w : Wallet.t) (tx1 : Transaction.t) :
  initiateTransaction L N1 wid params s1 = (Ok tx1, s1') ->
  wallets s1 !! wid = Some w -> wallets s2 !! wid = Some w ->
  fetch_scantxoutset N2 (Wallet.address w) = fetch_scantxoutset N1 (Wallet.address w) ->
  ∃ tx2,
    initiateTransaction L N2 wid params s2
    = (Ok tx2, put_tx (Transaction.transactionId tx1) tx2 s2)
    ∧ Transaction.transactionId tx2 = Transaction.transactionId tx1
    ∧ Transaction.psbt tx2 = Transaction.psbt tx1
    ∧ Transaction.status tx2 = pending
    ∧ Transaction.signatures tx2 = ∅
    ∧ Transaction.signaturesReceived tx2 = 0
    ∧ Transaction.initiatedTime tx2 = now N2.
Proof.
  intros H1 Hw1 Hw2 Hfetch.
  apply initiateTransaction_Ok in H1
    as (w0 & utxos & script & vSize & id & Hw0 & Hrc & Hamt & Hrate & Hutxos & Hne
        & Hscript & Hv & Hfunds & Hid & -> & ->).
  rewrite Hw1 in Hw0. injection Hw0 as <-. unfold estimated_fee in Hfunds, Hid.
  set (amount := InitiateParams.amount params) in *.
  set (recipient := InitiateParams.recipientAddress params) in *.
  set (feeRate := default 1%Q (InitiateParams.feeRate params)) in *.
  set (fee := Math_ceil (Number_mul (inject_Z vSize) feeRate)) in *.
  set (outs := if 0 <? total_satoshis utxos - amount - fee
               then [Output.mk recipient amount;
                     Output.mk (Wallet.address w) (total_satoshis utxos - amount - fee)]
               else [Output.mk recipient amount]) in *.
  exists (initiated L N2 wid params w utxos outs id).
  split; [|done].
  rewrite <- (getUTXOsBlockbook_same N1 N2 _ Hfetch) in Hutxos.
  rewrite <- (estimateVirtualSize_same L N1 N2 s1 s2 wid recipient w Hw1 Hw2 Hfetch)
    in Hv.
  unfold initiateTransaction, initializeMultiSig.
  fold recipient amount feeRate. rewrite Hrc. simpl.
  destruct (Z.leb_spec amount 0) as [?|_]; [lia|].
  apply Qle_bool_false in Hrate. rewrite Hrate.
  unfold mbind, M_bind, kvStore_get_wallet, lift, throw. rewrite Hw2, Hutxos.
  assert ((length utxos =? 0)%nat = false) as -> by by destruct utxos.
  rewrite Hscript. unfold result_bind, mret, result_ret. cbv beta iota.
  rewrite add_inputs_spec. simpl SecuxPsbt.inputs.
  pose proof (estimateVirtualSize_reads L N2 wid recipient s2) as Hreads.
  destruct (estimateVirtualSize L N2 wid recipient s2) as [r0 s0].
  simpl in Hv, Hreads. subst r0 s0. fold fee.
  destruct (Z.ltb_spec (total_satoshis utxos) (amount + fee)) as [?|_]; [lia|].
  unfold AddOutput, kvStore_put_tx, put_tx, M_ret. simpl.
  unfold template in Hid. subst outs.
  destruct (0 <? total_satoshis utxos - amount - fee); simpl; by rewrite Hid.
Qed.

Lemma X11_reinitiation_resets_witness :
  ∃ t t', txs Sample.s_one !! Sample.txid = Some t
          ∧ size (Transaction.signatures t) = 1%nat
          ∧ txs Sample2.s_reinitiated !! Sample.txid = Some t'
          ∧ Transaction.signatures t' = ∅
          ∧ Transaction.signaturesReceived t' = 0.
Proof.
  assert (∃ w, wallets Sample.s_created !! Sample.wid = Some w
               ∧ wallets Sample.s_one !! Sample.wid = Some w) as (w & Hw1 & Hw2)
    by (eexists; split; vm_compute; reflexivity).
  assert (∃ tx1 s1', initiateTransaction Sample.lib (Sample.net 0) Sample.wid
                       (Sample.pay 100000) Sample.s_created = (Ok tx1, s1')
                     ∧ Transaction.transactionId tx1 = Sample.txid)
    as (tx1 & s1' & H1 & Hid)
    by (eexists _, _; split; vm_compute; reflexivity).
  destruct (X11_reinitiation_resets Sample.lib (Sample.net 0) Sample2.net_later
              Sample.s_created s1' Sample.s_one Sample.wid (Sample.pay 100000) w tx1
              H1 Hw1 Hw2 eq_refl) as (tx2 & H2 & _ & _ & _ & Hsig & Hcount & _).
  rewrite Hid in H2.
  eexists _, tx2. split; [vm_compute; reflexivity|]. split; [vm_compute; reflexivity|].
  split; [|split; [exact Hsig|exact Hcount]].
  change Sample2.s_reinitiated
    with (initiateTransaction Sample.lib Sample2.net_later Sample.wid
            (Sample.pay 100000) Sample.s_one).2.
  rewrite H2. cbn [snd txs put_tx]. apply lookup_insert_eq.
Defined.

(** X12. [getUTXOsBlockbook] keeps exactly the outputs worth more than
    0.02 BTC: each funding input it returns comes from such an output of the
    node's answer and carries at least 2,000,000 satoshis, and every such
    output is returned. *)
Theorem X12_only_large_outputs (N : Net) (address : string) (utxos : list Utxo.t) :
  getUTXOsBlockbook N address = Ok utxos ->
  ∃ response,
    let unspents := ScanResult.unspents (Response.json response) in
    let utxo_of x :=
      Utxo.mk (Unspent.txid x) (Unspent.vout x)
        (Math_round (Unspent.amount x * inject_Z 100000000)%Q) in
    fetch_scantxoutset N address = Ok response
    ∧ Forall (λ u, 2000000 <= Utxo.satoshis u) utxos
    ∧ (∀ u, u ∈ utxos ->
         ∃ x, x ∈ unspents ∧ (2 # 100 < Unspent.amount x)%Q ∧ u = utxo_of x)
    ∧ (∀ x, x ∈ unspents -> (2 # 100 < Unspent.amount x)%Q -> utxo_of x ∈ utxos)
    ∧ (length utxos <= length unspents)%nat.
Proof.
  unfold getUTXOsBlockbook, getUTXOs. run_M.
  destruct (fetch_scantxoutset N address) as [response|] eqn:Hfetch; [|done].
  destruct (Response.ok response) eqn:Hok; simpl; [|done].
  destruct (ScanResult.success (Response.json response)) eqn:Hsucc; simpl; [|done].
  destruct (length (ScanResult.unspents (Response.json response)) =? 0)%nat; [done|].
  intros [= <-]. exists response. simpl.
  set (l := ScanResult.unspents (Response.json response)).
  assert (∀ u, u ∈ map
              (λ u0, Utxo.mk (Unspent.txid u0) (Unspent.vout u0)
                       (Math_round (Unspent.amount u0 * inject_Z 100000000)))
              (filter (λ u0, Qlt_bool (2 # 100) (Unspent.amount u0) = true) l) ->
            ∃ x, x ∈ l ∧ (2 # 100 < Unspent.amount x)%Q
                 ∧ u = Utxo.mk (Unspent.txid x) (Unspent.vout x)
                         (Math_round (Unspent.amount x * inject_Z 100000000)))
    as Hfrom.
  { intros u Hin. apply list_elem_of_fmap in Hin as (x & -> & Hx).
    apply list_elem_of_filter in Hx as [Hbig Hx]. apply Qlt_bool_true in Hbig.
    by exists x. }
  split_and!; try done.
  - apply Forall_forall. intros u Hin.
    destruct (Hfrom u Hin) as (x & _ & Hbig & ->). simpl. unfold Math_round.
    change 2000000 with (Qfloor (inject_Z 2000000)).
    apply Qfloor_resp_le.
    destruct (Unspent.amount x) as [a d]. unfold Qlt, Qle in *. simpl in *. lia.
  - intros x Hx Hbig. apply list_elem_of_fmap. exists x. split; [done|].
    apply list_elem_of_filter. split; [|done]. by apply Qlt_bool_true.
  - rewrite length_map. apply length_filter.
Qed.

Lemma X12_only_large_outputs_witness :
  ∃ utxos, getUTXOsBlockbook (Sample.net 0) "addr-aa-bb-cc" = Ok utxos
           ∧ Forall (λ u, 2000000 <= Utxo.satoshis u) utxos
           ∧ length utxos = 1%nat.
Proof.
  eexists. split; [vm_compute; reflexivity|].
  edestruct (X12_only_large_outputs (Sample.net 0) "addr-aa-bb-cc")
    as (response & _ & Hbig & _); [vm_compute; reflexivity|].
  split; [exact Hbig|reflexivity].
Defined.

(** X13. Funds held only in outputs of 0.02 BTC or less cannot be spent:
    when the node lists such outputs and nothing larger, [initiateTransaction]
    on an existing wallet throws the no-UTXO error and leaves the store
    unchanged. *)
Theorem X13_small_outputs_unspendable (L : Lib) (N : Net) (s : Store)
  (wid : string) (params : InitiateParams.t) (w : Wallet.t)
  (response : Response.t ScanResult.t) :
  truthy (InitiateParams.recipientAddress params) = true ->
  0 < InitiateParams.amount params ->
  (0 < default 1%Q (InitiateParams.feeRate params))%Q ->
  wallets s !! wid = Some w ->
  fetch_scantxoutset N (Wallet.address w) = Ok response ->
  Response.ok response = true ->
  ScanResult.success (Response.json response) = true ->
  ScanResult.unspents (Response.json response) ≠ [] ->
  Forall (λ x, (Unspent.amount x <= 2 # 100)%Q)
    (ScanResult.unspents (Response.json response)) ->
  initiateTransaction L N wid params s
  = (Throw "No confirmed UTXOs available. Cannot create a transaction.", s).
Proof.
  intros Hrc Hamt Hrate Hw Hfetch Hok Hsucc Hne Hsmall.
  assert (filter (λ u, Qlt_bool (2 # 100) (Unspent.amount u) = true)
            (ScanResult.unspents (Response.json response)) = []) as Hnone.
  { clear Hne. induction Hsmall as [|x l Hx _ IH]; [done|].
    rewrite filter_cons.
    destruct (decide (Qlt_bool (2 # 100) (Unspent.amount x) = true)) as [Hb|_];
      [|exact IH].
    apply Qlt_bool_true in Hb. by apply Qlt_not_le in Hb. }
  assert (getUTXOsBlockbook N (Wallet.address w) = Ok []) as Hutxos.
  { unfold getUTXOsBlockbook, getUTXOs. run_M. rewrite Hfetch, Hok. simpl.
    rewrite Hsucc. simpl.
    assert ((length (ScanResult.unspents (Response.json response)) =? 0)%nat
            = false) as ->.
    { by destruct (ScanResult.unspents (Response.json response)). }
    simpl. by rewrite Hnone. }
  unfold initiateTransaction. rewrite Hrc. simpl.
  destruct (Z.leb_spec (InitiateParams.amount params) 0) as [?|_]; [lia|].
  apply Qle_bool_false in Hrate. rewrite Hrate.
  run_M. by rewrite Hw, Hutxos.
Qed.

Lemma X13_small_outputs_unspendable_witness :
  initiateTransaction Sample.lib Sample2.net_dust Sample.wid (Sample.pay 1000)
    Sample.s_created
  = (Throw "No confirmed UTXOs available. Cannot create a transaction.",
     Sample.s_created).
Proof.
  eapply (X13_small_outputs_unspendable Sample.lib Sample2.net_dust Sample.s_created
            Sample.wid (Sample.pay 1000));
    [reflexivity|reflexivity|reflexivity|vm_compute; reflexivity|reflexivity
    |reflexivity|reflexivity|discriminate|].
  repeat constructor. simpl. discriminate.
Defined.

(** X14. A successful [initiateTransaction] conserves value: the outputs of
    the template it persists and the fee, which is the estimated virtual
    size times the rate in double precision rounded up, add up to exactly
    the satoshis of the funding inputs. It has one or two outputs, each of a
    positive amount: the first pays [amount] to the recipient, and a second,
    if any, returns the rest to the wallet's own address. *)
Theorem X14_value_conservation (L : Lib) (N : Net) (s s' : Store) (wid : string)
  (params : InitiateParams.t) (tx : Transaction.t) :
  initiateTransaction L N wid params s = (Ok tx, s') ->
  ∃ w utxos outs vSize,
    wallets s !! wid = Some w
    ∧ getUTXOsBlockbook N (Wallet.address w) = Ok utxos
    ∧ (estimateVirtualSize L N wid (InitiateParams.recipientAddress params) s).1
      = Ok vSize
    ∧ Transaction.psbt tx = Buffer_toString_hex (toBuffer L (template w utxos outs))
    ∧ Transaction.inputCount tx = Z.of_nat (length utxos)
    ∧ outputs_total outs + estimated_fee vSize params = total_satoshis utxos
    ∧ Forall (λ o, 0 < Output.satoshis o) outs
    ∧ head outs = Some (Output.mk (InitiateParams.recipientAddress params)
                          (InitiateParams.amount params))
    ∧ (tail outs = []
       ∨ ∃ change, tail outs = [Output.mk (Wallet.address w) change]).
Proof.
  intros Hrun. apply initiateTransaction_Ok in Hrun
    as (w & utxos & script & vSize & id & Hw & _ & Hamt & _ & Hutxos & _ & _ & Hv
        & Hfunds & _ & -> & _).
  exists w, utxos. eexists _, vSize. split_and!; try done; try reflexivity.
  - destruct (Z.ltb_spec 0 (total_satoshis utxos - InitiateParams.amount params
                            - estimated_fee vSize params));
      unfold outputs_total; simpl; lia.
  - destruct (Z.ltb_spec 0 (total_satoshis utxos - InitiateParams.amount params
                            - estimated_fee vSize params));
      repeat constructor; simpl; lia.
  - by destruct (0 <? _).
  - destruct (0 <? _); simpl; eauto.
Qed.

Lemma X14_value_conservation_witness :
  ∃ tx w utxos outs vSize,
    txs Sample.s_pending !! Sample.txid = Some tx
    ∧ getUTXOsBlockbook (Sample.net 0) (Wallet.address w) = Ok utxos
    ∧ Transaction.psbt tx
      = Buffer_toString_hex (toBuffer Sample.lib (template w utxos outs))
    ∧ outputs_total outs + estimated_fee vSize (Sample.pay 100000)
      = total_satoshis utxos.
Proof.
  assert (∃ tx s', initiateTransaction Sample.lib (Sample.net 0) Sample.wid
                     (Sample.pay 100000) Sample.s_created = (Ok tx, s')
                   ∧ txs Sample.s_pending !! Sample.txid = Some tx)
    as (tx & s' & Hrun & Htx) by (eexists _, _; split; vm_compute; reflexivity).
  destruct (X14_value_conservation Sample.lib (Sample.net 0) Sample.s_created s'
              Sample.wid (Sample.pay 100000) tx Hrun)
    as (w & utxos & outs & vSize & _ & Hutxos & _ & Hpsbt & _ & Hsum & _).
  exists tx, w, utxos, outs, vSize. split_and!; [exact Htx|exact Hutxos|exact Hpsbt|].
  exact Hsum.
Defined.

(** Every way [estimateVirtualSize] can succeed. *)
Lemma estimateVirtualSize_Ok (L : Lib) (N : Net) (s : Store) wid rcpt vSize :
  (estimateVirtualSize L N wid rcpt s).1 = Ok vSize ->
  ∃ w utxos ty name,
    wallets s !! wid = Some w
    ∧ getScriptType L rcpt = Ok ty ∧ scriptType_name ty = Ok name
    ∧ getUTXOsBlockbook N (Wallet.address w) = Ok utxos
    ∧ getByteCount L
        {[ "MULTISIG-P2WSH:" +:+ pretty (Wallet.m w) +:+ "-" +:+ pretty (Wallet.n w)
           := Z.of_nat (length utxos) ]}
        (if decide (name = "P2WSH") then {[ "P2WSH" := 2 ]}
         else <["P2WSH" := 1]> {[ name := 1 ]}) = Ok vSize.
Proof.
  unfold estimateVirtualSize. run_M.
  destruct (wallets s !! wid) as [w|] eqn:Hw; [|done].
  destruct (getScriptType L rcpt) as [ty|] eqn:Hty; simpl; [|done].
  destruct (scriptType_name ty) as [name|] eqn:Hname; simpl; [|done].
  destruct (getUTXOsBlockbook N _) as [utxos|] eqn:Hutxos; simpl; [|done].
  intros Hv. exists w, utxos, ty, name. split_and!; try done.
  destruct (decide (name = "P2WSH")) as [->|Hne].
  - rewrite lookup_singleton_eq in Hv. by rewrite insert_singleton_eq in Hv.
  - by rewrite lookup_singleton_ne in Hv.
Qed.

(** X15. The fee a successful [initiateTransaction] charges, the funding
    inputs less the outputs of the template, is the one computed from a size
    estimate for two outputs, at least one of them to a P2WSH script, and as
    many inputs of the wallet's own m-of-n kind as the record's
    [inputCount], whether or not the template gets a change output: when the
    inputs cover [amount] and that fee exactly, the template has the
    recipient output alone and the fee paid is still that of two outputs. *)
Theorem X15_fee_is_for_two_outputs (L : Lib) (N : Net) (s s' : Store) (wid : string)
  (params : InitiateParams.t) (tx : Transaction.t) :
  initiateTransaction L N wid params s = (Ok tx, s') ->
  ∃ w utxos outs vSize (outputs : gmap string Z),
    wallets s !! wid = Some w
    ∧ getUTXOsBlockbook N (Wallet.address w) = Ok utxos
    ∧ Transaction.inputCount tx = Z.of_nat (length utxos)
    ∧ getByteCount L
        {[ "MULTISIG-P2WSH:" +:+ pretty (Wallet.m w) +:+ "-" +:+ pretty (Wallet.n w)
           := Transaction.inputCount tx ]} outputs = Ok vSize
    ∧ map_fold (λ _ count acc, count + acc) 0 outputs = 2
    ∧ (∃ count, outputs !! "P2WSH" = Some count ∧ 1 <= count)
    ∧ Transaction.psbt tx = Buffer_toString_hex (toBuffer L (template w utxos outs))
    ∧ total_satoshis utxos - outputs_total outs = estimated_fee vSize params
    ∧ (Transaction.amount tx + estimated_fee vSize params = total_satoshis utxos ->
       outs = [Output.mk (Transaction.recipientAddress tx) (Transaction.amount tx)]).
Proof.
  intros Hrun. apply initiateTransaction_Ok in Hrun
    as (w & utxos & script & vSize & id & Hw & _ & Hamt & _ & Hutxos & _ & _ & Hv
        & Hfunds & _ & -> & _).
  apply estimateVirtualSize_Ok in Hv
    as (w' & utxos' & ty & name & Hw' & _ & _ & Hutxos' & Hcount).
  rewrite Hw in Hw'. injection Hw' as <-. rewrite Hutxos in Hutxos'.
  injection Hutxos' as <-.
  exists w, utxos. eexists _, vSize, _.
  split_and!; [done|done|done|exact Hcount| | |reflexivity| |].
  - destruct (decide (name = "P2WSH")) as [->|Hne].
    + by rewrite map_fold_singleton.
    + rewrite map_fold_insert_L; [|intros; lia|by rewrite lookup_singleton_ne].
      by rewrite map_fold_singleton.
  - destruct (decide (name = "P2WSH")) as [->|Hne].
    + exists 2. by rewrite lookup_singleton_eq.
    + exists 1. by rewrite lookup_insert_eq.
  - destruct (Z.ltb_spec 0 (total_satoshis utxos - InitiateParams.amount params
                            - estimated_fee vSize params));
      unfold outputs_total; simpl; lia.
  - simpl. intros Hexact.
    destruct (Z.ltb_spec 0 (total_satoshis utxos - InitiateParams.amount params
                            - estimated_fee vSize params)); [lia|done].
Qed.

Lemma X15_fee_is_for_two_outputs_witness :
  ∃ tx w utxos outs vSize (outputs : gmap string Z),
    (initiateTransaction Sample.lib (Sample.net 0) Sample.wid Sample2.pay_exact
       Sample.s_created).1 = Ok tx
    ∧ getByteCount Sample.lib
        {[ "MULTISIG-P2WSH:" +:+ pretty (Wallet.m w) +:+ "-" +:+ pretty (Wallet.n w)
           := Transaction.inputCount tx ]} outputs = Ok vSize
    ∧ map_fold (λ _ count acc, count + acc) 0 outputs = 2
    ∧ Transaction.psbt tx
      = Buffer_toString_hex (toBuffer Sample.lib (template w utxos outs))
    ∧ total_satoshis utxos - outputs_total outs
      = estimated_fee vSize Sample2.pay_exact.
Proof.
  assert (∃ tx s', initiateTransaction Sample.lib (Sample.net 0) Sample.wid
                     Sample2.pay_exact Sample.s_created = (Ok tx, s'))
    as (tx & s' & Hrun) by (eexists _, _; vm_compute; reflexivity).
  destruct (X15_fee_is_for_two_outputs Sample.lib (Sample.net 0) Sample.s_created s'
              Sample.wid Sample2.pay_exact tx Hrun)
    as (w & utxos & outs & vSize & outputs & _ & _ & _ & Hcount & Htwo & _
        & Hpsbt & Hfee & _).
  exists tx, w, utxos, outs, vSize, outputs.
  split_and!; [by rewrite Hrun|exact Hcount|exact Htwo|exact Hpsbt|exact Hfee].
Defined.

(** ** The listings *)

Lemma filter_fmap_none {A B} (P : B -> Prop) `{!∀ x, Decision (P x)} (f : A -> B)
  (l : list A) :
  (∀ x, ¬ P (f x)) -> filter P (f <$> l) = [].
Proof.
  intros Hf. induction l as [|x l IH]; [done|].
  rewrite fmap_cons, filter_cons. by destruct (decide (P (f x))) as [?%Hf|_].
Qed.

Lemma filter_fmap_all {A B} (P : B -> Prop) `{!∀ x, Decision (P x)} (f : A -> B)
  (l : list A) :
  (∀ x, P (f x)) -> filter P (f <$> l) = f <$> l.
Proof.
  intros Hf. induction l as [|x l IH]; [done|].
  rewrite fmap_cons, filter_cons. destruct (decide (P (f x))) as [_|[]]; [|done].
  by rewrite IH.
Qed.

(** The keys that start with "tx:" are those of the transaction records. *)
Lemma dbGetKeysWithPrefix_tx (s : Store) :
  dbGetKeysWithPrefix "tx:" s
  = (Ok ((λ kv, ("tx:" +:+ kv.1, TxRow kv.2)) <$> map_to_list (txs s)), s).
Proof.
  unfold dbGetKeysWithPrefix, rows. do 2 f_equal. rewrite !filter_app.
  rewrite filter_fmap_none by (intros x; simpl; discriminate).
  rewrite filter_fmap_all by (intros [[|c k] t]; reflexivity).
  rewrite filter_fmap_none by (intros x; simpl; discriminate).
  by rewrite app_nil_r.
Qed.

(** The transaction records in the order the table lists them. *)
Lemma listed_transactions (s : Store) :
  omap (λ record : string * Row, as_Transaction record.2)
    ((λ kv, ("tx:" +:+ kv.1, TxRow kv.2)) <$> map_to_list (txs s))
  = (map_to_list (txs s)).*2.
Proof.
  induction (map_to_list (txs s)) as [|kv l IH]; [done|]. simpl. f_equal. exact IH.
Qed.

Lemma elem_of_listed (s : Store) (t : Transaction.t) :
  t ∈ (map_to_list (txs s)).*2 ↔ ∃ id, txs s !! id = Some t.
Proof.
  rewrite list_elem_of_fmap. split.
  - intros [[id t'] [-> Hin]]. exists id. by apply elem_of_map_to_list.
  - intros [id Hid]. exists (id, t). split; [done|]. by apply elem_of_map_to_list.
Qed.

(** The result of [getPendingTransactions] on a stored wallet. *)
Lemma getPendingTransactions_stored (s : Store) (walletId : string) (w : Wallet.t) :
  wallets s !! walletId = Some w ->
  getPendingTransactions walletId s
  = (Ok (PendingList.mk walletId (Wallet.address w)
           (map pending_item
              (filter (λ tx, Transaction.walletId tx = walletId
                             ∧ Transaction.status tx = pending)
                 (map_to_list (txs s)).*2))), s).
Proof.
  intros Hw. unfold getPendingTransactions, mbind, M_bind, kvStore_get_wallet.
  rewrite Hw. by rewrite dbGetKeysWithPrefix_tx, listed_transactions.
Qed.

Lemma elem_of_pending (s : Store) (walletId : string) (i : PendingItem.t) :
  i ∈ map pending_item
        (filter (λ tx, Transaction.walletId tx = walletId
                       ∧ Transaction.status tx = pending)
           (map_to_list (txs s)).*2)
  ↔ ∃ id t, txs s !! id = Some t
            ∧ Transaction.walletId t = walletId
            ∧ Transaction.status t = pending
            ∧ i = pending_item t.
Proof.
  rewrite list_elem_of_fmap. split.
  - intros (t & -> & Ht). apply list_elem_of_filter in Ht as [[? ?] Ht].
    apply elem_of_listed in Ht as [id Hid]. by exists id, t.
  - intros (id & t & Hid & ? & ? & ->). exists t. split; [done|].
    apply list_elem_of_filter. split; [done|]. apply elem_of_listed. eauto.
Qed.

(** X16. [getPendingTransactions] throws "Wallet not found" for an id that
    is not stored; for a stored wallet it returns the wallet's address and
    exactly the stored records of that wallet whose status is pending, each
    with its own id, amount, recipient and signature count: an entry of
    another wallet, or one that is signed, broadcast, confirmed or
    cancelled, is never listed. It never writes. *)
Theorem X16_pending_listing (s : Store) (walletId : string) :
  match wallets s !! walletId with
  | None =>
      getPendingTransactions walletId s
      = (Throw ("Wallet not found: " +:+ walletId), s)
  | Some w =>
      ∃ r, getPendingTransactions walletId s = (Ok r, s)
           ∧ PendingList.walletId r = walletId
           ∧ PendingList.address r = Wallet.address w
           ∧ Forall (λ i, PendingItem.status i = pending) (PendingList.transactions r)
           ∧ ∀ i, i ∈ PendingList.transactions r
                  ↔ ∃ id t, txs s !! id = Some t
                            ∧ Transaction.walletId t = walletId
                            ∧ Transaction.status t = pending
                            ∧ i = pending_item t
  end.
Proof.
  destruct (wallets s !! walletId) as [w|] eqn:Hw.
  - eexists. split; [by apply getPendingTransactions_stored|].
    cbn [PendingList.walletId PendingList.address PendingList.transactions].
    split_and!; try done; [|apply elem_of_pending].
    apply Forall_forall. intros i (id & t & _ & _ & Hst & ->)%elem_of_pending.
    exact Hst.
  - unfold getPendingTransactions, mbind, M_bind, kvStore_get_wallet, throw.
    by rewrite Hw.
Qed.

#[local] Instance newer_first_total getTime : Total (newer_first getTime).
Proof. intros a b. unfold newer_first. lia. Qed.

#[local] Instance newer_first_trans getTime : Transitive (newer_first getTime).
Proof. intros a b c. unfold newer_first. lia. Qed.

(** The records of a wallet that are past the pending status, newest first:
    the array [getTransactionHistory] cuts its page from. *)
Lemma history_sorted (getTime : string -> Z) (walletId : string) (s : Store) :
  let all := merge_sort (newer_first getTime)
               (filter (λ tx, Transaction.walletId tx = walletId
                              ∧ Transaction.status tx ≠ pending)
                  (map_to_list (txs s)).*2) in
  StronglySorted (newer_first getTime) all
  ∧ ∀ t, t ∈ all ↔ ∃ id, txs s !! id = Some t
                         ∧ Transaction.walletId t = walletId
                         ∧ Transaction.status t ≠ pending.
Proof.
  intros all. split; [apply StronglySorted_merge_sort; apply _|].
  intros t. unfold all. rewrite merge_sort_Permutation, list_elem_of_filter, elem_of_listed.
  split.
  - intros [[? ?] [id ?]]. by exists id.
  - intros (id & ? & ? & ?). split; [done|]. by exists id.
Qed.

(** Pages counted from 1 are consecutive segments of ten. *)
Lemma Array_slice_page {A} (page : Z) (l : list A) :
  1 <= page ->
  Array_slice ((page - 1) * 10) (page * 10) l
  = take 10 (drop (Z.to_nat ((page - 1) * 10)) l).
Proof.
  intros Hpage. unfold Array_slice, slice_index.
  destruct (Z.ltb_spec ((page - 1) * 10) 0) as [?|_]; [lia|].
  destruct (Z.ltb_spec (page * 10) 0) as [?|_]; [lia|].
  destruct (Z_le_gt_dec (Z.of_nat (length l)) ((page - 1) * 10)) as [Hout|Hin].
  - rewrite (Z.min_r ((page - 1) * 10)) by lia. rewrite (Z.min_r (page * 10)) by lia.
    rewrite !drop_ge by lia. by rewrite !take_nil.
  - rewrite (Z.min_l ((page - 1) * 10)) by lia.
    destruct (Z_le_gt_dec (page * 10) (Z.of_nat (length l))) as [Hfull|Hshort].
    + rewrite (Z.min_l (page * 10)) by lia. f_equal. lia.
    + rewrite (Z.min_r (page * 10)) by lia.
      rewrite !take_ge; [done| |]; rewrite length_drop; lia.
Qed.

Lemma Array_slice_page_0 {A} (l : list A) : Array_slice ((0 - 1) * 10) (0 * 10) l = [].
Proof.
  unfold Array_slice, slice_index.
  change ((0 - 1) * 10 <? 0) with true. change (0 * 10 <? 0) with false. cbv iota.
  set (len := Z.of_nat (length l)).
  replace (Z.to_nat (Z.min (0 * 10) len - Z.max (len + (0 - 1) * 10) 0))
    with 0%nat by lia.
  apply take_0.
Qed.

Lemma Array_slice_sublist {A} (start end_ : Z) (l : list A) :
  Array_slice start end_ l `sublist_of` l.
Proof.
  unfold Array_slice. etrans; [apply sublist_take|apply sublist_drop].
Qed.

Lemma Array_slice_length {A} (page : Z) (l : list A) :
  (length (Array_slice ((page - 1) * 10) (page * 10) l) <= 10)%nat.
Proof.
  unfold Array_slice, slice_index. rewrite length_take.
  destruct (Z.ltb_spec ((page - 1) * 10) 0), (Z.ltb_spec (page * 10) 0); lia.
Qed.

(** The result of [getTransactionHistory] on a stored wallet. *)
Lemma getTransactionHistory_stored (getTime : string -> Z) (s : Store)
  (walletId : string) (w : Wallet.t) (page : option Z) :
  wallets s !! walletId = Some w ->
  let shown :=
    Array_slice ((default 1 page - 1) * 10) (default 1 page * 10)
      (merge_sort (newer_first getTime)
         (filter (λ tx, Transaction.walletId tx = walletId
                        ∧ Transaction.status tx ≠ pending)
            (map_to_list (txs s)).*2)) in
  getTransactionHistory getTime walletId page s
  = (Ok (HistoryPage.mk walletId (Wallet.address w) (map history_item shown)
           (Pagination.mk (default 1 page) 10 (Z.of_nat (length shown)))), s).
Proof.
  intros Hw. unfold getTransactionHistory, mbind, M_bind, kvStore_get_wallet.
  rewrite Hw. by rewrite dbGetKeysWithPrefix_tx, listed_transactions.
Qed.

(** X17. On a stored wallet, [getTransactionHistory] orders the wallet's
    records that are past the pending status from the newest [initiatedTime]
    to the oldest and returns, for a page number counted from 1, the ten
    entries from position [10 * (page - 1)] on (fewer or none at the end);
    the page defaults to 1 and page 0 is empty. [totalCount] is the number of
    entries on the returned page, not the size of the history. Nothing is
    written. *)
Theorem X17_history_pages (getTime : string -> Z) (s : Store) (walletId : string)
  (w : Wallet.t) :
  wallets s !! walletId = Some w ->
  ∃ all : list Transaction.t,
    StronglySorted (newer_first getTime) all
    ∧ (∀ t, t ∈ all ↔ ∃ id, txs s !! id = Some t
                            ∧ Transaction.walletId t = walletId
                            ∧ Transaction.status t ≠ pending)
    ∧ (∀ page, 1 <= page ->
         let shown := take 10 (drop (Z.to_nat (10 * (page - 1))) all) in
         getTransactionHistory getTime walletId (Some page) s
         = (Ok (HistoryPage.mk walletId (Wallet.address w) (map history_item shown)
                  (Pagination.mk page 10 (Z.of_nat (length shown)))), s))
    ∧ getTransactionHistory getTime walletId None s
      = getTransactionHistory getTime walletId (Some 1) s
    ∧ getTransactionHistory getTime walletId (Some 0) s
      = (Ok (HistoryPage.mk walletId (Wallet.address w) [] (Pagination.mk 0 10 0)), s).
Proof.
  intros Hw. eexists. split; [apply history_sorted|]. split; [apply history_sorted|].
  split_and!.
  - intros page Hpage shown. rewrite (getTransactionHistory_stored _ _ _ w) by done.
    simpl default. rewrite Array_slice_page by done.
    by replace ((page - 1) * 10) with (10 * (page - 1)) by lia.
  - by rewrite !(getTransactionHistory_stored _ _ _ w).
  - rewrite (getTransactionHistory_stored _ _ _ w) by done.
    simpl default. by rewrite Array_slice_page_0.
Qed.

Lemma X17_history_pages_witness :
  ∃ r, getTransactionHistory Sample2.getTime Sample.wid (Some 1) Sample.s_confirmed
       = (Ok r, Sample.s_confirmed)
       ∧ HistoryPage.walletId r = Sample.wid
       ∧ Pagination.totalCount (HistoryPage.pagination r)
         = Z.of_nat (length (HistoryPage.transactions r)).
Proof.
  assert (∃ w, wallets Sample.s_confirmed !! Sample.wid = Some w) as [w Hw]
    by (eexists; vm_compute; reflexivity).
  destruct (X17_history_pages Sample2.getTime Sample.s_confirmed Sample.wid w Hw)
    as (all & _ & _ & Hpage & _).
  eexists. split; [apply Hpage; lia|]. split; [reflexivity|].
  cbn [HistoryPage.pagination HistoryPage.transactions Pagination.totalCount].
  by rewrite length_map.
Defined.

(** X18. The two listings split a wallet's records between them. A page of
    [getTransactionHistory], whatever its number, has at most ten entries,
    each the summary of a stored record of that wallet that is not pending,
    and [getTransactionHistory] never writes; every stored record of the
    wallet that is not pending is on some page counted from 1, and every
    pending one is in the answer of [getPendingTransactions]. *)
Theorem X18_listings_cover (getTime : string -> Z) (s : Store) (walletId : string)
  (w : Wallet.t) :
  wallets s !! walletId = Some w ->
  (∀ page, ∃ r,
     getTransactionHistory getTime walletId page s = (Ok r, s)
     ∧ (length (HistoryPage.transactions r) <= 10)%nat
     ∧ ∀ i, i ∈ HistoryPage.transactions r ->
            HistoryItem.status i ≠ pending
            ∧ ∃ id t, txs s !! id = Some t ∧ Transaction.walletId t = walletId
                      ∧ i = history_item t)
  ∧ (∀ id t, txs s !! id = Some t -> Transaction.walletId t = walletId ->
       if decide (Transaction.status t = pending)
       then ∃ r, getPendingTransactions walletId s = (Ok r, s)
                 ∧ pending_item t ∈ PendingList.transactions r
       else ∃ page r, 1 <= page
                      ∧ getTransactionHistory getTime walletId (Some page) s = (Ok r, s)
                      ∧ history_item t ∈ HistoryPage.transactions r).
Proof.
  intros Hw. split.
  - intros page. eexists. split; [by apply getTransactionHistory_stored|].
    cbn [HistoryPage.transactions]. split.
    + rewrite length_map. apply Array_slice_length.
    + intros i. rewrite list_elem_of_fmap. intros (t & -> & Ht).
      eapply elem_of_sublist in Ht; [|apply Array_slice_sublist].
      apply history_sorted in Ht as (id & Hid & Hwal & Hst). split; [done|].
      by exists id, t.
  - intros id t Hid Hwal. destruct (decide (Transaction.status t = pending)) as [Hst|Hst].
    + eexists. split; [by apply getPendingTransactions_stored|].
      cbn [PendingList.transactions]. apply elem_of_pending. by exists id, t.
    + destruct (history_sorted getTime walletId s) as [_ Hall].
      assert (∃ id, txs s !! id = Some t ∧ Transaction.walletId t = walletId
                    ∧ Transaction.status t ≠ pending) as Hin by eauto.
      apply Hall, list_elem_of_lookup_1 in Hin as [k Hk].
      assert (∃ page, 1 <= page
                ∧ (Z.to_nat ((page - 1) * 10) + k mod 10)%nat = k) as (page & Hpage & Hpos).
      { exists (Z.of_nat (k / 10) + 1). pose proof (Nat.div_mod_eq k 10). lia. }
      exists page. eexists. split; [done|].
      split; [by apply getTransactionHistory_stored|].
      cbn [HistoryPage.transactions]. simpl default.
      rewrite Array_slice_page by done. apply list_elem_of_fmap. exists t.
      split; [done|]. apply elem_of_take. exists (k mod 10)%nat.
      split; [|apply Nat.mod_upper_bound; lia].
      by rewrite lookup_drop, Hpos.
Qed.

Lemma X18_listings_cover_witness :
  ∃ t page r,
    txs Sample.s_confirmed !! Sample.txid = Some t
    ∧ 1 <= page
    ∧ getTransactionHistory Sample2.getTime Sample.wid (Some page) Sample.s_confirmed
      = (Ok r, Sample.s_confirmed)
    ∧ history_item t ∈ HistoryPage.transactions r.
Proof.
  assert (∃ w, wallets Sample.s_confirmed !! Sample.wid = Some w) as [w Hw]
    by (eexists; vm_compute; reflexivity).
  assert (∃ t, txs Sample.s_confirmed !! Sample.txid = Some t
               ∧ Transaction.walletId t = Sample.wid
               ∧ Transaction.status t = finished) as (t & Ht & Hwal & Hst)
    by (eexists; split_and!; vm_compute; reflexivity).
  destruct (X18_listings_cover Sample2.getTime Sample.s_confirmed Sample.wid w Hw)
    as [_ Hcover].
  specialize (Hcover Sample.txid t Ht Hwal).
  destruct (decide (Transaction.status t = pending)) as [E|_];
    [rewrite Hst in E; discriminate|].
  destruct Hcover as (page & r & Hpage & Hr & Hin).
  exists t, page, r. split_and!; [exact Ht|exact Hpage|exact Hr|exact Hin].
Defined.

(** ** Fee recommendations *)

Lemma round_half_even_bounds (x : Q) :
  (x - (1 # 2) <= inject_Z (round_half_even x) <= x + (1 # 2))%Q.
Proof.
  unfold round_half_even.
  pose proof (Qfloor_le x) as Hlo. pose proof (Qlt_floor x) as Hhi.
  rewrite inject_Z_plus in Hhi. change (inject_Z 1) with 1%Q in Hhi.
  destruct (x - inject_Z (Qfloor x) ?= 1 # 2)%Q eqn:E.
  - apply Qeq_alt in E. destruct (Z.even (Qfloor x)); rewrite ?inject_Z_plus;
      change (inject_Z 1) with 1%Q; lra.
  - apply Qlt_alt in E. lra.
  - apply Qgt_alt in E. rewrite inject_Z_plus. change (inject_Z 1) with 1%Q. lra.
Qed.

Lemma round_half_even_sign (x : Q) :
  ((0 <= x)%Q -> 0 <= round_half_even x) ∧ ((x <= 0)%Q -> round_half_even x <= 0).
Proof.
  pose proof (round_half_even_bounds x) as [Hlo Hhi]. split; intros Hx.
  - assert (-1 < round_half_even x); [|lia]. rewrite Zlt_Qlt.
    change (inject_Z (-1)) with (-1)%Q. lra.
  - assert (round_half_even x < 1); [|lia]. rewrite Zlt_Qlt.
    change (inject_Z 1) with 1%Q. lra.
Qed.

Lemma pow2_pos (e : Z) : (0 < 2 ^ e)%Q.
Proof. by apply Qpower_0_lt. Qed.

Lemma pow2_le (a b : Z) : a <= b -> (2 ^ a <= 2 ^ b)%Q.
Proof. intros Hab. apply Qpower_le_compat_l; [done|]. lra. Qed.

Lemma inject_Z_le (a b : Z) : a <= b -> (inject_Z a <= inject_Z b)%Q.
Proof. intros H. by rewrite <- Zle_Qle. Qed.

Lemma inject_Z_lt (a b : Z) : a < b -> (inject_Z a < inject_Z b)%Q.
Proof. intros H. by rewrite <- Zlt_Qlt. Qed.

Lemma pow2_inject (k : Z) : 0 <= k -> (2 ^ k == inject_Z (2 ^ k))%Q.
Proof. intros Hk. symmetry. exact (Zpower_Qpower 2 k Hk). Qed.

(** [Qlog2 x] is not above the binary logarithm of [|x|]. *)
Lemma Qlog2_le (x : Q) : ¬ (x == 0)%Q -> (2 ^ Qlog2 x <= Qabs x)%Q.
Proof.
  intros Hx. unfold Qlog2.
  set (n := Z.abs (Qnum x)). set (d := Z.pos (Qden x)).
  destruct (Qlt_bool (Qabs x) (2 ^ (Z.log2 n - Z.log2 d))) eqn:E.
  - assert (0 < n) as Hn.
    { unfold n. destruct x as [[|a|a] b]; simpl; try lia. by destruct Hx. }
    assert (Qabs x == inject_Z n / inject_Z d)%Q as ->.
    { unfold n, d. destruct x as [a b]. unfold Qabs. simpl.
      rewrite (Qmake_Qdiv (Z.abs a) b). reflexivity. }
    pose proof (Z.log2_spec n Hn) as [Hlo _].
    pose proof (Z.log2_spec d ltac:(done)) as [_ Hhi].
    replace (Z.log2 n - Z.log2 d - 1) with (Z.log2 n + - Z.succ (Z.log2 d)) by lia.
    rewrite Qpower_plus by done. rewrite Qpower_opp.
    rewrite !pow2_inject by (pose proof (Z.log2_nonneg n);
                             pose proof (Z.log2_nonneg d); lia).
    unfold Qdiv. apply Qmult_le_compat_nonneg.
    + split; [apply (inject_Z_le 0); lia|]. by apply inject_Z_le.
    + split.
      * apply Qinv_le_0_compat. apply (inject_Z_le 0). lia.
      * apply Qle_shift_inv_l; [by apply (inject_Z_lt 0)|].
        rewrite Qmult_comm.
        apply (Qle_shift_div_r (inject_Z d) _ 1); [apply (inject_Z_lt 0); lia|].
        rewrite Qmult_1_l. apply inject_Z_le. lia.
  - unfold Qlt_bool in E. apply negb_false_iff, Qle_bool_iff in E. done.
Qed.

(** The exponent of the last place is one of two. *)
Lemma binary64_exponent_cases (x : Q) :
  -1074 <= binary64_exponent x
  ∧ (binary64_exponent x = -1074 ∨ binary64_exponent x = Qlog2 x - 52).
Proof. unfold binary64_exponent. lia. Qed.

Lemma pow2_split (a b : Z) : (2 ^ (a + b) == 2 ^ a * 2 ^ b)%Q.
Proof. by apply Qpower_plus. Qed.

(** A number at least [2^(j - 1074)] has at least [j + 1] significant
    binary digits left of the last place, for [j] up to 52. *)
Lemma binary64_scaled (x : Q) (j : Z) :
  0 <= j <= 52 -> (2 ^ (j - 1074) <= x)%Q ->
  (2 ^ j <= x / 2 ^ binary64_exponent x)%Q.
Proof.
  intros Hj Hx.
  pose proof (pow2_pos (j - 1074)) as Hpos.
  pose proof (pow2_pos (binary64_exponent x)) as He.
  apply Qle_shift_div_l; [done|].
  destruct (binary64_exponent_cases x) as [_ [->| ->]].
  - rewrite <- pow2_split. by replace (j + -1074) with (j - 1074) by lia.
  - assert (¬ (x == 0)%Q) as Hne by lra.
    pose proof (Qlog2_le x Hne) as Hlog. rewrite Qabs_pos in Hlog by lra.
    apply Qle_trans with (2 ^ Qlog2 x)%Q; [|done].
    rewrite <- pow2_split. apply pow2_le. lia.
Qed.

Lemma binary64_unfold (x : Q) :
  (binary64 x
   == inject_Z (round_half_even (x / 2 ^ binary64_exponent x))
      * 2 ^ binary64_exponent x)%Q.
Proof. reflexivity. Qed.

Lemma binary64_scale_back (x : Q) :
  (x / 2 ^ binary64_exponent x * 2 ^ binary64_exponent x == x)%Q.
Proof.
  pose proof (pow2_pos (binary64_exponent x)). field. lra.
Qed.

(** Rounding keeps the sign. *)
Lemma binary64_sign (x : Q) :
  ((0 <= x)%Q -> (0 <= binary64 x)%Q) ∧ ((x <= 0)%Q -> (binary64 x <= 0)%Q).
Proof.
  pose proof (pow2_pos (binary64_exponent x)) as He.
  set (t := (x / 2 ^ binary64_exponent x)%Q).
  pose proof (round_half_even_sign t) as [Hpos Hneg].
  rewrite binary64_unfold. fold t. split; intros Hx.
  - apply Qmult_le_0_compat; [|lra]. apply (inject_Z_le 0), Hpos.
    unfold t. apply Qle_shift_div_l; [done|]. lra.
  - assert (t <= 0)%Q as Ht.
    { unfold t. apply Qle_shift_div_r; [done|]. lra. }
    apply Hneg, inject_Z_le in Ht. change (inject_Z 0) with 0%Q in Ht.
    apply Qle_trans with (0 * 2 ^ binary64_exponent x)%Q; [|lra].
    apply Qmult_le_compat_r; lra.
Qed.

(** A positive number is at least the least subnormal. *)
Lemma binary64_positive (x : Q) :
  (0 < binary64 x)%Q -> (2 ^ (-1074) <= binary64 x)%Q.
Proof.
  pose proof (pow2_pos (binary64_exponent x)) as He.
  destruct (binary64_exponent_cases x) as [Hge _].
  rewrite binary64_unfold.
  set (m := round_half_even (x / 2 ^ binary64_exponent x)). intros Hpos.
  assert (1 <= m) as Hm.
  { destruct (Z_le_gt_dec m 0) as [Hle|?]; [|lia].
    apply inject_Z_le in Hle. change (inject_Z 0) with 0%Q in Hle.
    assert (inject_Z m * 2 ^ binary64_exponent x <= 0 * 2 ^ binary64_exponent x)%Q
      by (apply Qmult_le_compat_r; lra). lra. }
  apply inject_Z_le in Hm. change (inject_Z 1) with 1%Q in Hm.
  apply Qle_trans with (1 * 2 ^ binary64_exponent x)%Q.
  - rewrite Qmult_1_l. by apply pow2_le.
  - apply Qmult_le_compat_r; lra.
Qed.

(** Rounding loses less than half of a number's value. *)
Lemma binary64_lower (x : Q) :
  (2 ^ (-1074) <= x)%Q -> ((1 # 2) * x <= binary64 x)%Q.
Proof.
  intros Hx. pose proof (pow2_pos (binary64_exponent x)) as He.
  pose proof (binary64_scaled x 0 ltac:(lia) Hx) as Ht.
  change (2 ^ 0)%Q with 1%Q in Ht.
  pose proof (round_half_even_bounds (x / 2 ^ binary64_exponent x)) as [Hlo _].
  pose proof (binary64_scale_back x) as Hback.
  rewrite binary64_unfold.
  set (t := (x / 2 ^ binary64_exponent x)%Q) in *.
  set (E := (2 ^ binary64_exponent x)%Q) in *.
  apply Qle_trans with ((1 # 2) * t * E)%Q.
  - assert ((1 # 2) * t * E == (1 # 2) * (t * E))%Q as -> by ring.
    rewrite Hback. apply Qle_refl.
  - apply Qmult_le_compat_r; lra.
Qed.

(** In the normal range rounding adds at most one part in [2^53]. *)
Lemma binary64_upper (x : Q) :
  (2 ^ (-1022) <= x)%Q ->
  (binary64 x <= x * (9007199254740993 # 9007199254740992))%Q.
Proof.
  intros Hx. pose proof (pow2_pos (binary64_exponent x)) as He.
  pose proof (binary64_scaled x 52 ltac:(lia) Hx) as Ht.
  assert (2 ^ 52 == 4503599627370496)%Q as E52 by reflexivity. rewrite E52 in Ht.
  pose proof (round_half_even_bounds (x / 2 ^ binary64_exponent x)) as [_ Hhi].
  pose proof (binary64_scale_back x) as Hback.
  rewrite binary64_unfold.
  set (t := (x / 2 ^ binary64_exponent x)%Q) in *.
  set (E := (2 ^ binary64_exponent x)%Q) in *.
  apply Qle_trans with (t * (9007199254740993 # 9007199254740992) * E)%Q.
  - apply Qmult_le_compat_r; lra.
  - assert (t * (9007199254740993 # 9007199254740992) * E
            == t * E * (9007199254740993 # 9007199254740992))%Q as -> by ring.
    rewrite Hback. apply Qle_refl.
Qed.

Lemma Math_ceil_sign (x : Q) :
  ((0 < x)%Q -> 1 <= Math_ceil x) ∧ ((x <= 0)%Q -> Math_ceil x <= 0).
Proof.
  unfold Math_ceil. split.
  - intros Hx. pose proof (Qle_ceiling x) as Hc.
    assert (0 < inject_Z (Qceiling x))%Q as Hpos by (eapply Qlt_le_trans; eauto).
    rewrite <- (Zlt_Qlt 0) in Hpos. lia.
  - intros Hx. apply Qceiling_resp_le in Hx. exact Hx.
Qed.

(** The two constants of [getFeeRateRecommendations] and the factor 0.8 as
    numbers. *)
Lemma fee_constants :
  (binary64 (inject_Z 100000000) == 100000000)%Q
  ∧ (binary64 (inject_Z 1000) == 1000)%Q
  ∧ (binary64 (8 # 10) == 3602879701896397 # 4503599627370496)%Q.
Proof. split_and!; vm_compute; reflexivity. Qed.

(** The order of the three rates, from the rounding bounds. *)
Lemma fee_rates_order (feerate : Q) :
  let normal :=
    Math_ceil (Number_div (Number_mul feerate (inject_Z 100000000)) (inject_Z 1000)) in
  let economical := Z.max 1 (Qfloor (Number_mul (inject_Z normal) (8 # 10))) in
  ((0 < binary64 feerate)%Q -> 1 <= economical <= normal)
  ∧ ((binary64 feerate <= 0)%Q -> normal <= 0 ∧ economical = 1).
Proof.
  intros normal economical.
  destruct fee_constants as (HB & HD & HC).
  pose proof (pow2_pos (-1074)) as HP.
  assert (2 ^ (-1074) <= 2 ^ (-1022))%Q as Hsub by (by apply pow2_le).
  assert (2 ^ (-1022) <= 2 ^ (-2))%Q as Hsmall by (by apply pow2_le).
  assert (2 ^ (-2) == 1 # 4)%Q as E4 by reflexivity. rewrite E4 in Hsmall.
  clear E4.
  pose proof (binary64_lower) as Hlower. pose proof (binary64_upper) as Hupper.
  pose proof (binary64_positive) as Hpositive.
  set (P := (2 ^ (-1074))%Q) in *. set (P' := (2 ^ (-1022))%Q) in *.
  clearbody P P'.
  set (r := binary64 feerate) in *.
  set (u := (r * binary64 (inject_Z 100000000))%Q).
  assert (u == r * 100000000)%Q as Hu by (unfold u; by rewrite HB).
  set (a := binary64 u).
  set (w := (binary64 a / binary64 (inject_Z 1000))%Q).
  assert (w == binary64 a / 1000)%Q as Hw by (unfold w; by rewrite HD).
  assert (normal = Math_ceil (binary64 w)) as Hnormal by reflexivity.
  assert ((0 < r)%Q -> 1 <= normal) as Hpos.
  { intros Hr. apply Hpositive in Hr. change (binary64 feerate) with r in Hr.
    assert (P <= u)%Q as H1 by lra.
    pose proof (Hlower u H1) as H2. fold a in H2.
    assert (P <= a)%Q as H3 by lra.
    pose proof (Hlower a H3) as H4.
    assert (P <= w)%Q as H5.
    { rewrite Hw. apply Qle_shift_div_l; lra. }
    pose proof (Hlower w H5) as H6.
    rewrite Hnormal. apply Math_ceil_sign. lra. }
  assert ((r <= 0)%Q -> normal <= 0) as Hneg.
  { intros Hr. assert (u <= 0)%Q as H1 by lra.
    apply binary64_sign in H1. fold a in H1. apply binary64_sign in H1.
    assert (w <= 0)%Q as H2.
    { rewrite Hw. apply Qle_shift_div_r; lra. }
    apply binary64_sign in H2. rewrite Hnormal. by apply Math_ceil_sign. }
  set (y := Number_mul (inject_Z normal) (8 # 10)) in *.
  split.
  - intros Hr. specialize (Hpos Hr). split; [unfold economical; lia|].
    assert (Qfloor y <= normal); [|unfold economical; lia].
    pose proof (inject_Z_le 1 normal Hpos) as Hk. change (inject_Z 1) with 1%Q in Hk.
    set (k := inject_Z normal) in *.
    pose proof (Hlower k ltac:(lra)) as Hlo.
    pose proof (Hupper k ltac:(lra)) as Hhi.
    set (p := (binary64 k * binary64 (8 # 10))%Q).
    assert (p == binary64 k * (3602879701896397 # 4503599627370496))%Q as Hp
      by (unfold p; by rewrite HC).
    pose proof (Hupper p ltac:(lra)) as Hy.
    change (binary64 p) with y in Hy.
    assert (y <= k)%Q as Hyk by lra.
    apply Qfloor_resp_le in Hyk. unfold k in Hyk. by rewrite Qfloor_Z in Hyk.
  - intros Hr. specialize (Hneg Hr). split; [done|].
    assert (Qfloor y <= 0); [|unfold economical; lia].
    assert (inject_Z normal <= 0)%Q as Hk by (by apply (inject_Z_le normal 0)).
    apply binary64_sign in Hk.
    assert (0 <= binary64 (8 # 10))%Q as Hc by (rewrite HC; done).
    assert (binary64 (inject_Z normal) * binary64 (8 # 10) <= 0)%Q as Hp.
    { apply Qle_trans with (0 * binary64 (8 # 10))%Q; [|lra].
      by apply Qmult_le_compat_r. }
    apply binary64_sign in Hp. change (binary64 _) with y in Hp.
    apply Qfloor_resp_le in Hp. exact Hp.
Qed.

(** X19. When the node answers a fee rate, [getFeeRateRecommendations]
    returns whole numbers of sat/vbyte, stamped with the time of the call:
    [normal] is the rate times 100,000,000 divided by 1,000, both in double
    precision, rounded up; [fastest] is twice [normal]; [economical] is [normal] times 0.8 in
    double precision rounded down, but never less than 1. For a positive
    rate they are ordered [1 <= economical <= normal < fastest]; for a rate
    that is not positive [normal] and [fastest] are not positive either
    while [economical] is 1. A failure of the node's call is passed on. *)
Theorem X19_fee_recommendations (estimatesmartfee : Z -> result Q) (N : Net) :
  match estimatesmartfee 6 with
  | Throw e => getFeeRateRecommendations estimatesmartfee N = Throw e
  | Ok feerate =>
      ∃ r, getFeeRateRecommendations estimatesmartfee N = Ok r
           ∧ FeeRates.unit r = "sat/vbyte" ∧ FeeRates.lastUpdated r = now N
           ∧ FeeRates.normal r
             = Math_ceil (Number_div (Number_mul feerate 100000000) 1000)
           ∧ FeeRates.fastest r = 2 * FeeRates.normal r
           ∧ FeeRates.economical r
             = Z.max 1 (Qfloor (Number_mul (inject_Z (FeeRates.normal r)) (8 # 10)))
           ∧ ((0 < binary64 feerate)%Q ->
              1 <= FeeRates.economical r <= FeeRates.normal r
              ∧ FeeRates.normal r < FeeRates.fastest r)
           ∧ ((binary64 feerate <= 0)%Q ->
              FeeRates.fastest r <= FeeRates.normal r <= 0
              ∧ FeeRates.economical r = 1)
  end.
Proof.
  unfold getFeeRateRecommendations, mbind, result_bind, mret, result_ret.
  destruct (estimatesmartfee 6) as [feerate|e]; [|done]. cbv beta iota zeta.
  eexists. split; [reflexivity|]. cbn [FeeRates.unit FeeRates.lastUpdated
    FeeRates.normal FeeRates.fastest FeeRates.economical].
  pose proof (fee_rates_order feerate) as [Hpos Hneg]. cbv zeta in Hpos, Hneg.
  split_and!; try done; try lia.
  - intros Hr. specialize (Hpos Hr). lia.
  - intros Hr. specialize (Hneg Hr). lia.
Qed.

(** ** Wallet ids and the order of the keys *)

Lemma dash_free_app_dash (a r : string) : dash_free (a +:+ "-" +:+ r) = false.
Proof.
  induction a as [|c a IH]; [done|]. simpl. rewrite IH. apply andb_false_r.
Qed.

Lemma dash_split (a a' r r' : string) :
  dash_free a = true -> dash_free a' = true ->
  a +:+ "-" +:+ r = a' +:+ "-" +:+ r' -> a = a' ∧ r = r'.
Proof.
  revert a'. induction a as [|c a IH]; intros [|c' a'] Ha Ha' E; simpl in *.
  - by simplify_eq/=.
  - by simplify_eq/=.
  - by simplify_eq/=.
  - injection E as [= -> E]. apply andb_prop in Ha as [_ Ha], Ha' as [_ Ha'].
    destruct (IH a' Ha Ha' E) as [-> ->]. done.
Qed.

Lemma append_length (a b : string) :
  String.length (a +:+ b) = (String.length a + String.length b)%nat.
Proof.
  induction a as [|c a IH]; [done|].
  change (S (String.length (a +:+ b)) = S (String.length a + String.length b)).
  by rewrite IH.
Qed.

Lemma append_inv_tail (a b c : string) : a +:+ c = b +:+ c -> a = b.
Proof.
  revert b. induction a as [|x a IH]; intros [|y b] E; [done| | |].
  - apply (f_equal String.length) in E.
    change (String.length c = S (String.length (b +:+ c))) in E.
    rewrite append_length in E. lia.
  - apply (f_equal String.length) in E.
    change (S (String.length (a +:+ c)) = String.length c) in E.
    rewrite append_length in E. lia.
  - injection E as [= -> E]. f_equal. by apply IH.
Qed.

(** Joining with "-" loses nothing when no key contains a "-". *)
Lemma concat_dash_inj (l1 l2 : list string) :
  Forall (λ k, dash_free k = true) l1 -> Forall (λ k, dash_free k = true) l2 ->
  l1 ≠ [] -> l2 ≠ [] ->
  String.concat "-" l1 = String.concat "-" l2 -> l1 = l2.
Proof.
  intros H1. revert l2. induction H1 as [|x l1 Hx H1 IH]; [done|].
  intros l2 H2 _. destruct H2 as [|y l2 Hy H2]; [done|]. intros _.
  destruct l1 as [|x2 l1], l2 as [|y2 l2]; cbn [String.concat].
  - by intros ->.
  - intros ->. by rewrite dash_free_app_dash in Hx.
  - intros <-. by rewrite dash_free_app_dash in Hy.
  - intros E. apply dash_split in E as [-> E]; [|done..].
    f_equal. by apply IH.
Qed.

(** X20. The [walletId] tells apart any two lists of public keys that
    contain no "-" (as hexadecimal keys do), order included: two successful
    [createMultisigWallet] calls that return the same id were given the same
    keys in the same order, or else [customHash] maps two different buffers
    to one text. *)
Theorem X20_id_separates_keys (L : Lib) (N1 N2 : Net) (s1 s2 s1' s2' : Store)
  (p1 p2 : CreateParams.t) (r1 r2 : WalletSummary.t) :
  let keys1 := map CreateParams.publicKey (CreateParams.participants p1) in
  let keys2 := map CreateParams.publicKey (CreateParams.participants p2) in
  createMultisigWallet L N1 p1 s1 = (Ok r1, s1') ->
  createMultisigWallet L N2 p2 s2 = (Ok r2, s2') ->
  Forall (λ k, dash_free k = true) keys1 ->
  Forall (λ k, dash_free k = true) keys2 ->
  WalletSummary.walletId r1 = WalletSummary.walletId r2 ->
  keys1 = keys2
  ∨ ∃ a b id, a ≠ b ∧ customHash L a = Ok id ∧ customHash L b = Ok id.
Proof.
  intros keys1 keys2 H1 H2 Hd1 Hd2 Hid.
  apply createMultisigWallet_cases in H1
    as [(_ & _ & e & [=])|(Hv1 & fp1 & id1 & a1 & rs1 & Hfp1 & Hid1 & _ & [= ->] & _)].
  apply createMultisigWallet_cases in H2
    as [(_ & _ & e & [=])|(Hv2 & fp2 & id2 & a2 & rs2 & Hfp2 & Hid2 & _ & [= ->] & _)].
  simpl in Hid. subst id2. fold keys1 in Hfp1. fold keys2 in Hfp2.
  destruct (decide (fp1 = fp2)) as [<-|Hne].
  - unfold key_fingerprint, Buffer_from in *.
    destruct (decide (String.concat "-" keys1 = String.concat "-" keys2)) as [E|Hne].
    + left. apply concat_dash_inj; [done|done| | |done].
      * apply valid_create_bounds in Hv1 as (? & ? & ?). unfold keys1.
        destruct (CreateParams.participants p1); [simpl in *; lia|done].
      * apply valid_create_bounds in Hv2 as (? & ? & ?). unfold keys2.
        destruct (CreateParams.participants p2); [simpl in *; lia|done].
    + right. by exists (String.concat "-" keys1), (String.concat "-" keys2), fp1.
  - right. exists (Buffer_from (fp1 +:+ "#secux_btc_multisig")),
      (Buffer_from (fp2 +:+ "#secux_btc_multisig")), id1.
    split; [|done]. unfold Buffer_from. intros E. by apply append_inv_tail in E.
Qed.

Lemma X20_id_separates_keys_witness :
  map CreateParams.publicKey (CreateParams.participants Sample.two_of_three)
  = map CreateParams.publicKey (CreateParams.participants Sample2.one_of_three)
  ∨ ∃ a b id, a ≠ b ∧ customHash Sample.lib a = Ok id ∧ customHash Sample.lib b = Ok id.
Proof.
  assert (∃ r1 s1' r2 s2',
            createMultisigWallet Sample.lib (Sample.net 0) Sample.two_of_three
              empty_store = (Ok r1, s1')
            ∧ createMultisigWallet Sample.lib Sample2.net_later Sample2.one_of_three
                Sample.s_created = (Ok r2, s2')
            ∧ WalletSummary.walletId r1 = WalletSummary.walletId r2)
    as (r1 & s1' & r2 & s2' & H1 & H2 & Hid)
    by (eexists _, _, _, _; split_and!; vm_compute; reflexivity).
  apply (X20_id_separates_keys Sample.lib (Sample.net 0) Sample2.net_later
           empty_store Sample.s_created s1' s2' Sample.two_of_three
           Sample2.one_of_three r1 r2 H1 H2); [| |exact Hid];
    repeat constructor.
Defined.
